(** * LCopilot upload guardrails, job polling and result filtering

    A shallow embedding of the front-end guardrail code of the repository
    ([components/UploadBox.tsx], [components/FileUploader.tsx]), of the job
    polling hook ([hooks/useApi.ts]), of the issue filter of the results page
    ([pages/ExporterResults.tsx]) and of the shared type declarations, together
    with the properties the specification states about them.

    Conventions.
    - JavaScript strings are modelled by [string]; file names and MIME types
      are taken to be ASCII, so that [toLowerCase] only has to map [A-Z].
    - Byte counts and the numeric component props are integers ([Z]).
    - Text the user types (the notes of the correction form) is the sequence
      of its UTF-16 code units.
    - A TypeScript union of string literals is an inductive type together
      with the literal of each value (the severities), or the list of its
      literals (the job statuses); the values that arrive from the server
      are plain strings at run time, and a parsed response body is a JSON
      value.
    - React state is passed explicitly; the callbacks a handler invokes are
      collected in a log.
    - [validateFile] is embedded twice: as a function, which the other
      definitions call, and statement by statement over the objects it can
      reach, to show that the function is all there is to a call. *)

From Stdlib Require Import ZArith QArith Lia Ascii String.
From Stdlib Require Import Qround.
From stdpp Require Import base list strings pretty gmap.

Open Scope string_scope.
Open Scope list_scope.
Open Scope Z_scope.

(** ** The JavaScript string and array primitives used by the components *)

Module JS.

(** [c.toLowerCase()] on one ASCII character. *)
Definition lower_ascii (c : ascii) : ascii :=
  let n := nat_of_ascii c in
  if (Nat.leb 65 n && Nat.leb n 90)%bool then ascii_of_nat (n + 32) else c.

(** [String.prototype.toLowerCase]. *)
Fixpoint toLowerCase (s : string) : string :=
  match s with
  | EmptyString => EmptyString
  | String c s' => String (lower_ascii c) (toLowerCase s')
  end.

(** [s.split(sep)] for a one-character separator: the pieces between the
    occurrences of [sep], in order; never an empty array. *)
Fixpoint split (sep : ascii) (s : string) : list string :=
  match s with
  | EmptyString => [EmptyString]
  | String c s' =>
      if Ascii.eqb c sep then EmptyString :: split sep s'
      else match split sep s' with
           | [] => [String c EmptyString]
           | w :: ws => String c w :: ws
           end
  end.

(** [arr.pop()]: the last element, [undefined] (here [None]) on an empty
    array.  Only the returned element matters to the callers below. *)
Definition pop (arr : list string) : option string := last arr.

(** A template literal prints [undefined] as the word itself. *)
Definition template (v : option string) : string :=
  match v with
  | Some s => s
  | None => "undefined"
  end.

(** [String.prototype.startsWith]-style test used to build [includes]. *)
Fixpoint startsWith (s sub : string) : bool :=
  match sub, s with
  | EmptyString, _ => true
  | String _ _, EmptyString => false
  | String a sub', String b s' => Ascii.eqb a b && startsWith s' sub'
  end.

(** [String.prototype.includes]: [sub] occurs somewhere in [s]. *)
Fixpoint includes (s sub : string) : bool :=
  startsWith s sub ||
  match s with
  | EmptyString => false
  | String _ s' => includes s' sub
  end.

(** [Array.prototype.includes] on an array of strings. *)
Definition arr_includes (arr : list string) (x : string) : bool :=
  existsb (String.eqb x) arr.

(** [Array.prototype.join]. *)
Fixpoint join (sep : string) (arr : list string) : string :=
  match arr with
  | [] => ""
  | [x] => x
  | x :: rest => x +:+ sep +:+ join sep rest
  end.

(** Truthiness of a string: every string but the empty one. *)
Definition truthy (s : string) : bool :=
  match s with
  | EmptyString => false
  | String _ _ => true
  end.

(** [arr.slice(0, end)]: a negative [end] counts from the end of the array,
    and the result is clamped to the array. *)
Definition slice0 {A} (arr : list A) (end_ : Z) : list A :=
  let len := Z.of_nat (length arr) in
  let final := if end_ <? 0 then Z.max (len + end_) 0 else Z.min end_ len in
  take (Z.to_nat final) arr.

(** [Math.round(n / d)] for integers [n] and a positive [d]: the nearest
    integer, halves rounded up. *)
Definition round_div (n d : Z) : Z := (2 * n + d) / (2 * d).

End JS.

(** ** The browser's [File] object *)

Module File.

(** The attributes of a [File] ([Blob]) the program can observe: the three
    read-only fields the guardrails look at, the modification time and the
    bytes of the file. *)
Record t := mk {
  name : string;
  size : Z;
  type : string;
  lastModified : Z;
  bytes : list Byte.byte
}.

(** [size] is the number of bytes of the file. *)
Definition well_formed (f : t) : Prop := size f = Z.of_nat (length (bytes f)).

End File.

(** ** Event handlers

    A handler of a React component reads the state of the render it was
    created in (a snapshot, passed as an argument) and then issues state
    updates and prop callbacks.  [M] threads the pending state and collects
    the callbacks in the order they are invoked. *)

Module Handler.

Section Monad.
Context {St Ev : Type}.

Definition M (A : Type) : Type := St -> A * St * list Ev.

Definition ret {A} (a : A) : M A := fun s => (a, s, []).

Definition bind {A B} (m : M A) (k : A -> M B) : M B :=
  fun s =>
    let '(a, s1, l1) := m s in
    let '(b, s2, l2) := k a s1 in
    (b, s2, l1 ++ l2).

(** A [useState] setter. *)
Definition update (f : St -> St) : M unit := fun s => (tt, f s, []).

(** A call of a callback prop. *)
Definition call (e : Ev) : M unit := fun s => (tt, s, [e]).

(** The state a handler leaves behind, and the callbacks it made. *)
Definition state_after {A} (m : M A) (s : St) : St := snd (fst (m s)).
Definition calls_of {A} (m : M A) (s : St) : list Ev := snd (m s).

(** What a call returns. *)
Definition result_of {A} (m : M A) (s : St) : A := fst (fst (m s)).

(** A call that starts in [s] returns [a], leaves [s'] and makes the
    callbacks [calls]. *)
Definition runs {A} (m : M A) (s : St) (a : A) (s' : St) (calls : list Ev) : Prop :=
  m s = (a, s', calls).

End Monad.

Arguments M : clear implicits.

End Handler.

Declare Scope handler_scope.
Delimit Scope handler_scope with handler.
Notation "m1 ;; m2" := (Handler.bind m1 (fun _ => m2))
  (at level 100, m2 at level 200, right associativity) : handler_scope.
Notation "'let*' x ':=' m1 'in' m2" := (Handler.bind m1 (fun x => m2))
  (at level 10, x name, m1 at level 100, m2 at level 200) : handler_scope.
Open Scope handler_scope.

(** ** components/UploadBox.tsx *)

Module UploadBox.

(** The own properties of the [mimeTypes] object literal, in source order. *)
Definition mimeTypes : list (string * string) :=
  [ (".pdf", "application/pdf");
    (".jpg", "image/jpeg");
    (".jpeg", "image/jpeg");
    (".png", "image/png");
    (".json", "application/json") ].

(** [obj[key]] on an object literal: the value of the own property, if any.
    The keys looked up below start with a dot, so no inherited property of
    [Object.prototype] can be hit. *)
Fixpoint get_property (obj : list (string * string)) (key : string) : option string :=
  match obj with
  | [] => None
  | (k, v) :: rest => if String.eqb k key then Some v else get_property rest key
  end.

(** [`.${name.split('.').pop()?.toLowerCase()}`] *)
Definition extension_of (name : string) : string :=
  "." +:+ JS.template (JS.toLowerCase <$> JS.pop (JS.split "." name)).

(** [expectedMime.split('/')[1]] as it is passed to [includes]. *)
Definition subtype_of (expectedMime : string) : string :=
  JS.template (JS.split "/" expectedMime !! 1%nat).

(** The three messages [validateFile] can return besides the empty string. *)
Definition size_error (shownLimit : string) : string :=
  "File size exceeds " +:+ shownLimit +:+ "MB limit".
Definition type_error (acceptedTypes : list string) : string :=
  "File type not supported. Accepted: " +:+ JS.join ", " acceptedTypes.
Definition content_error : string := "File content does not match extension".

(** The defaults of the props. *)
Definition default_maxSize : Z := 10 * 1024 * 1024.
Definition default_acceptedTypes : list string :=
  [".pdf"; ".jpg"; ".jpeg"; ".png"; ".json"].

Record State := mkState {
  file : option File.t;
  error : string;
  isDragging : bool
}.

Definition initial : State := mkState None "" false.

Inductive Callback := onFileSelect (f : File.t).

Definition setFile (v : option File.t) : Handler.M State Callback unit :=
  Handler.update (fun s => mkState v (error s) (isDragging s)).
Definition setError (v : string) : Handler.M State Callback unit :=
  Handler.update (fun s => mkState (file s) v (isDragging s)).

Section Props.
(** [maxSize] (bytes) and [acceptedTypes] are props.  [Number_toString] is the
    conversion of the JavaScript number [maxSize / (1024 * 1024)] to a string
    inside the template literal; the quotient is a double, and its rendering
    is left abstract. *)
Variable maxSize : Z.
Variable acceptedTypes : list string.
Variable Number_toString : Q -> string.

Definition validateFile (file : File.t) : string :=
  (* Check file size *)
  if maxSize <? File.size file then
    size_error (Number_toString (maxSize # 1048576))
  else
    (* Check file type *)
    let extension := extension_of (File.name file) in
    if negb (JS.arr_includes acceptedTypes extension) then
      type_error acceptedTypes
    else
      (* Additional MIME type validation *)
      match get_property mimeTypes extension with
      | Some expectedMime =>
          if JS.truthy expectedMime
             && negb (JS.includes (File.type file) (subtype_of expectedMime))
          then content_error
          else ""
      | None => ""
      end.

Definition handleFile (selectedFile : File.t) : Handler.M State Callback unit :=
  let validationError := validateFile selectedFile in
  if JS.truthy validationError then
    setError validationError ;;
    setFile None
  else
    setError "" ;;
    setFile (Some selectedFile) ;;
    Handler.call (onFileSelect selectedFile).

Definition removeFile : Handler.M State Callback unit :=
  setFile None ;;
  setError "".

End Props.

End UploadBox.

(** ** components/FileUploader.tsx *)

Module FileUploader.

(** [FileWithPreview]: the dropped [File] extended by [Object.assign] with an
    [id]; [preview] is declared and never set.  [Object.assign] writes the
    [id] onto the [File] object itself; [name], [size] and [type] are
    read-only attributes of it, so the checks below never see the write. *)
Record FileWithPreview := mkFWP {
  file : File.t;
  id : string;
  preview : option string
}.

(** What [Date.now()] and [Math.random()] print as for the file at a given
    position of a drop. *)
Record Entropy := mkEntropy {
  Date_now : nat -> Z;
  Math_random : nat -> string
}.

(** [`${file.name}-${Date.now()}-${Math.random()}`] *)
Definition make_id (env : Entropy) (k : nat) (f : File.t) : string :=
  File.name f +:+ "-" +:+ pretty (Date_now env k) +:+ "-" +:+ Math_random env k.

Definition size_error (name shownLimit : string) : string :=
  name +:+ ": File size exceeds " +:+ shownLimit +:+ "MB limit".
Definition type_error (name : string) (acceptedTypes : list string) : string :=
  name +:+ ": File type not supported. Accepted: " +:+ JS.join ", " acceptedTypes.

Definition default_maxFiles : Z := 5.
Definition default_maxSize : Z := 10 * 1024 * 1024.
Definition default_acceptedTypes : list string :=
  [".pdf"; ".jpg"; ".jpeg"; ".png"; ".json"].

Record State := mkState {
  files : list FileWithPreview;
  isDragging : bool;
  errors : list string
}.

Definition initial : State := mkState [] false [].

Inductive Callback := onFilesSelect (fs : list FileWithPreview).

Definition setFiles (v : list FileWithPreview) : Handler.M State Callback unit :=
  Handler.update (fun s => mkState v (isDragging s) (errors s)).
Definition setErrors (v : list string) : Handler.M State Callback unit :=
  Handler.update (fun s => mkState (files s) (isDragging s) v).

(** [if (error)] on a [string | null]. *)
Definition is_error (error : option string) : bool :=
  match error with
  | Some e => JS.truthy e
  | None => false
  end.

Section Props.
Variable maxFiles : Z.
Variable maxSize : Z.
Variable acceptedTypes : list string.

(** [null] is [None]. *)
Definition validateFile (file : File.t) : option string :=
  if maxSize <? File.size file then
    Some (size_error (File.name file) (pretty (JS.round_div maxSize 1048576)))
  else
    let extension := UploadBox.extension_of (File.name file) in
    if negb (JS.arr_includes acceptedTypes extension) then
      Some (type_error (File.name file) acceptedTypes)
    else None.

(** The body of [newFileArray.forEach]: [k] is the position of the next file,
    [validFiles] and [newErrors] are the two arrays being pushed to. *)
Fixpoint forEach_file (env : Entropy) (k : nat) (newFileArray : list File.t)
    (validFiles : list FileWithPreview) (newErrors : list string)
    : list FileWithPreview * list string :=
  match newFileArray with
  | [] => (validFiles, newErrors)
  | f :: rest =>
      let error := validateFile f in
      if is_error error then
        forEach_file env (S k) rest validFiles (newErrors ++ [JS.template error])
      else
        let fileWithId := mkFWP f (make_id env k f) None in
        forEach_file env (S k) rest (validFiles ++ [fileWithId]) newErrors
  end.

(** [handleFiles], created in a render whose [files] state is [files]. *)
Definition handleFiles (files : list FileWithPreview) (env : Entropy)
    (newFiles : list File.t) : Handler.M State Callback unit :=
  let currentFileCount := Z.of_nat (length files) in
  let newFileArray := JS.slice0 newFiles (maxFiles - currentFileCount) in
  let '(validFiles, newErrors) := forEach_file env 0 newFileArray [] [] in
  (if (0 <? length validFiles)%nat then
     let updatedFiles := files ++ validFiles in
     setFiles updatedFiles ;;
     Handler.call (onFilesSelect updatedFiles)
   else Handler.ret tt) ;;
  setErrors newErrors.

(** [removeFile], created in a render whose [files] state is [files]. *)
Definition removeFile (files : list FileWithPreview) (fileId : string)
    : Handler.M State Callback unit :=
  let updatedFiles := filter (fun f => id f <> fileId) files in
  setFiles updatedFiles ;;
  Handler.call (onFilesSelect updatedFiles).

(** The two user operations on the uploader, and a session of them: each
    handler runs in the render that follows the previous update. *)
Inductive Op :=
  | Drop (env : Entropy) (newFiles : list File.t)
  | Remove (fileId : string).

Definition handler_of (st : State) (op : Op) : Handler.M State Callback unit :=
  match op with
  | Drop env newFiles => handleFiles (files st) env newFiles
  | Remove fileId => removeFile (files st) fileId
  end.

Definition step (st : State) (op : Op) : State :=
  Handler.state_after (handler_of st op) st.

Definition run (ops : list Op) : State := fold_left step ops initial.

(** Every list handed to [onFilesSelect] during a session, oldest first. *)
Fixpoint selections_from (st : State) (ops : list Op) : list Callback :=
  match ops with
  | [] => []
  | op :: rest => Handler.calls_of (handler_of st op) st ++ selections_from (step st op) rest
  end.

Definition selections (ops : list Op) : list Callback := selections_from initial ops.

End Props.

End FileUploader.

(** ** The guardrails statement by statement, over the objects they reach *)

Module Heap.

(** The objects a guardrail can reach: the [File] it is given, arrays of
    strings (the [acceptedTypes] prop, the arrays [split] builds) and the
    object literal [mimeTypes]. *)
Inductive Object :=
  | FileObject (f : File.t)
  | ArrayObject (items : list string)
  | PlainObject (props : list (string * string)).

(** Objects are referred to by address. *)
Definition Loc := nat.

(** Everything code inside a component can change: the objects, by
    address, and the state of the component.  The callbacks made are
    collected by the handler monad. *)
Record World (St : Type) := mkWorld {
  objects : list Object;
  component : St
}.
Arguments mkWorld {St} objects component.
Arguments objects {St} w.
Arguments component {St} w.

Section Primitives.
Context {St Ev : Type}.

(** A new object (an array or object literal, the result of [split]): it
    gets the next free address. *)
Definition alloc (o : Object) : Handler.M (World St) Ev Loc :=
  fun w => (length (objects w), mkWorld (objects w ++ [o]) (component w), []).

(** [file.name], [file.size], [file.type]: read-only attributes of the
    [File] at the address. *)
Definition file_attr {A} (attr : File.t -> A) (absent : A) (l : Loc)
    : Handler.M (World St) Ev A :=
  fun w =>
    (match objects w !! l with
     | Some (FileObject f) => attr f
     | _ => absent
     end, w, []).

(** The elements of the array at the address, as [includes] and [join]
    read them. *)
Definition array_items (l : Loc) : Handler.M (World St) Ev (list string) :=
  fun w =>
    (match objects w !! l with
     | Some (ArrayObject items) => items
     | _ => []
     end, w, []).

(** [arr.pop()]: takes the last element off the array at the address, in
    place, and returns it; [undefined] (here [None]) on an empty array. *)
Definition array_pop (l : Loc) : Handler.M (World St) Ev (option string) :=
  fun w =>
    match objects w !! l with
    | Some (ArrayObject items) =>
        (last items,
         mkWorld (<[l := ArrayObject (removelast items)]> (objects w)) (component w), [])
    | _ => (None, w, [])
    end.

(** [arr[i]] *)
Definition array_index (l : Loc) (i : nat) : Handler.M (World St) Ev (option string) :=
  fun w =>
    (match objects w !! l with
     | Some (ArrayObject items) => items !! i
     | _ => None
     end, w, []).

(** [obj[key]] on an object literal. *)
Definition property (l : Loc) (key : string) : Handler.M (World St) Ev (option string) :=
  fun w =>
    (match objects w !! l with
     | Some (PlainObject props) => UploadBox.get_property props key
     | _ => None
     end, w, []).

End Primitives.

(** What a call leaves of the world it started in: every object that was
    there is unchanged (new ones may have been added), and so is the state
    of the component. *)
Definition preserved {St} (before after : World St) : Prop :=
  objects before `prefix_of` objects after /\ component after = component before.

End Heap.

(** [validateFile] of components/UploadBox.tsx, statement by statement;
    [acceptedTypes] is the address of the array the prop holds and [file]
    the address of the [File] passed. *)

Module UploadBoxBody.

Section Props.
Variable maxSize : Z.
Variable acceptedTypes : Heap.Loc.
Variable Number_toString : Q -> string.

Definition validateFile (file : Heap.Loc)
    : Handler.M (Heap.World UploadBox.State) UploadBox.Callback string :=
  (* Check file size *)
  let* size := Heap.file_attr File.size 0 file in
  if maxSize <? size then
    Handler.ret (UploadBox.size_error (Number_toString (maxSize # 1048576)))
  else
    (* Check file type *)
    let* name := Heap.file_attr File.name "" file in
    let* pieces := Heap.alloc (Heap.ArrayObject (JS.split "." name)) in
    let* popped := Heap.array_pop pieces in
    let extension := "." +:+ JS.template (JS.toLowerCase <$> popped) in
    let* mimeTypes := Heap.alloc (Heap.PlainObject UploadBox.mimeTypes) in
    let* accepted := Heap.array_items acceptedTypes in
    if negb (JS.arr_includes accepted extension) then
      let* listed := Heap.array_items acceptedTypes in
      Handler.ret (UploadBox.type_error listed)
    else
      (* Additional MIME type validation *)
      let* expectedMime := Heap.property mimeTypes extension in
      match expectedMime with
      | Some expectedMime =>
          if JS.truthy expectedMime then
            let* type := Heap.file_attr File.type "" file in
            let* parts := Heap.alloc (Heap.ArrayObject (JS.split "/" expectedMime)) in
            let* subtype := Heap.array_index parts 1 in
            if negb (JS.includes type (JS.template subtype))
            then Handler.ret UploadBox.content_error
            else Handler.ret ""
          else Handler.ret ""
      | None => Handler.ret ""
      end.

End Props.

End UploadBoxBody.

(** [validateFile] of components/FileUploader.tsx, statement by
    statement. *)

Module FileUploaderBody.

Section Props.
Variable maxSize : Z.
Variable acceptedTypes : Heap.Loc.

Definition validateFile (file : Heap.Loc)
    : Handler.M (Heap.World FileUploader.State) FileUploader.Callback (option string) :=
  let* size := Heap.file_attr File.size 0 file in
  if maxSize <? size then
    let* name := Heap.file_attr File.name "" file in
    Handler.ret (Some (FileUploader.size_error name
                         (pretty (JS.round_div maxSize 1048576))))
  else
    let* name := Heap.file_attr File.name "" file in
    let* pieces := Heap.alloc (Heap.ArrayObject (JS.split "." name)) in
    let* popped := Heap.array_pop pieces in
    let extension := "." +:+ JS.template (JS.toLowerCase <$> popped) in
    let* accepted := Heap.array_items acceptedTypes in
    if negb (JS.arr_includes accepted extension) then
      let* name := Heap.file_attr File.name "" file in
      let* listed := Heap.array_items acceptedTypes in
      Handler.ret (Some (FileUploader.type_error name listed))
    else Handler.ret None.

End Props.

End FileUploaderBody.

(** ** hooks/useApi.ts *)

Module UseApi.


(** The JSON object [api.getJob] resolves to.  The fields hold whatever the
    server sent; [JobStatus] is what the interface declares for [status]. *)
Record Job := mkJob {
  job_id : string;
  status : string;
  created_at : string;
  user_type : option string;
  workflow_type : option string
}.

(** [ValidationResult['results']['issues'][number]['severity']]: the
    declared union of four string literals, and the string each value is at
    run time. *)
Inductive IssueSeverity := low | medium | high | critical.

Definition IssueSeverity_literal (s : IssueSeverity) : string :=
  match s with
  | low => "low"
  | medium => "medium"
  | high => "high"
  | critical => "critical"
  end.

(** An issue as [api.getResults] hands it over: the parsed JSON of the
    server's answer, which nothing checks against the interface, so the
    severity is the string the server sent. *)
Record Issue := mkIssue {
  severity : string;
  category : string;
  description : string;
  recommendation : string;
  affected_documents : list string
}.

(** An issue that has the type its interface declares: its severity is a
    value of the declared union. *)
Definition Issue_typed (i : Issue) : Prop :=
  exists s : IssueSeverity, severity i = IssueSeverity_literal s.

(** A value met where [useQuery] expects an interval: [false], a number of
    milliseconds, or a function of the fetched data.  [useJob] declares its
    own [refetchInterval] option as a number, but types are erased at run
    time and the results page passes a function. *)
Inductive Interval :=
  | Stop
  | Poll (ms : Z)
  | Callback (f : option Job -> Interval).

(** The [options] argument of [useJob], with the values its fields hold at
    run time; an absent field is [None]. *)
Record JobOptions := mkJobOptions {
  enabled : option bool;
  refetchInterval : option Interval
}.

(** [data?.status === literal] *)
Definition status_is (data : option Job) (literal : string) : bool :=
  bool_decide (status <$> data = Some literal).

(** The [refetchInterval] function [useJob] hands to [useQuery]. *)
Definition useJob_refetchInterval (options : option JobOptions) (data : option Job)
    : Interval :=
  (* Stop polling when job is completed or failed *)
  if status_is data "completed" || status_is data "failed" then Stop
  else default (Poll 2000) (options ≫= refetchInterval).

End UseApi.

(** ** pages/ExporterResults.tsx *)

Module ExporterResults.

(** The arrow function the page passes as the [refetchInterval] option of
    [useJob] (where the hook declares a number). *)
Definition refetchInterval (data : option UseApi.Job) : UseApi.Interval :=
  if UseApi.status_is data "completed" then UseApi.Stop else UseApi.Poll 3000.


(** The callback of [issues.filter]. *)
Definition is_high_priority (issue : UseApi.Issue) : bool :=
  String.eqb (UseApi.severity issue) "critical"
  || String.eqb (UseApi.severity issue) "high".

Definition highPriorityIssues (issues : list UseApi.Issue) : list UseApi.Issue :=
  List.filter is_high_priority issues.

Definition displayedIssues (showAllIssues : bool) (issues : list UseApi.Issue)
    : list UseApi.Issue :=
  if showAllIssues then issues else highPriorityIssues issues.

End ExporterResults.

(** ** The shared type declarations ([Finding]) *)

Module Types.

(** [Finding['severity']]: the declared union of three string literals, and
    the string each value is at run time. *)
Inductive FindingSeverity := critical | warning | info.

Definition FindingSeverity_literal (s : FindingSeverity) : string :=
  match s with
  | critical => "critical"
  | warning => "warning"
  | info => "info"
  end.

(** The [Finding] interface.  No code among the sources builds or reads a
    finding; the declaration is all there is of it, so the record carries
    the declared types. *)
Record Finding := mkFinding {
  id : string;
  category : string;
  severity : FindingSeverity;
  field : string;
  expected : string;
  actual : string;
  description : string;
  ucpReference : option string
}.

End Types.

(** The four severity levels the specification lists for a finding. *)
Definition four_levels : list string := ["critical"; "high"; "medium"; "low"].

(** ** The OCR orchestrator's daily budget

    The orchestrator is backend code ([ocr_coordinator.py] in the
    architecture overview) and is not among the sources; the front end never
    calls it directly.  This module follows sections 4.2 and 5 of the
    specification. *)

Module OCROrchestrator.

Definition Day := nat.
Definition JobId := nat.

(** Modelled from the spec: the stages of [extract] for one job (the
    orchestrator's code is missing).  The primary engine is attempted first;
    a job whose primary result is below the threshold, or failed, asks for
    the secondary engine; it either gets it (a call in flight, charged to a
    day) or is returned flagged low-confidence. *)
Inductive Phase :=
  | Submitted
  | NeedsSecondary
  | SecondaryInFlight (day : Day) (cost : Z)
  | ExtractedByPrimary
  | ExtractedBySecondary
  | LowConfidence.

(** Modelled from the spec: the shared state of the workers (the
    orchestrator's code is missing): the running daily spend counter, one
    count per day (no entry: nothing spent that day), the phase of every
    job, and the record of the costs charged to jobs. *)
Record System := mkSystem {
  counter : gmap Day Z;
  phase : gmap JobId Phase;
  ledger : list (JobId * Day * Z)
}.

Definition initial : System := mkSystem ∅ ∅ [].

Definition spent (s : System) (d : Day) : Z := default 0 (counter s !! d).

(** Modelled from the spec: the atomic actions of the workers (the
    orchestrator's code is missing).  An interleaving of concurrently
    processed jobs is a list of them, in the order they take effect.
    [CheckAndIncrement] is the check of the day's counter together with the
    recording of the call's cost, which section 5 requires to be one atomic
    operation on the shared counter. *)
Inductive Action :=
  | Submit (j : JobId)
  | PrimaryReturns (j : JobId) (confident : bool)
  | CheckAndIncrement (j : JobId) (today : Day) (cost : Z)
  | SecondaryReturns (j : JobId).

Definition set_phase (s : System) (j : JobId) (p : Phase) : System :=
  mkSystem (counter s) (<[j := p]> (phase s)) (ledger s).

Section Budget.
Variable ceiling : Z.

(** Modelled from the spec: the effect of one atomic action (the
    orchestrator's [extract], section 4.2, is missing).  Per job: the primary
    engine is always attempted first; when it is not confident (or fails) the
    secondary engine is attempted only if the day's ceiling has not been
    reached, otherwise the primary's result is returned flagged
    low-confidence; the check of the counter and the recording of the call's
    cost against the job and the counter are one atomic action.  The counter
    is the budget that gates the secondary engine; calls of the primary
    engine are not charged to it.  An action that is not enabled leaves the
    system as it is. *)
Definition step (s : System) (a : Action) : System :=
  match a with
  | Submit j =>
      match phase s !! j with
      | None => set_phase s j Submitted
      | Some _ => s
      end
  | PrimaryReturns j confident =>
      match phase s !! j with
      | Some Submitted =>
          set_phase s j (if confident then ExtractedByPrimary else NeedsSecondary)
      | _ => s
      end
  | CheckAndIncrement j today cost =>
      match phase s !! j with
      | Some NeedsSecondary =>
          if spent s today <? ceiling then
            mkSystem (<[today := spent s today + cost]> (counter s))
                     (<[j := SecondaryInFlight today cost]> (phase s))
                     ((j, today, cost) :: ledger s)
          else set_phase s j LowConfidence
      | _ => s
      end
  | SecondaryReturns j =>
      match phase s !! j with
      | Some (SecondaryInFlight _ _) => set_phase s j ExtractedBySecondary
      | _ => s
      end
  end.

Definition run (trace : list Action) : System := fold_left step trace initial.

(** Modelled from the spec: the action invokes the secondary engine when
    taken in [s] (the orchestrator's code is missing). *)
Definition invokes_secondary (s : System) (a : Action) : bool :=
  match a with
  | CheckAndIncrement j today _ =>
      match phase s !! j with
      | Some NeedsSecondary => spent s today <? ceiling
      | _ => false
      end
  | _ => false
  end.

End Budget.

(** Modelled from the spec: the total spend recorded against a day, summed
    over the costs charged to jobs (the orchestrator's code is missing). *)
Definition recorded (s : System) (d : Day) : Z :=
  foldr (fun e acc => if decide (e.1.2 = d) then e.2 + acc else acc) 0 (ledger s).

(** The counter agrees with the ledger, and a day is over the ceiling by
    less than the cost of one call charged to it. *)
Definition within_budget (ceiling : Z) (s : System) : Prop :=
  forall d,
    spent s d = recorded s d
    /\ (recorded s d <= ceiling
        \/ exists j cost, (j, d, cost) ∈ ledger s /\ recorded s d < ceiling + cost).

End OCROrchestrator.

(** ** The checks of the guardrails, as properties of a file *)

Module Guardrail.

(** The file is no larger than the configured maximum. *)
Definition size_ok (maxSize : Z) (f : File.t) : Prop := File.size f <= maxSize.

(** The extension computed from the name is in the allow-list. *)
Definition type_ok (acceptedTypes : list string) (f : File.t) : Prop :=
  UploadBox.extension_of (File.name f) ∈ acceptedTypes.

(** The content type the browser reports contains the MIME subtype that the
    table gives for the extension; an extension outside the table asks for
    nothing. *)
Definition content_matches (f : File.t) : Prop :=
  forall expectedMime,
    UploadBox.get_property UploadBox.mimeTypes (UploadBox.extension_of (File.name f))
      = Some expectedMime ->
    exists before after,
      File.type f = before +:+ UploadBox.subtype_of expectedMime +:+ after.

(** A validation function accepts exactly the files that pass the three
    checks. *)
Definition accepts_iff_three_checks (accepts : File.t -> bool)
    (maxSize : Z) (acceptedTypes : list string) : Prop :=
  forall f,
    File.well_formed f ->
    (accepts f = true <->
     size_ok maxSize f /\ type_ok acceptedTypes f /\ content_matches f).

(** A validation function confirms the extension against a signature read
    from the bytes of the file: for some reading [sniff] of the bytes, a file
    whose extension is allowed is rejected whenever [sniff] disagrees with
    the MIME type of the extension. *)
Definition confirms_by_signature (accepts : File.t -> bool)
    (acceptedTypes : list string) : Prop :=
  exists sniff : list Byte.byte -> option string,
    forall f,
      File.well_formed f ->
      type_ok acceptedTypes f ->
      sniff (File.bytes f)
        <> UploadBox.get_property UploadBox.mimeTypes (UploadBox.extension_of (File.name f)) ->
      accepts f = false.

(** Acceptance as the callers test it: [if (validationError)] in
    [UploadBox.handleFile], [if (error)] in [FileUploader.handleFiles]. *)
Definition upload_box_accepts (maxSize : Z) (acceptedTypes : list string)
    (Number_toString : Q -> string) (f : File.t) : bool :=
  negb (JS.truthy (UploadBox.validateFile maxSize acceptedTypes Number_toString f)).

Definition file_uploader_accepts (maxSize : Z) (acceptedTypes : list string)
    (f : File.t) : bool :=
  negb (FileUploader.is_error (FileUploader.validateFile maxSize acceptedTypes f)).

(** The files of a list all pass the uploader's check. *)
Definition all_valid (maxSize : Z) (acceptedTypes : list string)
    (fs : list FileUploader.FileWithPreview) : Prop :=
  Forall (fun fw => FileUploader.validateFile maxSize acceptedTypes (FileUploader.file fw) = None) fs.

End Guardrail.

(** ** Polling and severities, as properties *)

Module Polling.



(** An interval function polls at a positive interval whenever it does not
    stop. *)
Definition polls_positively (interval : option UseApi.Job -> UseApi.Interval) : Prop :=
  forall data,
    interval data <> UseApi.Stop -> exists ms, interval data = UseApi.Poll ms /\ 0 < ms.

End Polling.

(** An issue is of high priority on the results page. *)
Definition high_priority (issue : UseApi.Issue) : Prop :=
  UseApi.severity issue = "critical" \/ UseApi.severity issue = "high".

(** Rendering of a quotient of bytes by 1024 * 1024 that is exact on whole
    numbers of megabytes, such as the default limit. *)
Definition whole_megabytes (q : Q) : string := pretty (Qnum q / Zpos (Qden q)).

(** ** The request function [api.validate] of hooks/useApi.ts *)

Module Json.

(** A value as [JSON.parse] builds it.  A number is kept as the rational
    its literal denotes; the properties of an object are in the order of
    the text. *)
#[local] Unset Elimination Schemes.
Inductive t :=
  | Null
  | Bool (b : bool)
  | Number (n : Q)
  | Str (s : string)
  | Array (items : list t)
  | Object (props : list (string * t)).
#[local] Set Elimination Schemes.

(** The two ways the expressions below throw a [TypeError]: a property is
    read off [null], or an object has no primitive value to print. *)
Inductive TypeErrorKind :=
  | ReadOfNull
  | NoPrimitiveValue.

(** How an expression completes: with a value, or by throwing. *)
Inductive Completion (A : Type) :=
  | Normal (a : A)
  | Throws (e : TypeErrorKind).
Arguments Normal {A} a.
Arguments Throws {A} e.

(** [value.key], for a key that is no property of arrays, strings, numbers
    or booleans: on an object the own property of that name (the last one
    in the text, which is the one [JSON.parse] keeps), [undefined] (here
    [None]) when there is none and on every other value but [null]; on
    [null] the read throws. *)
Definition get (v : t) (key : string) : Completion (option t) :=
  match v with
  | Null => Throws ReadOfNull
  | Object props => Normal (snd <$> last (filter (fun p => p.1 = key) props))
  | _ => Normal None
  end.

Section ToString.
(** The conversion of a number to a string is left abstract. *)
Variable Number_toString : Q -> string.

(** The conversion to a string a template literal applies.  An array prints
    its elements separated by commas, a [null] element as nothing.  An
    object prints as [[object Object]], unless it has a property
    [toString] of its own: a parsed value is never a function, so that
    object has no primitive value and the conversion throws. *)
Fixpoint to_string (v : t) : Completion string :=
  match v with
  | Null => Normal "null"
  | Bool b => Normal (if b then "true" else "false")
  | Number n => Normal (Number_toString n)
  | Str s => Normal s
  | Array items =>
      (fix join (items : list t) : Completion string :=
         match items with
         | [] => Normal ""
         | x :: rest =>
             match (match x with Null => Normal "" | _ => to_string x end) with
             | Throws e => Throws e
             | Normal first =>
                 match rest with
                 | [] => Normal first
                 | _ :: _ =>
                     match join rest with
                     | Throws e => Throws e
                     | Normal others => Normal (first +:+ "," +:+ others)
                     end
                 end
             end
         end) items
  | Object props =>
      if bool_decide ("toString" ∈ props.*1) then Throws NoPrimitiveValue
      else Normal "[object Object]"
  end.

(** [`${value.key}`] *)
Definition template_of (v : t) (key : string) : Completion string :=
  match get v key with
  | Throws e => Throws e
  | Normal None => Normal "undefined"
  | Normal (Some property) => to_string property
  end.

End ToString.

End Json.

Module Api.

(** [ValidationRequest]: the files handed over by the uploader and the two
    optional tags. *)
Record ValidationRequest := mkRequest {
  files : list FileUploader.FileWithPreview;
  user_type : option string;
  workflow_type : option string
}.

(** One entry of a [FormData]: a file or a text value under a key. *)
Inductive FormValue :=
  | FileValue (f : FileUploader.FileWithPreview)
  | TextValue (v : string).

(** [if (data.user_type) formData.append(...)]: appended when the tag is
    present and not the empty string. *)
Definition append_if_truthy (key : string) (v : option string)
    (formData : list (string * FormValue)) : list (string * FormValue) :=
  match v with
  | Some s => if JS.truthy s then formData ++ [(key, TextValue s)] else formData
  | None => formData
  end.

(** The [FormData] built by [api.validate]. *)
Definition formData_of (data : ValidationRequest) : list (string * FormValue) :=
  let formData := foldl (fun acc f => acc ++ [("files", FileValue f)]) [] (files data) in
  let formData := append_if_truthy "user_type" (user_type data) formData in
  append_if_truthy "workflow_type" (workflow_type data) formData.

(** How an asynchronous call settles: with a value, with a thrown [Error]
    carrying a message, or with a thrown value that is no [Error]. *)
Inductive Settled (A : Type) :=
  | Resolved (a : A)
  | ThrewError (message : string)
  | ThrewOther.
Arguments Resolved {A} a.
Arguments ThrewError {A} message.
Arguments ThrewOther {A}.

(** How the [fetch] of [api.validate] ends: the promise rejects with an
    [Error] (no answer), or a response arrives with its [ok] flag, its
    status and the way [response.json()] settles: with the parsed body,
    whatever value that is, or with an error. *)
Inductive FetchResult :=
  | FetchRejected (message : string)
  | Responded (ok : bool) (status : Z) (json : Settled Json.t).

(** [api.validate] after the [fetch]: a response that is not [ok] is an
    error, with a message of its own for status 429; an [ok] response is
    answered by its parsed body. *)
Definition validate (r : FetchResult) : Settled Json.t :=
  match r with
  | FetchRejected message => ThrewError message
  | Responded ok status json =>
      if negb ok then
        if status =? 429 then ThrewError "Rate limited, please retry shortly."
        else ThrewError "Validation failed"
      else json
  end.

End Api.

(** ** components/Toast: the toasts a page shows *)

Module Toast.

(** What a page passes to [showToast]. *)
Record t := mk {
  type : string;
  title : string;
  message : string
}.

End Toast.

(** ** ExportLCUpload: the export upload page *)

Module ExportLCUpload.

Record DocumentSpec := mkDoc {
  id : string;
  name : string;
  description : string;
  required : bool;
  extensions : list string
}.

Definition requiredDocuments : list DocumentSpec :=
  [ mkDoc "lc" "Letter of Credit (LC)" "Original LC issued by the importing bank"
      true [".pdf"];
    mkDoc "invoice" "Commercial Invoice" "Detailed invoice matching LC terms"
      true [".pdf"; ".jpg"; ".jpeg"; ".png"];
    mkDoc "packing" "Packing List" "Detailed packing and weight information"
      true [".pdf"; ".jpg"; ".jpeg"; ".png"];
    mkDoc "bl" "Bill of Lading" "Transport document for goods shipment"
      true [".pdf"; ".jpg"; ".jpeg"; ".png"];
    mkDoc "coo" "Certificate of Origin" "Government-issued origin certificate"
      true [".pdf"; ".jpg"; ".jpeg"; ".png"];
    mkDoc "insurance" "Insurance Certificate" "Marine insurance coverage certificate"
      false [".pdf"; ".jpg"; ".jpeg"; ".png"] ].

(** The props the page passes to [FileUploader]. *)
Definition maxFiles : Z := 10.
Definition maxSize : Z := 25 * 1024 * 1024.
Definition acceptedTypes : list string := [".pdf"; ".jpg"; ".jpeg"; ".png"].

(** The updater [handleDocumentCheck] passes to [setCheckedDocuments]. *)
Definition handleDocumentCheck (docId : string) (prev : list string) : list string :=
  if JS.arr_includes prev docId
  then filter (fun id => id <> docId) prev
  else prev ++ [docId].

(** [missingRequired], computed from any list of document specifications. *)
Definition missing_of (documents : list DocumentSpec) (checkedDocuments : list string)
    : list DocumentSpec :=
  let requiredDocs := List.filter required documents in
  List.filter (fun doc => negb (JS.arr_includes checkedDocuments (id doc))) requiredDocs.

(** [.filter(doc => doc.required).every(doc => checkedDocuments.includes(doc.id))] *)
Definition all_checked_of (documents : list DocumentSpec) (checkedDocuments : list string)
    : bool :=
  forallb (fun doc => JS.arr_includes checkedDocuments (id doc))
    (List.filter required documents).

Definition allRequiredChecked (checkedDocuments : list string) : bool :=
  all_checked_of requiredDocuments checkedDocuments.

(** What [handleSubmit] does before it waits for the server: a warning toast,
    or the request handed to [validateMutation.mutateAsync]. *)
Inductive Started :=
  | Warned (toast : Toast.t)
  | Requested (data : Api.ValidationRequest).

Definition handleSubmit (selectedFiles : list FileUploader.FileWithPreview)
    (checkedDocuments : list string) : Started :=
  (* Validation *)
  if (length selectedFiles =? 0)%nat then
    Warned (Toast.mk "warning" "No Files Selected"
              "Please upload at least one document to proceed with validation.")
  else
    let missingRequired := missing_of requiredDocuments checkedDocuments in
    if (0 <? length missingRequired)%nat then
      Warned (Toast.mk "warning" "Missing Required Documents"
                ("Please confirm you have: " +:+ JS.join ", " (map name missingRequired)))
    else
      Requested (Api.mkRequest selectedFiles (Some "exporter") None).

(** What [handleSubmit] does once the request has settled: the toast it
    shows and the route it navigates to (after a second), if any.  The
    message of the success toast is built first; when [result.job_id] or its
    conversion to a string throws, the [catch] shows the error toast with
    the message of the [TypeError], whose wording is the engine's
    ([TypeError_message]).  The route is built from the same [result] a
    second later. *)
Definition handleSubmit_settled (Number_toString : Q -> string)
    (TypeError_message : Json.TypeErrorKind -> string) (result : Api.Settled Json.t)
    : Toast.t * option string :=
  match result with
  | Api.Resolved result =>
      match Json.template_of Number_toString result "job_id" with
      | Json.Normal job_id =>
          (Toast.mk "success" "Validation Started"
             ("Job " +:+ job_id +:+ " created successfully. Redirecting to results..."),
           Some ("/exporter-results/" +:+ job_id))
      | Json.Throws e => (Toast.mk "error" "Validation Failed" (TypeError_message e), None)
      end
  | Api.ThrewError message => (Toast.mk "error" "Validation Failed" message, None)
  | Api.ThrewOther =>
      (Toast.mk "error" "Validation Failed"
         "An error occurred while starting validation.", None)
  end.

(** The [disabled] attribute of the submit button. *)
Definition submit_disabled (selectedFiles : list FileUploader.FileWithPreview)
    (checkedDocuments : list string) (isPending : bool) : bool :=
  negb (allRequiredChecked checkedDocuments)
  || (length selectedFiles =? 0)%nat
  || isPending.

End ExportLCUpload.

(** ** pages/ImportLCUpload.tsx *)

Module ImportLCUpload.

(** The two workflows; [null] is [None] where a workflow is optional. *)
Inductive Workflow :=
  | draft_lc_risk
  | supplier_document_check.

Definition workflow_name (w : Workflow) : string :=
  match w with
  | draft_lc_risk => "draft-lc-risk"
  | supplier_document_check => "supplier-document-check"
  end.

(** [workflowConfigs[workflow].documents] *)
Definition documents (w : Workflow) : list ExportLCUpload.DocumentSpec :=
  match w with
  | draft_lc_risk =>
      [ ExportLCUpload.mkDoc "draft-lc" "Draft Letter of Credit"
          "Draft LC document from your bank" true [".pdf"];
        ExportLCUpload.mkDoc "purchase-order" "Purchase Order"
          "Original purchase order or contract" false [".pdf"; ".jpg"; ".jpeg"; ".png"];
        ExportLCUpload.mkDoc "proforma-invoice" "Proforma Invoice"
          "Supplier's proforma invoice" false [".pdf"; ".jpg"; ".jpeg"; ".png"] ]
  | supplier_document_check =>
      [ ExportLCUpload.mkDoc "lc" "Letter of Credit"
          "Current LC for reference" true [".pdf"];
        ExportLCUpload.mkDoc "supplier-invoice" "Supplier Invoice"
          "Commercial invoice from supplier" true [".pdf"; ".jpg"; ".jpeg"; ".png"];
        ExportLCUpload.mkDoc "packing-list" "Packing List"
          "Detailed packing information" true [".pdf"; ".jpg"; ".jpeg"; ".png"];
        ExportLCUpload.mkDoc "bl" "Bill of Lading"
          "Transport document" true [".pdf"; ".jpg"; ".jpeg"; ".png"];
        ExportLCUpload.mkDoc "certificate" "Certificates"
          "Origin, quality, or inspection certificates" false
          [".pdf"; ".jpg"; ".jpeg"; ".png"] ]
  end.

Record State := mkState {
  selectedWorkflow : option Workflow;
  selectedFiles : list FileUploader.FileWithPreview;
  checkedDocuments : list string
}.

Definition handleWorkflowSelect (workflow : Workflow) (st : State) : State :=
  mkState (Some workflow) [] [].

Definition handleDocumentCheck (docId : string) (st : State) : State :=
  mkState (selectedWorkflow st) (selectedFiles st)
    (if JS.arr_includes (checkedDocuments st) docId
     then filter (fun id => id <> docId) (checkedDocuments st)
     else checkedDocuments st ++ [docId]).

Definition handleFilesSelect (files : list FileUploader.FileWithPreview) (st : State)
    : State :=
  mkState (selectedWorkflow st) files (checkedDocuments st).

Definition allRequiredChecked (st : State) : bool :=
  match selectedWorkflow st with
  | Some w => ExportLCUpload.all_checked_of (documents w) (checkedDocuments st)
  | None => false
  end.

Definition handleSubmit (st : State) : ExportLCUpload.Started :=
  match selectedWorkflow st with
  | None =>
      ExportLCUpload.Warned
        (Toast.mk "warning" "Workflow Not Selected"
           "Please select a workflow before proceeding.")
  | Some w =>
      if (length (selectedFiles st) =? 0)%nat then
        ExportLCUpload.Warned
          (Toast.mk "warning" "No Files Selected"
             "Please upload at least one document to proceed.")
      else
        let missingRequired :=
          ExportLCUpload.missing_of (documents w) (checkedDocuments st) in
        if (0 <? length missingRequired)%nat then
          ExportLCUpload.Warned
            (Toast.mk "warning" "Missing Required Documents"
               ("Please confirm you have: "
                +:+ JS.join ", " (map ExportLCUpload.name missingRequired)))
        else
          ExportLCUpload.Requested
            (Api.mkRequest (selectedFiles st) (Some "importer") (Some (workflow_name w)))
  end.

Definition submit_disabled (st : State) (isPending : bool) : bool :=
  negb (allRequiredChecked st)
  || (length (selectedFiles st) =? 0)%nat
  || isPending.

End ImportLCUpload.

(** ** components/Toast: the provider's list of toasts *)

Module ToastProvider.

(** An element of the [toasts] state: what the page passed, under the id
    the provider gave it. *)
Record Shown := mkShown {
  id : string;
  toast : Toast.t
}.

(** [showToast], called when [Date.now()] is [now]. *)
Definition showToast (now : Z) (t : Toast.t) (prev : list Shown) : list Shown :=
  let id := pretty now in
  prev ++ [mkShown id t].

Definition removeToast (id' : string) (prev : list Shown) : list Shown :=
  filter (fun t => id t <> id') prev.

(** Who calls [onClose(id)] of a toast: its close button, or the timer
    the toast sets when it is mounted, which hides it after [duration]
    milliseconds (5000 unless the caller says otherwise, and no page does;
    no timer for a duration of zero or less) and calls [onClose] 300
    milliseconds later.  The toast passes its own [id]; [onClose] is the
    provider's [removeToast]. *)
Inductive Source :=
  | CloseButton
  | Timer.

(** What happens to the provider: a page calls [showToast] when
    [Date.now()] is [now], or a toast calls [onClose]. *)
Inductive Event :=
  | Show (now : Z) (t : Toast.t)
  | Close (by_ : Source) (id : string).

Definition step (prev : list Shown) (e : Event) : list Shown :=
  match e with
  | Show now t => showToast now t prev
  | Close _ id => removeToast id prev
  end.

(** The [toasts] state after the events listed, oldest first; the provider
    renders one [Toast] for each element, keyed by its id. *)
Definition run (events : list Event) : list Shown := foldl step [] events.



End ToastProvider.

(** ** pages/ExporterResults.tsx: what the page derives from the results *)

Module ExporterResultsView.

(** [ValidationResult['results']['documents'][number]] *)
Record Document := mkDocument {
  doc_name : string;
  doc_status : string;
  doc_issues : list string
}.

(** [ValidationResult['results']] *)
Record Results := mkResults {
  overall_compliance : bool;
  risk_score : Q;
  issues : list UseApi.Issue;
  documents : list Document
}.

(** The object [getComplianceStatus] returns; [icon] is the name of the
    icon component. *)
Record ComplianceStatus := mkStatus {
  status : string;
  color : string;
  bg : string;
  icon : string
}.

Definition getComplianceStatus (results : Results) : ComplianceStatus :=
  if overall_compliance results then
    mkStatus "Compliant" "text-green-600" "bg-green-50" "CheckCircle"
  else
    let criticalIssues :=
      length (List.filter (fun i => String.eqb (UseApi.severity i) "critical")
                (issues results)) in
    if (0 <? criticalIssues)%nat then
      mkStatus "Critical Issues" "text-red-600" "bg-red-50" "AlertTriangle"
    else
      mkStatus "Needs Attention" "text-yellow-600" "bg-yellow-50" "AlertTriangle".

(** [results.results.issues.length > highPriorityIssues.length]: the
    condition under which the toggle button is rendered. *)
Definition toggle_rendered (results : Results) : bool :=
  (length (ExporterResults.highPriorityIssues (issues results))
   <? length (issues results))%nat.

(** [displayedIssues.length === 0]: the "No Issues Found" card replaces the
    list. *)
Definition no_issues_found (showAllIssues : bool) (results : Results) : bool :=
  (length (ExporterResults.displayedIssues showAllIssues (issues results)) =? 0)%nat.

(** The [priority] the page gives the card of an issue. *)
Definition priority_of (issue : UseApi.Issue) : Z :=
  if String.eqb (UseApi.severity issue) "critical" then 1
  else if String.eqb (UseApi.severity issue) "high" then 2
  else 3.

(** The "Correction Services" line of the export summary: the estimate it
    prints, when it is rendered. *)
Definition correction_services (results : Results) : option Z :=
  let highPriorityIssues := ExporterResults.highPriorityIssues (issues results) in
  if negb (overall_compliance results) && (0 <? length highPriorityIssues)%nat
  then Some (Z.of_nat (length highPriorityIssues) * 300)
  else None.

End ExporterResultsView.

(** ** components/RiskCard.tsx *)

Module RiskCard.

Record BusinessImpact := mkImpact {
  type : string;
  severity : string;
  description : string;
  estimatedCost : option string;
  timeline : option string
}.

(** [Risk]; [detectedAt] holds the text the date is built from and
    [lastUpdated] the time of the render. *)
Record Risk := mkRisk {
  id : string;
  title : string;
  risk_description : string;
  category : string;
  level : string;
  priority : Z;
  businessImpacts : list BusinessImpact;
  recommendations : list string;
  affectedDocuments : option (list string);
  detectedAt : string;
  lastUpdated : Z
}.

Section Props.
Variable showFullDetails : bool.

Definition displayRecommendations (risk : Risk) : list string :=
  if showFullDetails then recommendations risk else JS.slice0 (recommendations risk) 2.

Definition displayImpacts (risk : Risk) : list BusinessImpact :=
  if showFullDetails then businessImpacts risk else JS.slice0 (businessImpacts risk) 2.

(** [risk.affectedDocuments.slice(0, showFullDetails ? undefined : 3)], inside
    the section that is rendered for a non-empty list only. *)
Definition displayDocuments (risk : Risk) : list string :=
  match affectedDocuments risk with
  | Some docs =>
      if (0 <? length docs)%nat
      then (if showFullDetails then docs else JS.slice0 docs 3)
      else []
  | None => []
  end.

(** The "+N more" lines: the number each prints, when it is rendered. *)
Definition more_of {A} (shown : Z) (l : list A) : option Z :=
  if negb showFullDetails && (shown <? Z.of_nat (length l))
  then Some (Z.of_nat (length l) - shown)
  else None.

Definition more_impacts (risk : Risk) : option Z := more_of 2 (businessImpacts risk).
Definition more_recommendations (risk : Risk) : option Z :=
  more_of 2 (recommendations risk).
Definition more_documents (risk : Risk) : option Z :=
  match affectedDocuments risk with
  | Some docs => if (0 <? length docs)%nat then more_of 3 docs else None
  | None => None
  end.

End Props.

(** The note in the footer of the card. *)
Definition action_note (risk : Risk) : option string :=
  if String.eqb (level risk) "critical" then Some "Immediate action required"
  else if String.eqb (level risk) "high" then Some "Review within 24h"
  else None.

(** The object [getRiskLevelStyles] returns. *)
Record Styles := mkStyles {
  badge : string;
  border : string;
  accent : string
}.

(** [getRiskLevelStyles]: a [switch] over four cases without a default; for
    a level that is none of them the function ends without a [return], that
    is, with [undefined] (here [None]). *)
Definition getRiskLevelStyles (level : string) : option Styles :=
  if String.eqb level "critical" then
    Some (mkStyles "bg-red-100 text-red-800 border-red-200" "border-red-200" "bg-red-500")
  else if String.eqb level "high" then
    Some (mkStyles "bg-orange-100 text-orange-800 border-orange-200" "border-orange-200"
            "bg-orange-500")
  else if String.eqb level "medium" then
    Some (mkStyles "bg-yellow-100 text-yellow-800 border-yellow-200" "border-yellow-200"
            "bg-yellow-500")
  else if String.eqb level "low" then
    Some (mkStyles "bg-green-100 text-green-800 border-green-200" "border-green-200"
            "bg-green-500")
  else None.

(** What the card reads off the styles while it renders: [styles.border],
    [styles.accent] and [styles.badge] for the level of the risk, and
    [getRiskLevelStyles(impact.severity).badge] for every impact on display.
    Reading a property of [undefined] throws; then there is no card
    ([None]). *)
Definition style_classes (showFullDetails : bool) (risk : Risk)
    : option (Styles * list string) :=
  styles ← getRiskLevelStyles (level risk);
  badges ← mapM (fun impact => badge <$> getRiskLevelStyles (severity impact))
             (displayImpacts showFullDetails risk);
  Some (styles, badges).

End RiskCard.

(** The [risk] prop the results page builds for the issue at position
    [index] of the displayed list; [created_at] is the job's creation time
    and [now] the time of the render. *)
Definition risk_of_issue (created_at : string) (now : Z) (index : nat)
    (issue : UseApi.Issue) : RiskCard.Risk :=
  RiskCard.mkRisk
    ("issue-" +:+ pretty index)
    (UseApi.description issue)
    (UseApi.recommendation issue)
    (UseApi.category issue)
    (UseApi.severity issue)
    (ExporterResultsView.priority_of issue)
    [ RiskCard.mkImpact "regulatory" (UseApi.severity issue)
        ("Compliance issue in " +:+ UseApi.category issue) None None ]
    [ UseApi.recommendation issue ]
    (Some (UseApi.affected_documents issue))
    created_at
    now.

(** The cards of the results page, in display order. *)
Definition risk_cards (showAllIssues : bool) (created_at : string) (now : Z)
    (results : ExporterResultsView.Results) : list RiskCard.Risk :=
  imap (risk_of_issue created_at now)
    (ExporterResults.displayedIssues showAllIssues (ExporterResultsView.issues results)).

(** ** components/CorrectionForm.tsx and the page that renders it *)

Module CorrectionForm.

(** The form's own [Issue]: an issue of the results with an [id]. *)
Record Issue := mkIssue {
  id : string;
  severity : string;
  category : string;
  description : string;
  recommendation : string;
  affected_documents : list string
}.

(** The text of the notes field is whatever the user typed, so it is kept
    as JavaScript has it: the sequence of its UTF-16 code units. *)
Definition Text := list N.

(** The code units of a text in the Latin-1 range, one per character. *)
Definition text_of (s : string) : Text := N_of_ascii <$> list_ascii_of_string s.

(** The code units [String.prototype.trim] strips, the white space and the
    line terminators of the language: tab, vertical tab, form feed, space,
    no-break space, the byte-order mark, the other space separators of
    Unicode (U+1680, U+2000 to U+200A, U+202F, U+205F, U+3000), line feed,
    carriage return, line separator and paragraph separator.  Each is one
    code unit, and no half of a surrogate pair is among them. *)
Definition is_space (c : N) : bool :=
  ((c =? 0x0009) || (c =? 0x000B) || (c =? 0x000C) || (c =? 0x0020)
   || (c =? 0x00A0) || (c =? 0xFEFF)
   || (c =? 0x1680) || ((0x2000 <=? c) && (c <=? 0x200A))
   || (c =? 0x202F) || (c =? 0x205F) || (c =? 0x3000)
   || (c =? 0x000A) || (c =? 0x000D) || (c =? 0x2028) || (c =? 0x2029))%N.

Fixpoint trimStart (s : Text) : Text :=
  match s with
  | [] => []
  | c :: s' => if is_space c then trimStart s' else s
  end.

(** Drops the white space at the end: a code unit is kept when it is no
    white space or something is kept after it. *)
Fixpoint trimEnd (s : Text) : Text :=
  match s with
  | [] => []
  | c :: s' =>
      match trimEnd s' with
      | [] => if is_space c then [] else [c]
      | rest => c :: rest
      end
  end.

Definition trim (s : Text) : Text := trimEnd (trimStart s).

(** [getSeverityBadge]: a [switch] over four cases without a default;
    [undefined] (here [None]) for any other severity. *)
Definition getSeverityBadge (severity : string) : option string :=
  if String.eqb severity "critical" then Some "bg-red-100 text-red-800"
  else if String.eqb severity "high" then Some "bg-orange-100 text-orange-800"
  else if String.eqb severity "medium" then Some "bg-yellow-100 text-yellow-800"
  else if String.eqb severity "low" then Some "bg-green-100 text-green-800"
  else None.

(** [Math.round] on a rational: the nearest integer, halves rounded up. *)
Definition Math_round (q : Q) : Z := Qfloor (q + (1 # 2)).

(** The updater [handleIssueToggle] passes to [setSelectedIssues]. *)
Definition handleIssueToggle (issueId : string) (prev : list string) : list string :=
  if JS.arr_includes prev issueId
  then filter (fun id => id <> issueId) prev
  else prev ++ [issueId].

(** [AmendmentRequest] of hooks/useApi.ts. *)
Record AmendmentRequest := mkAmendment {
  job_id : string;
  selected_issues : list string;
  correction_type : string;
  urgency_level : string;
  notes : option Text
}.

Record State := mkState {
  selectedIssues : list string;
  correctionType : string;
  urgencyLevel : string;
  notes_text : Text
}.

Definition initial : State := mkState [] "standard" "medium" [].

Section Props.
Variable jobId : string.
Variable userType : string.

(** [handleSubmit] up to the call of [mutateAsync]. *)
Definition handleSubmit (st : State) : Toast.t + AmendmentRequest :=
  if (length (selectedIssues st) =? 0)%nat then
    inl (Toast.mk "warning" "No Issues Selected"
           "Please select at least one issue to request corrections for.")
  else
    inr (mkAmendment jobId (selectedIssues st) (correctionType st) (urgencyLevel st)
           (let trimmed := trim (notes_text st) in
            match trimmed with
            | [] => None
            | _ :: _ => Some trimmed
            end)).

(** The products below are exact in double precision for every selection
    that fits in memory, so they are computed on rationals. *)
Definition getEstimatedCost (st : State) : Z :=
  let baseRate : Q := if String.eqb userType "exporter" then 500 # 1 else 750 # 1 in
  let urgencyMultiplier : Q :=
    if String.eqb (correctionType st) "urgent" then 2 # 1
    else if String.eqb (correctionType st) "standard" then 3 # 2
    else 1 # 1 in
  let selectedCount := inject_Z (Z.of_nat (length (selectedIssues st))) in
  Math_round (baseRate * urgencyMultiplier * selectedCount)%Q.

(** The [disabled] attribute of the submit button. *)
Definition submit_disabled (st : State) (isPending : bool) : bool :=
  (length (selectedIssues st) =? 0)%nat || isPending.

End Props.

(** The state after the check boxes of the issues listed were clicked, in
    that order. *)
Definition after_toggles (clicks : list string) (st : State) : State :=
  mkState (foldl (fun prev issueId => handleIssueToggle issueId prev)
             (selectedIssues st) clicks)
          (correctionType st) (urgencyLevel st) (notes_text st).

End CorrectionForm.

Module ExporterDocumentCorrections.

(** [results.results.issues.map((issue, index) => ({ id: `issue-${index}`, ... }))] *)
Definition issues_of (issues : list UseApi.Issue) : list CorrectionForm.Issue :=
  imap (fun index issue =>
          CorrectionForm.mkIssue ("issue-" +:+ pretty index)
            (UseApi.severity issue) (UseApi.category issue)
            (UseApi.description issue) (UseApi.recommendation issue)
            (UseApi.affected_documents issue))
       issues.

(** The [userType] prop the page passes to the form. *)
Definition userType : string := "exporter".

End ExporterDocumentCorrections.

(** The check boxes ticked after a sequence of clicks on the checklist of
    the export upload page, starting with none ticked. *)
Definition checked_after (clicks : list string) : list string :=
  foldl (fun prev docId => ExportLCUpload.handleDocumentCheck docId prev) [] clicks.

(** A text of white space only (the empty text included). *)
Definition all_space (s : CorrectionForm.Text) : bool :=
  forallb CorrectionForm.is_space s.

(** The price of correcting one issue, by user type and correction type. *)
Definition unit_price (userType correctionType : string) : Z :=
  if String.eqb userType "exporter" then
    if String.eqb correctionType "urgent" then 1000
    else if String.eqb correctionType "standard" then 750
    else 500
  else
    if String.eqb correctionType "urgent" then 1500
    else if String.eqb correctionType "standard" then 1125
    else 750.

(** ** components/UploadBox.tsx: the event handlers around [handleFile] *)

Module UploadBoxEvents.

Definition setIsDragging (v : bool)
    : Handler.M UploadBox.State UploadBox.Callback unit :=
  Handler.update (fun s => UploadBox.mkState (UploadBox.file s) (UploadBox.error s) v).

Section Props.
Variable maxSize : Z.
Variable acceptedTypes : list string.
Variable Number_toString : Q -> string.

(** [files] is [e.dataTransfer.files]; [disabled] is the prop at the time of
    the drop. *)
Definition handleDrop (disabled : bool) (files : list File.t)
    : Handler.M UploadBox.State UploadBox.Callback unit :=
  setIsDragging false ;;
  if disabled then Handler.ret tt
  else
    match files !! 0%nat with
    | Some droppedFile =>
        UploadBox.handleFile maxSize acceptedTypes Number_toString droppedFile
    | None => Handler.ret tt
    end.

Definition handleDragOver : Handler.M UploadBox.State UploadBox.Callback unit :=
  setIsDragging true.

Definition handleDragLeave : Handler.M UploadBox.State UploadBox.Callback unit :=
  setIsDragging false.

(** [files] is [e.target.files], which may be [null]. *)
Definition handleFileInput (files : option (list File.t))
    : Handler.M UploadBox.State UploadBox.Callback unit :=
  match files ≫= (fun fs => fs !! 0%nat) with
  | Some selectedFile =>
      UploadBox.handleFile maxSize acceptedTypes Number_toString selectedFile
  | None => Handler.ret tt
  end.

(** What the user can do to the box. *)
Inductive Event :=
  | DropEvent (disabled : bool) (files : list File.t)
  | DragOver
  | DragLeave
  | InputChange (files : option (list File.t))
  | RemoveClick.

Definition handler_of (e : Event) : Handler.M UploadBox.State UploadBox.Callback unit :=
  match e with
  | DropEvent disabled files => handleDrop disabled files
  | DragOver => handleDragOver
  | DragLeave => handleDragLeave
  | InputChange files => handleFileInput files
  | RemoveClick => UploadBox.removeFile
  end.

Definition step (st : UploadBox.State) (e : Event) : UploadBox.State :=
  Handler.state_after (handler_of e) st.

Definition run (events : list Event) : UploadBox.State :=
  fold_left step events UploadBox.initial.

(** The calls of [onFileSelect] during a session, oldest first. *)
Fixpoint callbacks_from (st : UploadBox.State) (events : list Event)
    : list UploadBox.Callback :=
  match events with
  | [] => []
  | e :: rest => Handler.calls_of (handler_of e) st ++ callbacks_from (step st e) rest
  end.

Definition callbacks (events : list Event) : list UploadBox.Callback :=
  callbacks_from UploadBox.initial events.

End Props.

End UploadBoxEvents.

(** ** pages/Validate.tsx: the form around the upload box *)

Module Validate.

(** [ErrorResponse] of the shared type declarations, as [showError] gets
    it here. *)
Record ErrorResponse := mkError {
  error_id : string;
  type : string;
  message : string
}.

Record State := mkState {
  file : option File.t;
  selectedBank : string;
  asyncMode : bool;
  showRateLimit : bool
}.

Definition initial : State := mkState None "" true false.

Definition handleFileSelect (f : File.t) (st : State) : State :=
  mkState (Some f) (selectedBank st) (asyncMode st) (showRateLimit st).

Definition setSelectedBank (code : string) (st : State) : State :=
  mkState (file st) code (asyncMode st) (showRateLimit st).

Definition setAsyncMode (checked : bool) (st : State) : State :=
  mkState (file st) (selectedBank st) checked (showRateLimit st).

(** What [handleSubmit] does before it waits for the server: it reports an
    error or hands [{ file, bankCode, async }] to [mutateAsync]. *)
Inductive Started :=
  | ShowedError (e : ErrorResponse)
  | Requested (file : File.t) (bankCode : string) (async : bool).

Definition handleSubmit (st : State) : Started :=
  match file st with
  | Some f =>
      if negb (JS.truthy (selectedBank st)) then
        ShowedError (mkError "validation_error" "validation"
                       "Please select a file and bank profile")
      else Requested f (selectedBank st) (asyncMode st)
  | None =>
      ShowedError (mkError "validation_error" "validation"
                     "Please select a file and bank profile")
  end.

(** The [disabled] attribute of the submit button. *)
Definition submit_disabled (st : State) (isPending : bool) : bool :=
  negb (bool_decide (is_Some (file st))) || negb (JS.truthy (selectedBank st)) || isPending.

(** The page renders the box with the default props; every [onFileSelect]
    of the box runs [handleFileSelect]. *)
Definition after_callbacks (calls : list UploadBox.Callback) (st : State) : State :=
  foldl (fun st c => match c with UploadBox.onFileSelect f => handleFileSelect f st end)
    st calls.

Definition box_callbacks (events : list UploadBoxEvents.Event) : list UploadBox.Callback :=
  UploadBoxEvents.callbacks UploadBox.default_maxSize UploadBox.default_acceptedTypes
    whole_megabytes events.

Definition box_after (events : list UploadBoxEvents.Event) : UploadBox.State :=
  UploadBoxEvents.run UploadBox.default_maxSize UploadBox.default_acceptedTypes
    whole_megabytes events.

End Validate.

(** ** components/FileUploader.tsx: the event handlers and the labels *)

Module FileUploaderEvents.

Definition setIsDragging (v : bool)
    : Handler.M FileUploader.State FileUploader.Callback unit :=
  Handler.update
    (fun s => FileUploader.mkState (FileUploader.files s) v (FileUploader.errors s)).

(** [fileName.split('.').pop()?.toLowerCase()] *)
Definition extension (fileName : string) : option string :=
  JS.toLowerCase <$> JS.pop (JS.split "." fileName).

(** [switch (extension)]: the first case whose label equals the value. *)
Definition switch_on {A} (extension : option string) (cases : list (string * A))
    (default_case : A) : A :=
  match extension with
  | Some ext =>
      match List.find (fun c => String.eqb c.1 ext) cases with
      | Some c => c.2
      | None => default_case
      end
  | None => default_case
  end.

(** The colour class of the icon [getFileTypeIcon] returns. *)
Definition getFileTypeIcon (fileName : string) : string :=
  switch_on (extension fileName)
    [ ("pdf", "text-red-500");
      ("jpg", "text-blue-500"); ("jpeg", "text-blue-500"); ("png", "text-blue-500");
      ("json", "text-green-500") ]
    "text-gray-500".

Definition getFileTypeLabel (fileName : string) : string :=
  switch_on (extension fileName)
    [ ("pdf", "LC Document");
      ("jpg", "Supporting Image"); ("jpeg", "Supporting Image");
      ("png", "Supporting Image");
      ("json", "Data File") ]
    "Document".

Section Props.
Variable maxFiles : Z.
Variable maxSize : Z.
Variable acceptedTypes : list string.

(** The handlers are created in a render whose [files] state is [files];
    [disabled] is the prop at the time of the event. *)
Definition handleDrop (files : list FileUploader.FileWithPreview) (disabled : bool)
    (env : FileUploader.Entropy) (dropped : list File.t)
    : Handler.M FileUploader.State FileUploader.Callback unit :=
  setIsDragging false ;;
  if disabled then Handler.ret tt
  else FileUploader.handleFiles maxFiles maxSize acceptedTypes files env dropped.

Definition handleDragOver (disabled : bool)
    : Handler.M FileUploader.State FileUploader.Callback unit :=
  if negb disabled then setIsDragging true else Handler.ret tt.

Definition handleDragLeave : Handler.M FileUploader.State FileUploader.Callback unit :=
  setIsDragging false.

Definition handleFileInput (files : list FileUploader.FileWithPreview)
    (env : FileUploader.Entropy) (chosen : option (list File.t))
    : Handler.M FileUploader.State FileUploader.Callback unit :=
  match chosen with
  | Some newFiles =>
      FileUploader.handleFiles maxFiles maxSize acceptedTypes files env newFiles
  | None => Handler.ret tt
  end.

Inductive Event :=
  | DropEvent (disabled : bool) (env : FileUploader.Entropy) (dropped : list File.t)
  | DragOver (disabled : bool)
  | DragLeave
  | InputChange (env : FileUploader.Entropy) (chosen : option (list File.t))
  | RemoveClick (fileId : string).

Definition handler_of (st : FileUploader.State) (e : Event)
    : Handler.M FileUploader.State FileUploader.Callback unit :=
  match e with
  | DropEvent disabled env dropped =>
      handleDrop (FileUploader.files st) disabled env dropped
  | DragOver disabled => handleDragOver disabled
  | DragLeave => handleDragLeave
  | InputChange env chosen => handleFileInput (FileUploader.files st) env chosen
  | RemoveClick fileId => FileUploader.removeFile (FileUploader.files st) fileId
  end.

Definition step (st : FileUploader.State) (e : Event) : FileUploader.State :=
  Handler.state_after (handler_of st e) st.

Definition run (events : list Event) : FileUploader.State :=
  fold_left step events FileUploader.initial.

(** The calls of [onFilesSelect] during a session, oldest first. *)
Fixpoint callbacks_from (st : FileUploader.State) (events : list Event)
    : list FileUploader.Callback :=
  match events with
  | [] => []
  | e :: rest => Handler.calls_of (handler_of st e) st ++ callbacks_from (step st e) rest
  end.

Definition callbacks (events : list Event) : list FileUploader.Callback :=
  callbacks_from FileUploader.initial events.

(** The drop or removal an event amounts to, if any. *)
Definition op_of (e : Event) : option FileUploader.Op :=
  match e with
  | DropEvent false env dropped => Some (FileUploader.Drop env dropped)
  | InputChange env (Some newFiles) => Some (FileUploader.Drop env newFiles)
  | RemoveClick fileId => Some (FileUploader.Remove fileId)
  | _ => None
  end.

End Props.

End FileUploaderEvents.

(** The box never shows a file and an error together, and the file it
    shows passed the checks. *)
Definition box_consistent (maxSize : Z) (acceptedTypes : list string)
    (Number_toString : Q -> string) (st : UploadBox.State) : Prop :=
  (forall f, UploadBox.file st = Some f ->
             UploadBox.validateFile maxSize acceptedTypes Number_toString f = ""
             /\ UploadBox.error st = "")
  /\ (UploadBox.error st <> "" -> UploadBox.file st = None).

(** ** Sample inputs *)

(** A PDF by name that the browser reports as plain text. *)
Definition mislabelled_pdf : File.t :=
  File.mk "scan.pdf" 5 "text/plain" 0 [Byte.x68; Byte.x65; Byte.x6c; Byte.x6c; Byte.x6f].

(** A non-empty file with a forbidden extension and a foreign content type. *)
Definition two_byte_exe : File.t :=
  File.mk "setup.EXE" 2 "application/x-msdownload" 0 [Byte.x4d; Byte.x5a].

(** Two files with the same (empty) bytes, each labelled consistently. *)
Definition empty_pdf : File.t := File.mk "a.pdf" 0 "application/pdf" 0 [].
Definition empty_png : File.t := File.mk "a.png" 0 "image/png" 0 [].

(** A PNG by name and by reported type that holds the first bytes of a PDF. *)
Definition pdf_bytes_named_png : File.t :=
  File.mk "chart.png" 4 "image/png" 0 [Byte.x25; Byte.x50; Byte.x44; Byte.x46].

(** Four files dropped on an uploader with room for two. *)
Definition four_files : list File.t :=
  [ File.mk "lc.pdf" 1 "application/pdf" 0 [Byte.x25];
    File.mk "notes.exe" 1 "" 0 [Byte.x4d];
    File.mk "stamp.png" 1 "image/png" 0 [Byte.x89];
    File.mk "seal.png" 1 "image/png" 0 [Byte.x89] ].

Definition fixed_entropy : FileUploader.Entropy :=
  FileUploader.mkEntropy (fun k => 1700000000000 + Z.of_nat k) (fun _ => "0.5").

(** A world with the default [acceptedTypes] array at address 0, a PNG file
    at address 1 and the upload box in its initial state. *)
Definition box_world : Heap.World UploadBox.State :=
  Heap.mkWorld
    [ Heap.ArrayObject UploadBox.default_acceptedTypes;
      Heap.FileObject pdf_bytes_named_png ]
    UploadBox.initial.



(** A finding of severity [warning], as the [Finding] interface allows. *)
Definition warning_finding : Types.Finding :=
  Types.mkFinding "F-1" "dates" Types.warning "expiry_date" "2024-03-01" "2024-02-01"
    "Expiry date precedes shipment date" None.

(** Three jobs compete for the secondary engine on day 0 with a ceiling of
    10: the first call (cost 8) is granted, the second (cost 5) is granted
    too since 8 is below the ceiling, the third finds 13 and is refused. *)
Definition three_jobs : list OCROrchestrator.Action :=
  [ OCROrchestrator.Submit 1%nat; OCROrchestrator.Submit 2%nat;
    OCROrchestrator.Submit 3%nat;
    OCROrchestrator.PrimaryReturns 1%nat false;
    OCROrchestrator.PrimaryReturns 2%nat false;
    OCROrchestrator.CheckAndIncrement 1%nat 0%nat 8;
    OCROrchestrator.PrimaryReturns 3%nat false;
    OCROrchestrator.CheckAndIncrement 2%nat 0%nat 5;
    OCROrchestrator.CheckAndIncrement 3%nat 0%nat 7;
    OCROrchestrator.SecondaryReturns 2%nat;
    OCROrchestrator.SecondaryReturns 1%nat ].

(** A form with one issue selected and a padded note. *)
Definition padded_note_state : CorrectionForm.State :=
  CorrectionForm.mkState ["issue-0"] "urgent" "high"
    ([0x00A0; 0x0020]%N ++ CorrectionForm.text_of "fix the amount" ++ [0x2028]%N).

(** * Properties *)

(** ** Strings and arrays *)

Lemma split_not_empty sep s : JS.split sep s <> [].
Proof.
  destruct s as [|c s]; simpl; [discriminate|].
  destruct (Ascii.eqb c sep); [discriminate|].
  destruct (JS.split sep s); discriminate.
Qed.

Lemma pop_split_defined sep s : is_Some (JS.pop (JS.split sep s)).
Proof.
  unfold JS.pop. destruct (JS.split sep s) as [|w ws] eqn:E.
  - now apply split_not_empty in E.
  - rewrite last_cons. destruct (last ws); eauto.
Qed.

Lemma truthy_true s : JS.truthy s = true <-> s <> "".
Proof. destruct s; simpl; split; congruence. Qed.

Lemma truthy_false s : JS.truthy s = false <-> s = "".
Proof. destruct s; simpl; split; congruence. Qed.

Lemma arr_includes_true arr x : JS.arr_includes arr x = true <-> x ∈ arr.
Proof.
  unfold JS.arr_includes. rewrite existsb_exists. split.
  - intros (y & Hin & Heq). apply String.eqb_eq in Heq. subst.
    now apply list_elem_of_In.
  - intros Hin. exists x. split; [now apply list_elem_of_In|apply String.eqb_refl].
Qed.

Lemma arr_includes_false arr x : JS.arr_includes arr x = false <-> x ∉ arr.
Proof.
  rewrite <- arr_includes_true. destruct (JS.arr_includes arr x); split; congruence.
Qed.

Lemma startsWith_spec s sub :
  JS.startsWith s sub = true <-> exists after, s = sub +:+ after.
Proof.
  revert s. induction sub as [|a sub IH]; intros s; simpl.
  - split; [intros _; now exists s|intros _; now destruct s].
  - destruct s as [|b s]; simpl.
    + split; [discriminate|intros [after H]; discriminate].
    + rewrite andb_true_iff, Ascii.eqb_eq, IH. split.
      * intros [-> [after ->]]. now exists after.
      * intros [after H]. injection H as -> ->. eauto.
Qed.

Lemma includes_unfold s sub :
  JS.includes s sub =
  JS.startsWith s sub
  || match s with
     | EmptyString => false
     | String _ s' => JS.includes s' sub
     end.
Proof. now destruct s. Qed.

Lemma includes_spec s sub :
  JS.includes s sub = true <-> exists before after, s = before +:+ sub +:+ after.
Proof.
  induction s as [|c s IH]; rewrite includes_unfold, orb_true_iff, startsWith_spec.
  - split.
    + intros [[after H]|H]; [|discriminate]. now exists "", after.
    + intros (before & after & H). left. destruct before; [now exists after|discriminate].
  - rewrite IH. split.
    + intros [[after H]|(before & after & ->)].
      * now exists "", after.
      * now exists (String c before), after.
    + intros (before & after & H). destruct before as [|b before]; simpl in H.
      * left. now exists after.
      * right. injection H as -> ->. eauto.
Qed.

Lemma string_app_inv_head (p a b : string) : p +:+ a = p +:+ b -> a = b.
Proof. induction p; simpl; intros H; [assumption|injection H; auto]. Qed.

Lemma string_app_not_empty_r (p a : string) : a <> "" -> p +:+ a <> "".
Proof. destruct p; simpl; [auto|discriminate]. Qed.

Lemma slice0_take {A} (arr : list A) (end_ : Z) :
  0 <= end_ -> JS.slice0 arr end_ = take (Z.to_nat end_) arr.
Proof.
  intros H. unfold JS.slice0.
  destruct (Z.ltb_spec end_ 0); [lia|].
  destruct (Z.le_ge_cases end_ (Z.of_nat (length arr))).
  - now rewrite Z.min_l.
  - rewrite Z.min_r, Nat2Z.id by assumption.
    rewrite !take_ge; [reflexivity|lia|lia].
Qed.

Lemma slice0_length {A} (arr : list A) (end_ : Z) :
  0 <= end_ -> Z.of_nat (length (JS.slice0 arr end_)) <= end_.
Proof. intros H. rewrite slice0_take, length_take by assumption. lia. Qed.

(** ** The messages of the guardrails *)

Lemma upload_size_error_not_empty shown : UploadBox.size_error shown <> "".
Proof. discriminate. Qed.

Lemma upload_type_error_not_empty accepted : UploadBox.type_error accepted <> "".
Proof. discriminate. Qed.

Lemma upload_size_vs_type shown accepted :
  UploadBox.size_error shown <> UploadBox.type_error accepted.
Proof. discriminate. Qed.

Lemma upload_size_vs_content shown : UploadBox.size_error shown <> UploadBox.content_error.
Proof. discriminate. Qed.

Lemma upload_type_vs_content accepted :
  UploadBox.type_error accepted <> UploadBox.content_error.
Proof. discriminate. Qed.

Lemma uploader_size_error_not_empty name shown : FileUploader.size_error name shown <> "".
Proof. apply string_app_not_empty_r. discriminate. Qed.

Lemma uploader_type_error_not_empty name accepted :
  FileUploader.type_error name accepted <> "".
Proof. apply string_app_not_empty_r. discriminate. Qed.

Lemma uploader_size_vs_type name shown accepted :
  FileUploader.size_error name shown <> FileUploader.type_error name accepted.
Proof. intros H. apply string_app_inv_head in H. discriminate. Qed.

(** ** [UploadBox.validateFile], check by check *)

Lemma get_property_elem obj key v :
  UploadBox.get_property obj key = Some v -> (key, v) ∈ obj.
Proof.
  induction obj as [|[k w] obj IH]; simpl; [discriminate|].
  destruct (String.eqb_spec k key) as [->|_].
  - intros [= ->]. apply list_elem_of_here.
  - intros H. apply list_elem_of_further. auto.
Qed.

Lemma mimeTypes_values_truthy ext expectedMime :
  UploadBox.get_property UploadBox.mimeTypes ext = Some expectedMime ->
  JS.truthy expectedMime = true.
Proof.
  intros H. apply get_property_elem in H. unfold UploadBox.mimeTypes in H.
  repeat (apply elem_of_cons in H as [[= -> ->]|H]; [reflexivity|]).
  now apply elem_of_nil in H.
Qed.

Lemma content_matches_includes f :
  Guardrail.content_matches f <->
  match UploadBox.get_property UploadBox.mimeTypes (UploadBox.extension_of (File.name f)) with
  | Some expectedMime =>
      JS.includes (File.type f) (UploadBox.subtype_of expectedMime) = true
  | None => True
  end.
Proof.
  unfold Guardrail.content_matches.
  destruct (UploadBox.get_property _ _) as [m|].
  - rewrite includes_spec. split; [intros H; now apply H|intros H ? [= <-]; exact H].
  - split; [trivial|discriminate].
Qed.

Section UploadBoxChecks.
Variable maxSize : Z.
Variable acceptedTypes : list string.
Variable Number_toString : Q -> string.

Local Abbreviation validate := (UploadBox.validateFile maxSize acceptedTypes Number_toString).
Local Abbreviation shownLimit := (Number_toString (maxSize # 1048576)).

Lemma upload_too_large f :
  ~ Guardrail.size_ok maxSize f -> validate f = UploadBox.size_error shownLimit.
Proof.
  unfold Guardrail.size_ok, UploadBox.validateFile. intros H.
  destruct (Z.ltb_spec maxSize (File.size f)); [reflexivity|lia].
Qed.

Lemma upload_bad_type f :
  Guardrail.size_ok maxSize f -> ~ Guardrail.type_ok acceptedTypes f ->
  validate f = UploadBox.type_error acceptedTypes.
Proof.
  unfold Guardrail.size_ok, Guardrail.type_ok, UploadBox.validateFile.
  intros Hs Ht. destruct (Z.ltb_spec maxSize (File.size f)); [lia|].
  apply arr_includes_false in Ht. now rewrite Ht.
Qed.

Lemma upload_mismatch f :
  Guardrail.size_ok maxSize f -> Guardrail.type_ok acceptedTypes f ->
  ~ Guardrail.content_matches f ->
  validate f = UploadBox.content_error.
Proof.
  rewrite content_matches_includes.
  unfold Guardrail.size_ok, Guardrail.type_ok, UploadBox.validateFile.
  intros Hs Ht Hc. destruct (Z.ltb_spec maxSize (File.size f)); [lia|].
  apply arr_includes_true in Ht. rewrite Ht. cbn [negb].
  destruct (UploadBox.get_property _ _) as [m|] eqn:E; [|tauto].
  rewrite (mimeTypes_values_truthy _ _ E).
  destruct (JS.includes _ _); [congruence|reflexivity].
Qed.

Lemma upload_all_pass f :
  Guardrail.size_ok maxSize f -> Guardrail.type_ok acceptedTypes f ->
  Guardrail.content_matches f ->
  validate f = "".
Proof.
  rewrite content_matches_includes.
  unfold Guardrail.size_ok, Guardrail.type_ok, UploadBox.validateFile.
  intros Hs Ht Hc. destruct (Z.ltb_spec maxSize (File.size f)); [lia|].
  apply arr_includes_true in Ht. rewrite Ht. cbn [negb].
  destruct (UploadBox.get_property _ _) as [m|]; [|reflexivity].
  rewrite Hc. now rewrite andb_false_r.
Qed.

(** The checks are decidable, so every file falls in one of the four cases. *)
Lemma upload_cases f :
  (~ Guardrail.size_ok maxSize f /\ validate f = UploadBox.size_error shownLimit)
  \/ (Guardrail.size_ok maxSize f /\ ~ Guardrail.type_ok acceptedTypes f
      /\ validate f = UploadBox.type_error acceptedTypes)
  \/ (Guardrail.size_ok maxSize f /\ Guardrail.type_ok acceptedTypes f
      /\ ~ Guardrail.content_matches f /\ validate f = UploadBox.content_error)
  \/ (Guardrail.size_ok maxSize f /\ Guardrail.type_ok acceptedTypes f
      /\ Guardrail.content_matches f /\ validate f = "").
Proof.
  destruct (decide (File.size f <= maxSize)) as [Hs|Hs].
  2: { left. auto using upload_too_large. }
  destruct (decide (UploadBox.extension_of (File.name f) ∈ acceptedTypes)) as [Ht|Ht].
  2: { right. left. auto using upload_bad_type. }
  assert (Hdec : Guardrail.content_matches f \/ ~ Guardrail.content_matches f).
  { rewrite content_matches_includes.
    destruct (UploadBox.get_property _ _); [|now left].
    destruct (JS.includes _ _); [now left|right; discriminate]. }
  destruct Hdec as [Hc|Hc].
  - do 3 right. auto using upload_all_pass.
  - do 2 right. left. auto using upload_mismatch.
Qed.

End UploadBoxChecks.

(** ** [FileUploader.validateFile], check by check *)

Section FileUploaderChecks.
Variable maxSize : Z.
Variable acceptedTypes : list string.

Local Abbreviation validate := (FileUploader.validateFile maxSize acceptedTypes).
Local Abbreviation shownLimit := (pretty (JS.round_div maxSize 1048576)).

Lemma uploader_too_large f :
  ~ Guardrail.size_ok maxSize f ->
  validate f = Some (FileUploader.size_error (File.name f) shownLimit).
Proof.
  unfold Guardrail.size_ok, FileUploader.validateFile. intros H.
  destruct (Z.ltb_spec maxSize (File.size f)); [reflexivity|lia].
Qed.

Lemma uploader_bad_type f :
  Guardrail.size_ok maxSize f -> ~ Guardrail.type_ok acceptedTypes f ->
  validate f = Some (FileUploader.type_error (File.name f) acceptedTypes).
Proof.
  unfold Guardrail.size_ok, Guardrail.type_ok, FileUploader.validateFile.
  intros Hs Ht. destruct (Z.ltb_spec maxSize (File.size f)); [lia|].
  apply arr_includes_false in Ht. now rewrite Ht.
Qed.

Lemma uploader_all_pass f :
  Guardrail.size_ok maxSize f -> Guardrail.type_ok acceptedTypes f ->
  validate f = None.
Proof.
  unfold Guardrail.size_ok, Guardrail.type_ok, FileUploader.validateFile.
  intros Hs Ht. destruct (Z.ltb_spec maxSize (File.size f)); [lia|].
  apply arr_includes_true in Ht. now rewrite Ht.
Qed.

Lemma uploader_cases f :
  (~ Guardrail.size_ok maxSize f
   /\ validate f = Some (FileUploader.size_error (File.name f) shownLimit))
  \/ (Guardrail.size_ok maxSize f /\ ~ Guardrail.type_ok acceptedTypes f
      /\ validate f = Some (FileUploader.type_error (File.name f) acceptedTypes))
  \/ (Guardrail.size_ok maxSize f /\ Guardrail.type_ok acceptedTypes f
      /\ validate f = None).
Proof.
  destruct (decide (File.size f <= maxSize)) as [Hs|Hs].
  2: { left. auto using uploader_too_large. }
  destruct (decide (UploadBox.extension_of (File.name f) ∈ acceptedTypes)) as [Ht|Ht].
  - do 2 right. auto using uploader_all_pass.
  - right. left. auto using uploader_bad_type.
Qed.

(** An error returned by the uploader's check is a truthy string, so the
    [if (error)] of [handleFiles] tells rejected files from accepted ones. *)
Lemma uploader_is_error f :
  FileUploader.is_error (validate f) = true <-> validate f <> None.
Proof.
  destruct (uploader_cases f) as [(_ & ->)|[(_ & _ & ->)|(_ & _ & ->)]]; simpl.
  - rewrite truthy_true. split; [discriminate|intros _; apply uploader_size_error_not_empty].
  - rewrite truthy_true. split; [discriminate|intros _; apply uploader_type_error_not_empty].
  - split; [discriminate|congruence].
Qed.

End FileUploaderChecks.

(** ** Acceptance by the guardrails *)

Lemma upload_box_accepts_empty maxSize acceptedTypes nts f :
  Guardrail.upload_box_accepts maxSize acceptedTypes nts f = true <->
  UploadBox.validateFile maxSize acceptedTypes nts f = "".
Proof.
  unfold Guardrail.upload_box_accepts.
  rewrite negb_true_iff. apply truthy_false.
Qed.

Lemma file_uploader_accepts_null maxSize acceptedTypes f :
  Guardrail.file_uploader_accepts maxSize acceptedTypes f = true <->
  FileUploader.validateFile maxSize acceptedTypes f = None.
Proof.
  unfold Guardrail.file_uploader_accepts.
  rewrite negb_true_iff, <- not_true_iff_false, uploader_is_error. split.
  - intros H. destruct (FileUploader.validateFile _ _ _); [exfalso; apply H; discriminate|reflexivity].
  - intros -> H. now apply H.
Qed.

Lemma upload_empty_iff maxSize acceptedTypes nts f :
  UploadBox.validateFile maxSize acceptedTypes nts f = "" <->
  Guardrail.size_ok maxSize f /\ Guardrail.type_ok acceptedTypes f
  /\ Guardrail.content_matches f.
Proof.
  destruct (upload_cases maxSize acceptedTypes nts f)
    as [(Hs & E)|[(Hs & Ht & E)|[(Hs & Ht & Hc & E)|(Hs & Ht & Hc & E)]]];
    rewrite E; split; try tauto; try discriminate.
Qed.

(** For the single-file box, acceptance is equivalent to the three checks. *)
Lemma upload_box_accepts_iff maxSize acceptedTypes nts :
  Guardrail.accepts_iff_three_checks
    (Guardrail.upload_box_accepts maxSize acceptedTypes nts) maxSize acceptedTypes.
Proof. intros f _. rewrite upload_box_accepts_empty. apply upload_empty_iff. Qed.

Lemma mislabelled_pdf_no_match : ~ Guardrail.content_matches mislabelled_pdf.
Proof.
  rewrite content_matches_includes. vm_compute. discriminate.
Qed.

(** C1, counterexample: the multi-file uploader accepts a file whose content
    type does not match its extension, so for it acceptance is not
    equivalent to the three checks. *)
Lemma C1_uploader_accepts_mismatch :
  ~ Guardrail.accepts_iff_three_checks
      (Guardrail.file_uploader_accepts
         FileUploader.default_maxSize FileUploader.default_acceptedTypes)
      FileUploader.default_maxSize FileUploader.default_acceptedTypes.
Proof.
  intros H. destruct (H mislabelled_pdf) as [Hacc _]; [reflexivity|].
  apply mislabelled_pdf_no_match. apply Hacc. reflexivity.
Qed.

(** C1 (amended): [UploadBox.validateFile] returns the empty string exactly
    for the files that pass the size check, the allow-list check and the
    content-type check; [FileUploader.validateFile] returns [null] exactly for
    the files that pass the size check and the allow-list check, and has no
    content-type check.  A file that fails a check gets a non-empty message:
    the size message if it is too large, else the type message if its
    extension is not allowed, else (in [UploadBox] only) the content message. *)
Theorem C1_guardrail_acceptance (maxSize : Z) (acceptedTypes : list string)
    (nts : Q -> string) (f : File.t) :
  let box := UploadBox.validateFile maxSize acceptedTypes nts f in
  let uploader := FileUploader.validateFile maxSize acceptedTypes f in
  (box = "" <->
     Guardrail.size_ok maxSize f /\ Guardrail.type_ok acceptedTypes f
     /\ Guardrail.content_matches f)
  /\ (uploader = None <->
     Guardrail.size_ok maxSize f /\ Guardrail.type_ok acceptedTypes f)
  /\ (~ Guardrail.size_ok maxSize f ->
      box = UploadBox.size_error (nts (maxSize # 1048576))
      /\ uploader = Some (FileUploader.size_error (File.name f)
                            (pretty (JS.round_div maxSize 1048576))))
  /\ (Guardrail.size_ok maxSize f -> ~ Guardrail.type_ok acceptedTypes f ->
      box = UploadBox.type_error acceptedTypes
      /\ uploader = Some (FileUploader.type_error (File.name f) acceptedTypes))
  /\ (Guardrail.size_ok maxSize f -> Guardrail.type_ok acceptedTypes f ->
      ~ Guardrail.content_matches f ->
      box = UploadBox.content_error /\ uploader = None)
  /\ (forall e, uploader = Some e -> e <> "")
  /\ UploadBox.size_error (nts (maxSize # 1048576)) <> ""
  /\ UploadBox.type_error acceptedTypes <> ""
  /\ UploadBox.content_error <> "".
Proof.
  intros box uploader. subst box uploader.
  split; [|split; [|split; [|split; [|split; [|split]]]]].
  - apply upload_empty_iff.
  - destruct (uploader_cases maxSize acceptedTypes f)
      as [(Hs & E)|[(Hs & Ht & E)|(Hs & Ht & E)]];
      rewrite E; split; try tauto; discriminate.
  - intros Hs. split; [now apply upload_too_large|now apply uploader_too_large].
  - intros Hs Ht. split; [now apply upload_bad_type|now apply uploader_bad_type].
  - intros Hs Ht Hc. split; [now apply upload_mismatch|now apply uploader_all_pass].
  - intros e He.
    destruct (uploader_cases maxSize acceptedTypes f)
      as [(_ & E)|[(_ & _ & E)|(_ & _ & E)]]; rewrite E in He.
    + injection He as <-. apply uploader_size_error_not_empty.
    + injection He as <-. apply uploader_type_error_not_empty.
    + discriminate.
  - repeat split; discriminate.
Qed.

(** C1, at the defaults: the mislabelled PDF is stopped by [UploadBox] with
    the content message and let through by [FileUploader]. *)
Lemma C1_guardrail_acceptance_witness :
  UploadBox.validateFile UploadBox.default_maxSize UploadBox.default_acceptedTypes
    whole_megabytes mislabelled_pdf = UploadBox.content_error
  /\ FileUploader.validateFile FileUploader.default_maxSize
       FileUploader.default_acceptedTypes mislabelled_pdf = None.
Proof.
  apply (C1_guardrail_acceptance UploadBox.default_maxSize
           UploadBox.default_acceptedTypes whole_megabytes mislabelled_pdf).
  - vm_compute. discriminate.
  - unfold Guardrail.type_ok. vm_compute. apply list_elem_of_here.
  - apply mislabelled_pdf_no_match.
Defined.

(** ** Order of the checks *)

(** C2: the checks run in the order size, type, content and stop at the
    first failure.  A file above the limit gets the size message from both
    components whatever its extension and content type are; the type message
    is only returned for a file within the limit; the content message (of
    [UploadBox], the only component with that check) is only returned for a
    file within the limit whose extension is allowed. *)
Theorem C2_check_order (maxSize : Z) (acceptedTypes : list string)
    (nts : Q -> string) (f : File.t) :
  let box := UploadBox.validateFile maxSize acceptedTypes nts f in
  let uploader := FileUploader.validateFile maxSize acceptedTypes f in
  (maxSize < File.size f ->
     box = UploadBox.size_error (nts (maxSize # 1048576))
     /\ uploader = Some (FileUploader.size_error (File.name f)
                           (pretty (JS.round_div maxSize 1048576))))
  /\ (box = UploadBox.type_error acceptedTypes -> File.size f <= maxSize)
  /\ (uploader = Some (FileUploader.type_error (File.name f) acceptedTypes) ->
      File.size f <= maxSize)
  /\ (box = UploadBox.content_error ->
      File.size f <= maxSize
      /\ UploadBox.extension_of (File.name f) ∈ acceptedTypes).
Proof.
  intros box uploader. subst box uploader.
  pose proof (upload_cases maxSize acceptedTypes nts f) as Hbox.
  pose proof (uploader_cases maxSize acceptedTypes f) as Hup.
  unfold Guardrail.size_ok, Guardrail.type_ok in *.
  split; [|split; [|split]].
  - intros Hlarge. split.
    + apply upload_too_large. unfold Guardrail.size_ok. lia.
    + apply uploader_too_large. unfold Guardrail.size_ok. lia.
  - intros E. destruct Hbox as [(Hs & E')|[(Hs & _)|[(Hs & _)|(Hs & _)]]]; try assumption.
    rewrite E' in E. now apply upload_size_vs_type in E.
  - intros E. destruct Hup as [(Hs & E')|[(Hs & _)|(Hs & _)]]; try assumption.
    rewrite E' in E. injection E as E. now apply uploader_size_vs_type in E.
  - intros E.
    destruct Hbox as [(Hs & E')|[(Hs & Ht & E')|[(Hs & Ht & _)|(Hs & Ht & _)]]];
      try (split; assumption); rewrite E' in E.
    + now apply upload_size_vs_content in E.
    + now apply upload_type_vs_content in E.
Qed.

(** C2, with the limit set to zero bytes and the default allow-list: all
    three checks would fail, the size is reported. *)
Lemma C2_check_order_witness :
  UploadBox.validateFile 0 UploadBox.default_acceptedTypes
    whole_megabytes two_byte_exe = "File size exceeds 0MB limit"
  /\ FileUploader.validateFile 0 FileUploader.default_acceptedTypes two_byte_exe
     = Some "setup.EXE: File size exceeds 0MB limit".
Proof.
  apply (C2_check_order 0 UploadBox.default_acceptedTypes
           whole_megabytes two_byte_exe).
  vm_compute. reflexivity.
Defined.

(** ** What the content check looks at *)

Lemma upload_validate_ext maxSize acceptedTypes nts f g :
  File.name f = File.name g -> File.size f = File.size g -> File.type f = File.type g ->
  UploadBox.validateFile maxSize acceptedTypes nts f
  = UploadBox.validateFile maxSize acceptedTypes nts g.
Proof.
  intros Hn Hs Ht. unfold UploadBox.validateFile. now rewrite Hn, Hs, Ht.
Qed.

Lemma uploader_validate_ext maxSize acceptedTypes f g :
  File.name f = File.name g -> File.size f = File.size g ->
  FileUploader.validateFile maxSize acceptedTypes f
  = FileUploader.validateFile maxSize acceptedTypes g.
Proof.
  intros Hn Hs. unfold FileUploader.validateFile. now rewrite Hn, Hs.
Qed.

Lemma no_signature_check (accepts : File.t -> bool) :
  accepts empty_pdf = true -> accepts empty_png = true ->
  ~ Guardrail.confirms_by_signature accepts UploadBox.default_acceptedTypes.
Proof.
  intros Hpdf Hpng [sniff H].
  assert (Epdf : sniff [] = Some "application/pdf").
  { destruct (decide (sniff [] = Some "application/pdf")) as [E|E]; [exact E|].
    rewrite (H empty_pdf) in Hpdf; [discriminate|reflexivity| |exact E].
    unfold Guardrail.type_ok. vm_compute. apply list_elem_of_here. }
  assert (Epng : sniff [] = Some "image/png").
  { destruct (decide (sniff [] = Some "image/png")) as [E|E]; [exact E|].
    rewrite (H empty_png) in Hpng; [discriminate|reflexivity| |exact E].
    unfold Guardrail.type_ok. vm_compute. do 3 apply list_elem_of_further.
    apply list_elem_of_here. }
  rewrite Epdf in Epng. discriminate.
Qed.

(** C3, counterexample: neither component confirms the extension against a
    signature read from the bytes.  Whatever the reading of the bytes, the
    same bytes are accepted under the name [a.pdf] and under the name
    [a.png]. *)
Lemma C3_no_byte_signature_check :
  ~ Guardrail.confirms_by_signature
      (Guardrail.upload_box_accepts UploadBox.default_maxSize
         UploadBox.default_acceptedTypes whole_megabytes)
      UploadBox.default_acceptedTypes
  /\ ~ Guardrail.confirms_by_signature
      (Guardrail.file_uploader_accepts FileUploader.default_maxSize
         FileUploader.default_acceptedTypes)
      FileUploader.default_acceptedTypes.
Proof. split; apply no_signature_check; reflexivity. Qed.

(** C3 (amended): for a file within the size limit whose extension is in the
    allow-list and has an entry in the MIME table, [UploadBox.validateFile]
    tests the content type reported by the browser ([file.type]) for the
    MIME subtype of that entry: it returns the content message exactly when
    the subtype does not occur in it and the empty string exactly when it
    does.  The verdict is the same for every file with that name, size and
    reported type, whatever its bytes.  [FileUploader.validateFile] accepts
    the file without looking at the content type. *)
Theorem C3_declared_type_check (maxSize : Z) (acceptedTypes : list string)
    (nts : Q -> string) (f : File.t) (expectedMime : string) :
  File.size f <= maxSize ->
  UploadBox.extension_of (File.name f) ∈ acceptedTypes ->
  UploadBox.get_property UploadBox.mimeTypes (UploadBox.extension_of (File.name f))
    = Some expectedMime ->
  let box := UploadBox.validateFile maxSize acceptedTypes nts in
  (box f = UploadBox.content_error <->
     JS.includes (File.type f) (UploadBox.subtype_of expectedMime) = false)
  /\ (box f = "" <->
     JS.includes (File.type f) (UploadBox.subtype_of expectedMime) = true)
  /\ (forall g, File.name g = File.name f -> File.size g = File.size f ->
                File.type g = File.type f -> box g = box f)
  /\ FileUploader.validateFile maxSize acceptedTypes f = None.
Proof.
  intros Hs Ht Hm box. subst box.
  assert (Hc : Guardrail.content_matches f <->
               JS.includes (File.type f) (UploadBox.subtype_of expectedMime) = true).
  { rewrite content_matches_includes, Hm. reflexivity. }
  split; [|split; [|split]].
  - destruct (upload_cases maxSize acceptedTypes nts f)
      as [(Hs' & _)|[(_ & Ht' & _)|[(_ & _ & Hc' & ->)|(_ & _ & Hc' & ->)]]];
      [contradiction|contradiction| |].
    + split; [intros _|reflexivity]. rewrite Hc in Hc'. now destruct (JS.includes _ _).
    + apply Hc in Hc'. rewrite Hc'. split; discriminate.
  - destruct (upload_cases maxSize acceptedTypes nts f)
      as [(Hs' & _)|[(_ & Ht' & _)|[(_ & _ & Hc' & ->)|(_ & _ & Hc' & ->)]]];
      [contradiction|contradiction| |].
    + split; [discriminate|]. intros E. now apply Hc in E.
    + split; [intros _; now apply Hc|reflexivity].
  - intros g Hn Hz Hy. now apply upload_validate_ext.
  - now apply uploader_all_pass.
Qed.

(** C3, at the defaults: the reported type decides; the bytes are not read. *)
Lemma C3_declared_type_check_witness :
  UploadBox.validateFile UploadBox.default_maxSize UploadBox.default_acceptedTypes
    whole_megabytes pdf_bytes_named_png = ""
  <-> JS.includes (File.type pdf_bytes_named_png) (UploadBox.subtype_of "image/png") = true.
Proof.
  apply (C3_declared_type_check UploadBox.default_maxSize
           UploadBox.default_acceptedTypes whole_megabytes pdf_bytes_named_png
           "image/png").
  - vm_compute. discriminate.
  - vm_compute. do 3 apply list_elem_of_further. apply list_elem_of_here.
  - reflexivity.
Defined.

(** ** Determinism and the absence of side effects *)

Lemma runs_ret {St Ev A} (a : A) (w : St) :
  Handler.runs (Ev := Ev) (Handler.ret a) w a w [].
Proof. reflexivity. Qed.

Lemma runs_bind {St Ev A B} (m : Handler.M St Ev A) (k : A -> Handler.M St Ev B)
    w a w1 b w2 :
  Handler.runs m w a w1 [] -> Handler.runs (k a) w1 b w2 [] ->
  Handler.runs (Handler.bind m k) w b w2 [].
Proof. unfold Handler.runs, Handler.bind. now intros -> ->. Qed.

Lemma runs_projections {St Ev A} (m : Handler.M St Ev A) w a w' calls :
  Handler.runs m w a w' calls ->
  Handler.result_of m w = a /\ Handler.state_after m w = w' /\ Handler.calls_of m w = calls.
Proof.
  unfold Handler.runs, Handler.result_of, Handler.state_after, Handler.calls_of.
  now intros ->.
Qed.

Section HeapPrimitives.
Context {St Ev : Type}.

Lemma runs_alloc o os (c : St) :
  Handler.runs (Ev := Ev) (Heap.alloc o) (Heap.mkWorld os c)
    (length os) (Heap.mkWorld (os ++ [o]) c) [].
Proof. reflexivity. Qed.

Lemma runs_file_attr {A} (attr : File.t -> A) absent l os (c : St) f :
  os !! l = Some (Heap.FileObject f) ->
  Handler.runs (Ev := Ev) (Heap.file_attr attr absent l) (Heap.mkWorld os c)
    (attr f) (Heap.mkWorld os c) [].
Proof. unfold Handler.runs, Heap.file_attr. simpl. now intros ->. Qed.

Lemma runs_array_items l os (c : St) items :
  os !! l = Some (Heap.ArrayObject items) ->
  Handler.runs (Ev := Ev) (Heap.array_items l) (Heap.mkWorld os c) items (Heap.mkWorld os c) [].
Proof. unfold Handler.runs, Heap.array_items. simpl. now intros ->. Qed.

Lemma runs_array_index l i os (c : St) items :
  os !! l = Some (Heap.ArrayObject items) ->
  Handler.runs (Ev := Ev) (Heap.array_index l i) (Heap.mkWorld os c)
    (items !! i) (Heap.mkWorld os c) [].
Proof. unfold Handler.runs, Heap.array_index. simpl. now intros ->. Qed.

Lemma runs_property l key os (c : St) props :
  os !! l = Some (Heap.PlainObject props) ->
  Handler.runs (Ev := Ev) (Heap.property l key) (Heap.mkWorld os c)
    (UploadBox.get_property props key) (Heap.mkWorld os c) [].
Proof. unfold Handler.runs, Heap.property. simpl. now intros ->. Qed.

(** [pop] on the array allocated last changes that array only. *)
Lemma runs_array_pop_last os (c : St) items :
  Handler.runs (Ev := Ev) (Heap.array_pop (length os))
    (Heap.mkWorld (os ++ [Heap.ArrayObject items]) c)
    (last items) (Heap.mkWorld (os ++ [Heap.ArrayObject (removelast items)]) c) [].
Proof.
  unfold Handler.runs, Heap.array_pop. simpl.
  rewrite list_lookup_middle by reflexivity.
  rewrite insert_app_r_alt by lia. now rewrite Nat.sub_diag.
Qed.

End HeapPrimitives.

Lemma lookup_old {A} (os extra : list A) l x : os !! l = Some x -> (os ++ extra) !! l = Some x.
Proof. intros H. now apply lookup_app_l_Some. Qed.

Lemma lookup_new {A} (os : list A) x : (os ++ [x]) !! length os = Some x.
Proof. now apply list_lookup_middle. Qed.

Lemma preserved_app {St} (w : Heap.World St) extra :
  Heap.preserved w (Heap.mkWorld (Heap.objects w ++ extra) (Heap.component w)).
Proof. split; [now apply prefix_app_r|reflexivity]. Qed.

Lemma preserved_lookup {St} (w w' : Heap.World St) l o :
  Heap.preserved w w' -> Heap.objects w !! l = Some o -> Heap.objects w' !! l = Some o.
Proof. intros [Hp _] Hl. exact (prefix_lookup_Some _ _ _ _ Hl Hp). Qed.

(** One statement of a body: run it, then go on in the world it leaves. *)
Ltac run_statement :=
  eapply runs_bind;
  [ first
      [ apply runs_alloc
      | apply runs_array_pop_last
      | apply runs_file_attr; repeat apply lookup_old; eassumption
      | apply runs_array_items; repeat apply lookup_old; eassumption
      | apply runs_property; apply lookup_new
      | apply runs_array_index; apply lookup_new ]
  | cbv beta zeta ].

Ltac run_return := rewrite <- ?app_assoc; apply runs_ret.

(** The body of [UploadBox.validateFile] returns what the function
    [UploadBox.validateFile] of the development says, calls nothing, and
    leaves behind the world it started in plus the arrays and the object
    literal it built for itself. *)
Lemma upload_body_runs maxSize nts (w : Heap.World UploadBox.State) file acceptedTypes
    f accepted :
  Heap.objects w !! file = Some (Heap.FileObject f) ->
  Heap.objects w !! acceptedTypes = Some (Heap.ArrayObject accepted) ->
  exists extra,
    Handler.runs (UploadBoxBody.validateFile maxSize acceptedTypes nts file) w
      (UploadBox.validateFile maxSize accepted nts f)
      (Heap.mkWorld (Heap.objects w ++ extra) (Heap.component w)) [].
Proof.
  destruct w as [os c]. simpl. intros Hf Ha.
  unfold UploadBoxBody.validateFile, UploadBox.validateFile, UploadBox.extension_of,
    UploadBox.subtype_of, JS.pop.
  set (extension := "." +:+ JS.template (JS.toLowerCase <$> last (JS.split "." (File.name f)))).
  destruct (maxSize <? File.size f) eqn:Esize.
  { exists []. rewrite app_nil_r. run_statement. rewrite Esize. apply runs_ret. }
  destruct (negb (JS.arr_includes accepted extension)) eqn:Etype.
  { eexists. run_statement. rewrite Esize.
    do 5 run_statement. fold extension. rewrite Etype.
    run_statement. run_return. }
  destruct (UploadBox.get_property UploadBox.mimeTypes extension) as [expectedMime|] eqn:Emime.
  2: { eexists. run_statement. rewrite Esize.
       do 5 run_statement. fold extension. rewrite Etype.
       run_statement. fold extension. rewrite Emime. run_return. }
  destruct (JS.truthy expectedMime) eqn:Etruthy; simpl.
  2: { eexists. run_statement. rewrite Esize.
       do 5 run_statement. fold extension. rewrite Etype.
       run_statement. fold extension. rewrite Emime, Etruthy. run_return. }
  destruct (negb (JS.includes (File.type f)
                    (JS.template (JS.split "/" expectedMime !! 1%nat)))) eqn:Econtent.
  - eexists. run_statement. rewrite Esize.
    do 5 run_statement. fold extension. rewrite Etype.
    run_statement. fold extension. rewrite Emime, Etruthy.
    do 3 run_statement. rewrite Econtent. run_return.
  - eexists. run_statement. rewrite Esize.
    do 5 run_statement. fold extension. rewrite Etype.
    run_statement. fold extension. rewrite Emime, Etruthy.
    do 3 run_statement. rewrite Econtent. run_return.
Qed.

(** The same for the body of [FileUploader.validateFile]. *)
Lemma uploader_body_runs maxSize (w : Heap.World FileUploader.State) file acceptedTypes
    f accepted :
  Heap.objects w !! file = Some (Heap.FileObject f) ->
  Heap.objects w !! acceptedTypes = Some (Heap.ArrayObject accepted) ->
  exists extra,
    Handler.runs (FileUploaderBody.validateFile maxSize acceptedTypes file) w
      (FileUploader.validateFile maxSize accepted f)
      (Heap.mkWorld (Heap.objects w ++ extra) (Heap.component w)) [].
Proof.
  destruct w as [os c]. simpl. intros Hf Ha.
  unfold FileUploaderBody.validateFile, FileUploader.validateFile, UploadBox.extension_of,
    JS.pop.
  set (extension := "." +:+ JS.template (JS.toLowerCase <$> last (JS.split "." (File.name f)))).
  destruct (maxSize <? File.size f) eqn:Esize.
  { exists []. rewrite app_nil_r. run_statement. rewrite Esize.
    run_statement. apply runs_ret. }
  destruct (negb (JS.arr_includes accepted extension)) eqn:Etype.
  - eexists. run_statement. rewrite Esize.
    do 4 run_statement. fold extension. rewrite Etype.
    do 2 run_statement. run_return.
  - eexists. run_statement. rewrite Esize.
    do 4 run_statement. fold extension. rewrite Etype. run_return.
Qed.

(** C8: an invocation of [validateFile], run statement by statement over
    the objects it can reach (the [File], the [acceptedTypes] array, the
    arrays and the object literal it builds) and the state of the component,
    calls no callback, leaves the state of the component and every object
    that existed before the call as they were (it only adds the objects it
    built for itself: the [pop] changes the array [split] has just made),
    and returns the value of [UploadBox.validateFile] for the props and the
    file.  So a second invocation right after the first returns the same
    string, and so does an invocation in any other world on a file with the
    same name, size and reported type and an [acceptedTypes] array with the
    same elements.  The same holds of [FileUploader.validateFile]. *)
Theorem C8_validateFile_deterministic (maxSize : Z) (nts : Q -> string)
    (w : Heap.World UploadBox.State) (file acceptedTypes : Heap.Loc)
    (f : File.t) (accepted : list string) :
  Heap.objects w !! file = Some (Heap.FileObject f) ->
  Heap.objects w !! acceptedTypes = Some (Heap.ArrayObject accepted) ->
  let call := UploadBoxBody.validateFile maxSize acceptedTypes nts file in
  Handler.result_of call w = UploadBox.validateFile maxSize accepted nts f
  /\ Handler.calls_of call w = []
  /\ Heap.preserved w (Handler.state_after call w)
  /\ Handler.result_of call (Handler.state_after call w) = Handler.result_of call w
  /\ (forall (w2 : Heap.World UploadBox.State) file2 acceptedTypes2 g,
        Heap.objects w2 !! file2 = Some (Heap.FileObject g) ->
        Heap.objects w2 !! acceptedTypes2 = Some (Heap.ArrayObject accepted) ->
        File.name g = File.name f ->
        File.size g = File.size f ->
        File.type g = File.type f ->
        Handler.result_of (UploadBoxBody.validateFile maxSize acceptedTypes2 nts file2) w2
        = Handler.result_of call w)
  /\ (forall (u : Heap.World FileUploader.State) ufile uaccepted,
        Heap.objects u !! ufile = Some (Heap.FileObject f) ->
        Heap.objects u !! uaccepted = Some (Heap.ArrayObject accepted) ->
        let ucall := FileUploaderBody.validateFile maxSize uaccepted ufile in
        Handler.result_of ucall u = FileUploader.validateFile maxSize accepted f
        /\ Handler.calls_of ucall u = []
        /\ Heap.preserved u (Handler.state_after ucall u)
        /\ Handler.result_of ucall (Handler.state_after ucall u)
           = Handler.result_of ucall u).
Proof.
  intros Hf Ha call.
  destruct (upload_body_runs maxSize nts w file acceptedTypes f accepted Hf Ha)
    as (extra & Hrun).
  apply runs_projections in Hrun as (Hr & Hw & Hc).
  assert (Hp : Heap.preserved w (Handler.state_after call w)).
  { subst call. rewrite Hw. apply preserved_app. }
  split; [exact Hr|]. split; [exact Hc|]. split; [exact Hp|].
  split; [|split].
  - destruct (upload_body_runs maxSize nts (Handler.state_after call w) file
                acceptedTypes f accepted) as (extra' & Hrun').
    + exact (preserved_lookup _ _ _ _ Hp Hf).
    + exact (preserved_lookup _ _ _ _ Hp Ha).
    + apply runs_projections in Hrun' as (Hr' & _). subst call. now rewrite Hr', Hr.
  - intros w2 file2 acceptedTypes2 g Hg Ha2 Hname Hsize Htype.
    destruct (upload_body_runs maxSize nts w2 file2 acceptedTypes2 g accepted Hg Ha2)
      as (extra' & Hrun').
    apply runs_projections in Hrun' as (Hr' & _). subst call. rewrite Hr', Hr.
    now apply upload_validate_ext.
  - intros u ufile uaccepted Hu Hua ucall.
    destruct (uploader_body_runs maxSize u ufile uaccepted f accepted Hu Hua)
      as (extra' & Hrun').
    apply runs_projections in Hrun' as (Hr' & Hw' & Hc').
    assert (Hp' : Heap.preserved u (Handler.state_after ucall u)).
    { subst ucall. rewrite Hw'. apply preserved_app. }
    split; [exact Hr'|]. split; [exact Hc'|]. split; [exact Hp'|].
    destruct (uploader_body_runs maxSize (Handler.state_after ucall u) ufile
                uaccepted f accepted) as (extra'' & Hrun'').
    + exact (preserved_lookup _ _ _ _ Hp' Hu).
    + exact (preserved_lookup _ _ _ _ Hp' Hua).
    + apply runs_projections in Hrun'' as (Hr'' & _). subst ucall. now rewrite Hr'', Hr'.
Qed.

(** C8, in a world with the default [acceptedTypes] and a PNG file: the
    call returns the empty string and changes neither of the two objects. *)
Lemma C8_validateFile_deterministic_witness :
  let call := UploadBoxBody.validateFile UploadBox.default_maxSize 0%nat
                whole_megabytes 1%nat in
  Handler.result_of call box_world = ""
  /\ Handler.calls_of call box_world = []
  /\ Heap.preserved box_world (Handler.state_after call box_world).
Proof.
  intros call.
  destruct (C8_validateFile_deterministic UploadBox.default_maxSize whole_megabytes
              box_world 1%nat 0%nat pdf_bytes_named_png UploadBox.default_acceptedTypes)
    as (Hr & Hc & Hp & _); [reflexivity|reflexivity|].
  split; [exact Hr|]. split; [exact Hc|exact Hp].
Defined.

(** ** [UploadBox.handleFile] *)

Lemma handleFile_rejected maxSize acceptedTypes nts f st :
  UploadBox.validateFile maxSize acceptedTypes nts f <> "" ->
  Handler.calls_of (UploadBox.handleFile maxSize acceptedTypes nts f) st = []
  /\ Handler.state_after (UploadBox.handleFile maxSize acceptedTypes nts f) st
     = UploadBox.mkState None (UploadBox.validateFile maxSize acceptedTypes nts f)
         (UploadBox.isDragging st).
Proof.
  intros H. apply truthy_true in H. unfold UploadBox.handleFile. rewrite H.
  split; reflexivity.
Qed.

Lemma handleFile_accepted maxSize acceptedTypes nts f st :
  UploadBox.validateFile maxSize acceptedTypes nts f = "" ->
  Handler.calls_of (UploadBox.handleFile maxSize acceptedTypes nts f) st
  = [UploadBox.onFileSelect f]
  /\ Handler.state_after (UploadBox.handleFile maxSize acceptedTypes nts f) st
     = UploadBox.mkState (Some f) "" (UploadBox.isDragging st).
Proof.
  intros H. unfold UploadBox.handleFile. rewrite H. split; reflexivity.
Qed.

(** ** A session of the multi-file uploader *)

Section FileUploaderSession.
Variable maxFiles : Z.
Variable maxSize : Z.
Variable acceptedTypes : list string.

Local Abbreviation validate := (FileUploader.validateFile maxSize acceptedTypes).
Local Abbreviation forEach := (FileUploader.forEach_file maxSize acceptedTypes).
Local Abbreviation step := (FileUploader.step maxFiles maxSize acceptedTypes).
Local Abbreviation handler_of := (FileUploader.handler_of maxFiles maxSize acceptedTypes).
Local Abbreviation all_valid := (Guardrail.all_valid maxSize acceptedTypes).

(** The loop keeps the accepted files, in order, ... *)
Lemma forEach_files env arr : forall k vs es,
  FileUploader.file <$> (forEach env k arr vs es).1
  = (FileUploader.file <$> vs) ++ filter (fun f => validate f = None) arr.
Proof.
  induction arr as [|f arr IH]; intros k vs es; simpl.
  - now rewrite app_nil_r.
  - destruct (FileUploader.is_error _) eqn:E.
    + apply uploader_is_error in E. rewrite IH.
      now rewrite filter_cons_False.
    + apply not_true_iff_false in E. rewrite uploader_is_error in E.
      assert (Hv : validate f = None).
      { destruct (validate f); [exfalso; apply E; discriminate|reflexivity]. }
      rewrite IH, filter_cons_True by exact Hv.
      rewrite fmap_app. simpl. now rewrite <- app_assoc.
Qed.

(** ... and the messages of the rejected ones, in order. *)
Lemma forEach_errors env arr : forall k vs es,
  (forEach env k arr vs es).2 = es ++ omap validate arr.
Proof.
  induction arr as [|f arr IH]; intros k vs es; simpl.
  - now rewrite app_nil_r.
  - destruct (FileUploader.is_error _) eqn:E.
    + rewrite IH.
      destruct (validate f) as [e|]; [|discriminate].
      simpl. now rewrite <- app_assoc.
    + apply not_true_iff_false in E. rewrite uploader_is_error in E.
      rewrite IH.
      destruct (validate f); [exfalso; apply E; discriminate|reflexivity].
Qed.

Lemma forEach_valid env arr : all_valid (forEach env 0 arr [] []).1.
Proof.
  unfold Guardrail.all_valid.
  apply (proj1 (Forall_fmap FileUploader.file (fun f => validate f = None) _)).
  rewrite forEach_files. simpl. apply Forall_forall. intros f Hf.
  now apply list_elem_of_filter in Hf as [Hf _].
Qed.

Lemma forEach_length env arr :
  (length (forEach env 0 arr [] []).1 <= length arr)%nat.
Proof.
  rewrite <- (length_fmap FileUploader.file), forEach_files. simpl.
  apply length_filter.
Qed.

(** The effect of one drop on the state and on the parent. *)
Lemma drop_effect st env newFiles :
  let arr := JS.slice0 newFiles (maxFiles - Z.of_nat (length (FileUploader.files st))) in
  let kept := (forEach env 0 arr [] []).1 in
  FileUploader.files (step st (FileUploader.Drop env newFiles))
  = FileUploader.files st ++ kept
  /\ FileUploader.errors (step st (FileUploader.Drop env newFiles)) = omap validate arr
  /\ Handler.calls_of (handler_of st (FileUploader.Drop env newFiles)) st
     = match kept with
       | [] => []
       | _ :: _ => [FileUploader.onFilesSelect (FileUploader.files st ++ kept)]
       end.
Proof.
  intros arr kept.
  pose proof (forEach_errors env arr 0%nat [] []) as He. simpl in He.
  subst kept.
  unfold FileUploader.step, FileUploader.handler_of, FileUploader.handleFiles,
    Handler.state_after, Handler.calls_of.
  fold arr.
  destruct (FileUploader.forEach_file maxSize acceptedTypes env 0 arr [] [])
    as [vs es] eqn:E.
  simpl in He. subst es.
  destruct vs as [|v vs]; simpl.
  - rewrite app_nil_r. repeat split; reflexivity.
  - repeat split; reflexivity.
Qed.

Lemma remove_effect st fileId :
  FileUploader.files (step st (FileUploader.Remove fileId))
  = filter (fun f => FileUploader.id f <> fileId) (FileUploader.files st)
  /\ Handler.calls_of (handler_of st (FileUploader.Remove fileId)) st
     = [FileUploader.onFilesSelect
          (filter (fun f => FileUploader.id f <> fileId) (FileUploader.files st))].
Proof. split; reflexivity. Qed.

(** Validity of the selected files is preserved by every operation. *)
Lemma step_valid st op :
  all_valid (FileUploader.files st) -> all_valid (FileUploader.files (step st op)).
Proof.
  intros Hst. destruct op as [env newFiles|fileId].
  - destruct (drop_effect st env newFiles) as (-> & _).
    apply Forall_app. split; [assumption|apply forEach_valid].
  - destruct (remove_effect st fileId) as (-> & _).
    apply Forall_forall. intros fw Hfw.
    apply list_elem_of_filter in Hfw as [_ Hfw].
    unfold Guardrail.all_valid in Hst. rewrite Forall_forall in Hst. auto.
Qed.

(** So is the bound on their number, when it holds to begin with. *)
Lemma step_bounded st op :
  Z.of_nat (length (FileUploader.files st)) <= maxFiles ->
  Z.of_nat (length (FileUploader.files (step st op))) <= maxFiles.
Proof.
  intros Hst. destruct op as [env newFiles|fileId].
  - destruct (drop_effect st env newFiles) as (-> & _).
    rewrite length_app.
    pose proof (forEach_length env
      (JS.slice0 newFiles (maxFiles - Z.of_nat (length (FileUploader.files st))))).
    pose proof (slice0_length newFiles
      (maxFiles - Z.of_nat (length (FileUploader.files st)))).
    lia.
  - destruct (remove_effect st fileId) as (-> & _).
    pose proof (length_filter (fun f => FileUploader.id f <> fileId)
                  (FileUploader.files st)).
    lia.
Qed.

Lemma session_invariant ops : forall st,
  all_valid (FileUploader.files st) ->
  Z.of_nat (length (FileUploader.files st)) <= maxFiles ->
  all_valid (FileUploader.files (fold_left step ops st))
  /\ Z.of_nat (length (FileUploader.files (fold_left step ops st))) <= maxFiles.
Proof.
  induction ops as [|op ops IH]; intros st Hv Hb; simpl; [auto|].
  apply IH; [now apply step_valid|now apply step_bounded].
Qed.

Lemma session_valid ops : forall st,
  all_valid (FileUploader.files st) ->
  all_valid (FileUploader.files (fold_left step ops st)).
Proof.
  induction ops as [|op ops IH]; intros st Hv; simpl; [auto|].
  apply IH. now apply step_valid.
Qed.

(** Every list handed to the parent during a session holds valid files only. *)
Lemma selections_valid ops : forall st fs,
  all_valid (FileUploader.files st) ->
  FileUploader.onFilesSelect fs
    ∈ FileUploader.selections_from maxFiles maxSize acceptedTypes st ops ->
  all_valid fs.
Proof.
  induction ops as [|op ops IH]; intros st fs Hv Hin; simpl in Hin.
  - now apply elem_of_nil in Hin.
  - apply elem_of_app in Hin as [Hin|Hin].
    + pose proof (step_valid st op Hv) as Hstep.
      destruct op as [env newFiles|fileId].
      * destruct (drop_effect st env newFiles) as (Hfiles & _ & Hcalls).
        rewrite Hcalls in Hin. rewrite Hfiles in Hstep.
        destruct ((forEach env 0 _ [] []).1).
        -- now apply elem_of_nil in Hin.
        -- apply list_elem_of_singleton in Hin. injection Hin as ->. exact Hstep.
      * destruct (remove_effect st fileId) as (Hfiles & Hcalls).
        rewrite Hcalls in Hin. rewrite Hfiles in Hstep.
        apply list_elem_of_singleton in Hin. injection Hin as ->. exact Hstep.
    + apply (IH (step st op)); [now apply step_valid|exact Hin].
Qed.

End FileUploaderSession.

(** ** Rejected files are not forwarded *)

(** C4: a file rejected by [validateFile] is never forwarded.  In
    [UploadBox], [handleFile] on such a file makes no call of [onFileSelect],
    stores the message in the error state and clears the selected file.  In
    [FileUploader], no list handed to [onFilesSelect] in the course of a
    session (any sequence of drops and removals from the empty list)
    contains such a file, and a drop that rejects it reports its message. *)
Theorem C4_rejected_never_forwarded (maxFiles maxSize : Z)
    (acceptedTypes : list string) (nts : Q -> string) (f : File.t) :
  (UploadBox.validateFile maxSize acceptedTypes nts f <> "" ->
   forall st,
     let h := UploadBox.handleFile maxSize acceptedTypes nts f in
     Handler.calls_of h st = []
     /\ UploadBox.error (Handler.state_after h st)
        = UploadBox.validateFile maxSize acceptedTypes nts f
     /\ UploadBox.file (Handler.state_after h st) = None)
  /\ (FileUploader.validateFile maxSize acceptedTypes f <> None ->
      (forall ops fs,
         FileUploader.onFilesSelect fs
           ∈ FileUploader.selections maxFiles maxSize acceptedTypes ops ->
         f ∉ (FileUploader.file <$> fs))
      /\ (forall ops env newFiles,
            let st := FileUploader.run maxFiles maxSize acceptedTypes ops in
            let st' := FileUploader.step maxFiles maxSize acceptedTypes st
                         (FileUploader.Drop env newFiles) in
            (f ∉ (FileUploader.file <$> FileUploader.files st'))
            /\ (f ∈ JS.slice0 newFiles
                      (maxFiles - Z.of_nat (length (FileUploader.files st))) ->
                exists e, FileUploader.validateFile maxSize acceptedTypes f = Some e
                          /\ e ∈ FileUploader.errors st'))).
Proof.
  split.
  - intros H st h. subst h.
    destruct (handleFile_rejected maxSize acceptedTypes nts f st H) as [-> ->].
    repeat split.
  - intros H.
    assert (Hnot : forall fs, Guardrail.all_valid maxSize acceptedTypes fs ->
                              f ∉ (FileUploader.file <$> fs)).
    { intros fs Hfs Hin. apply list_elem_of_fmap in Hin as (fw & -> & Hfw).
      unfold Guardrail.all_valid in Hfs. rewrite Forall_forall in Hfs.
      apply H. now apply Hfs. }
    split.
    + intros ops fs Hin. apply Hnot.
      apply (selections_valid maxFiles maxSize acceptedTypes ops
               FileUploader.initial fs); [constructor|exact Hin].
    + intros ops env newFiles st st'. split.
      * apply Hnot. subst st'. apply step_valid. subst st.
        apply session_valid. constructor.
      * intros Hin. subst st'.
        destruct (drop_effect maxFiles maxSize acceptedTypes st env newFiles)
          as (_ & -> & _).
        destruct (FileUploader.validateFile maxSize acceptedTypes f) as [e|] eqn:E;
          [|congruence].
        exists e. split; [reflexivity|].
        apply list_elem_of_omap. eauto.
Qed.

(** C4, at the defaults: a two-byte executable is not forwarded. *)
Lemma C4_rejected_never_forwarded_witness :
  Handler.calls_of
    (UploadBox.handleFile UploadBox.default_maxSize UploadBox.default_acceptedTypes
       whole_megabytes two_byte_exe) UploadBox.initial = [].
Proof.
  apply (C4_rejected_never_forwarded FileUploader.default_maxFiles
           UploadBox.default_maxSize UploadBox.default_acceptedTypes
           whole_megabytes two_byte_exe).
  vm_compute. discriminate.
Defined.

(** ** The invariant of the selected-files list *)

(** C9: for a non-negative [maxFiles], after every sequence of drops and
    removals from the empty list the selected-files list has at most
    [maxFiles] entries and every entry passes [validateFile].  A drop
    considers only as many leading files as there is room for: the files it
    adds are the accepted ones among them, the errors it reports are the
    messages of the rejected ones among them, and the files beyond are
    neither added nor reported. *)
Theorem C9_selected_files_invariant (maxFiles maxSize : Z)
    (acceptedTypes : list string) :
  0 <= maxFiles ->
  forall ops,
    let validate := FileUploader.validateFile maxSize acceptedTypes in
    let st := FileUploader.run maxFiles maxSize acceptedTypes ops in
    Z.of_nat (length (FileUploader.files st)) <= maxFiles
    /\ Forall (fun fw => validate (FileUploader.file fw) = None) (FileUploader.files st)
    /\ forall env newFiles,
         let st' := FileUploader.step maxFiles maxSize acceptedTypes st
                      (FileUploader.Drop env newFiles) in
         let room := Z.to_nat (maxFiles - Z.of_nat (length (FileUploader.files st))) in
         FileUploader.file <$> FileUploader.files st'
         = (FileUploader.file <$> FileUploader.files st)
           ++ filter (fun f => validate f = None) (take room newFiles)
         /\ FileUploader.errors st' = omap validate (take room newFiles).
Proof.
  intros Hmax ops validate st.
  destruct (session_invariant maxFiles maxSize acceptedTypes ops FileUploader.initial)
    as [Hv Hb]; [constructor|simpl; lia|].
  fold (FileUploader.run maxFiles maxSize acceptedTypes ops) in Hv, Hb. fold st in Hv, Hb.
  split; [exact Hb|split; [exact Hv|]].
  intros env newFiles st' room.
  destruct (drop_effect maxFiles maxSize acceptedTypes st env newFiles)
    as (Hfiles & Herrors & _).
  subst st'. rewrite Hfiles, Herrors, fmap_app, forEach_files.
  rewrite slice0_take by lia. split; reflexivity.
Qed.

(** C9, with [maxFiles = 2]: the first two files are considered (one kept,
    one reported); the two PNG files are dropped without a message. *)
Lemma C9_selected_files_invariant_witness :
  let st := FileUploader.run 2 FileUploader.default_maxSize
              FileUploader.default_acceptedTypes
              [FileUploader.Drop fixed_entropy four_files] in
  Z.of_nat (length (FileUploader.files st)) <= 2
  /\ Forall (fun fw => FileUploader.validateFile FileUploader.default_maxSize
                         FileUploader.default_acceptedTypes (FileUploader.file fw) = None)
            (FileUploader.files st).
Proof.
  intros st.
  pose proof (C9_selected_files_invariant 2 FileUploader.default_maxSize
                FileUploader.default_acceptedTypes ltac:(lia)
                [FileUploader.Drop fixed_entropy four_files]) as H.
  split; apply H.
Defined.

Example drop_four_files :
  let st := FileUploader.run 2 FileUploader.default_maxSize
              FileUploader.default_acceptedTypes
              [FileUploader.Drop fixed_entropy four_files] in
  FileUploader.id <$> FileUploader.files st = ["lc.pdf-1700000000000-0.5"]
  /\ FileUploader.errors st
     = ["notes.exe: File type not supported. Accepted: .pdf, .jpg, .jpeg, .png, .json"].
Proof. vm_compute. split; reflexivity. Qed.

(** ** Polling of the job status *)






(** The interval is whatever the caller passed, positive or not. *)
Example useJob_zero_interval :
  ~ Polling.polls_positively
      (UseApi.useJob_refetchInterval
         (Some (UseApi.mkJobOptions None (Some (UseApi.Poll 0))))).
Proof.
  intros H. destruct (H None) as (ms & E & Hpos); [discriminate|].
  injection E as <-. lia.
Qed.


(** ** Severity levels *)

Lemma four_levels_elem l :
  l ∈ four_levels <-> l = "critical" \/ l = "high" \/ l = "medium" \/ l = "low".
Proof. unfold four_levels. rewrite !elem_of_cons, elem_of_nil. tauto. Qed.

(** A [switch] over the four levels has a case for a string exactly when
    the string is one of them. *)
Lemma four_cases {A} (l : string) (a b c d : A) :
  l ∈ four_levels <->
  is_Some (if String.eqb l "critical" then Some a
           else if String.eqb l "high" then Some b
           else if String.eqb l "medium" then Some c
           else if String.eqb l "low" then Some d
           else None).
Proof.
  rewrite four_levels_elem.
  destruct (String.eqb_spec l "critical") as [->|H1]; [split; eauto|].
  destruct (String.eqb_spec l "high") as [->|H2]; [split; eauto|].
  destruct (String.eqb_spec l "medium") as [->|H3]; [split; eauto|].
  destruct (String.eqb_spec l "low") as [->|H4]; [split; eauto|].
  split; [tauto|]. intros H. now destruct (is_Some_None H).
Qed.

Lemma issue_typed_four_levels i :
  UseApi.Issue_typed i <-> UseApi.severity i ∈ four_levels.
Proof.
  rewrite four_levels_elem. split.
  - intros [[] ->]; simpl; tauto.
  - intros [H|[H|[H|H]]];
      [exists UseApi.critical|exists UseApi.high|exists UseApi.medium|exists UseApi.low];
      exact H.
Qed.

(** The card of an issue is styled exactly when the issue's severity has a
    case in [getRiskLevelStyles]. *)
Lemma issue_card_styled created_at now index i :
  is_Some (RiskCard.style_classes false (risk_of_issue created_at now index i))
  <-> is_Some (RiskCard.getRiskLevelStyles (UseApi.severity i)).
Proof.
  unfold RiskCard.style_classes, risk_of_issue, RiskCard.displayImpacts. simpl.
  destruct (RiskCard.getRiskLevelStyles (UseApi.severity i)) as [st|]; simpl.
  - split; eauto.
  - split; intros H; now destruct (is_Some_None H).
Qed.

(** C6, counterexample: a finding may carry the severity [warning], which is
    none of the four levels. *)
Lemma C6_warning_is_a_finding_severity :
  ~ (forall f : Types.Finding,
       Types.FindingSeverity_literal (Types.severity f) ∈ four_levels).
Proof.
  intros H. specialize (H warning_finding).
  apply four_levels_elem in H. simpl in H.
  destruct H as [H|[H|[H|H]]]; discriminate.
Qed.

(** C6 (amended): the severity an issue of a validation result is declared
    with is one of exactly the four levels critical, high, medium, low, and
    these four are exactly the severities the front end has a case for: for
    an issue with any other severity [getRiskLevelStyles] and
    [getSeverityBadge] return [undefined] and the card of the results page
    fails on reading its styles, while the filter and the priority of the
    page take it for an issue of low priority.  A [Finding] of the shared
    type declarations carries a severity from exactly the three levels
    critical, warning, info, of which only [critical] is one of the four. *)
Theorem C6_severity_levels :
  (forall s : UseApi.IssueSeverity, UseApi.IssueSeverity_literal s ∈ four_levels)
  /\ (forall l, l ∈ four_levels -> exists s, UseApi.IssueSeverity_literal s = l)
  /\ (forall i : UseApi.Issue,
        (UseApi.Issue_typed i <-> UseApi.severity i ∈ four_levels)
        /\ (UseApi.severity i ∈ four_levels
            <-> is_Some (RiskCard.getRiskLevelStyles (UseApi.severity i)))
        /\ (forall created_at now index,
              UseApi.severity i ∈ four_levels
              <-> is_Some (RiskCard.style_classes false
                             (risk_of_issue created_at now index i)))
        /\ (UseApi.severity i ∈ four_levels
            <-> is_Some (CorrectionForm.getSeverityBadge (UseApi.severity i))))
  /\ (forall f : Types.Finding,
        Types.FindingSeverity_literal (Types.severity f)
          ∈ ["critical"; "warning"; "info"])
  /\ (forall l, l ∈ ["critical"; "warning"; "info"] ->
        exists f : Types.Finding, Types.FindingSeverity_literal (Types.severity f) = l)
  /\ (forall s : Types.FindingSeverity,
        Types.FindingSeverity_literal s ∈ four_levels <-> s = Types.critical)
  /\ (forall s : Types.FindingSeverity,
        is_Some (RiskCard.getRiskLevelStyles (Types.FindingSeverity_literal s))
        <-> s = Types.critical)
  /\ (forall i : UseApi.Issue,
        (UseApi.severity i ∉ four_levels) ->
        ExporterResults.is_high_priority i = false
        /\ ExporterResultsView.priority_of i = 3
        /\ RiskCard.getRiskLevelStyles (UseApi.severity i) = None).
Proof.
  split; [|split; [|split; [|split; [|split; [|split; [|split]]]]]].
  - intros []; apply four_levels_elem; simpl; tauto.
  - intros l Hl. apply issue_typed_four_levels with (i := UseApi.mkIssue l "" "" "" [])
      in Hl as [s Hs]. exists s. now rewrite <- Hs.
  - intros i. split; [apply issue_typed_four_levels|].
    split; [apply four_cases|].
    split; [|apply four_cases].
    intros created_at now index. rewrite issue_card_styled. apply four_cases.
  - intros f. destruct (Types.severity f); simpl;
      rewrite !elem_of_cons; tauto.
  - intros l Hl.
    rewrite !elem_of_cons, elem_of_nil in Hl. destruct Hl as [->|[->|[->|[]]]];
      [exists (Types.mkFinding "" "" Types.critical "" "" "" "" None)
      |exists (Types.mkFinding "" "" Types.warning "" "" "" "" None)
      |exists (Types.mkFinding "" "" Types.info "" "" "" "" None)]; reflexivity.
  - intros s. rewrite four_levels_elem.
    destruct s; simpl; split; intros H; try reflexivity; try discriminate;
      try tauto; destruct H as [H|[H|[H|H]]]; discriminate.
  - intros s. destruct s; simpl; split; intros H; try reflexivity;
      try discriminate; try (now destruct (is_Some_None H)); eauto.
  - intros i Hout. rewrite four_levels_elem in Hout.
    unfold ExporterResults.is_high_priority, ExporterResultsView.priority_of,
      RiskCard.getRiskLevelStyles.
    destruct (String.eqb_spec (UseApi.severity i) "critical"); [tauto|].
    destruct (String.eqb_spec (UseApi.severity i) "high"); [tauto|].
    destruct (String.eqb_spec (UseApi.severity i) "medium"); [tauto|].
    destruct (String.eqb_spec (UseApi.severity i) "low"); [tauto|].
    repeat split; reflexivity.
Qed.

(** ** The issues shown on the results page *)

Lemma is_high_priority_true issue :
  ExporterResults.is_high_priority issue = true <-> high_priority issue.
Proof.
  unfold ExporterResults.is_high_priority, high_priority.
  now rewrite orb_true_iff, !String.eqb_eq.
Qed.

Lemma highPriorityIssues_sublist issues :
  ExporterResults.highPriorityIssues issues `sublist_of` issues.
Proof.
  induction issues as [|i issues IH]; simpl; [constructor|].
  destruct (ExporterResults.is_high_priority i); now constructor.
Qed.

Lemma highPriorityIssues_elem issues i :
  i ∈ ExporterResults.highPriorityIssues issues <-> i ∈ issues /\ high_priority i.
Proof.
  unfold ExporterResults.highPriorityIssues.
  rewrite !list_elem_of_In, filter_In, is_high_priority_true. reflexivity.
Qed.

Lemma highPriorityIssues_greatest l issues :
  l `sublist_of` issues -> Forall high_priority l ->
  l `sublist_of` ExporterResults.highPriorityIssues issues.
Proof.
  induction 1 as [|i l issues Hsub IH|i l issues Hsub IH]; intros Hall; simpl.
  - constructor.
  - apply Forall_cons in Hall as [Hi Hall].
    apply is_high_priority_true in Hi. rewrite Hi. constructor. auto.
  - destruct (ExporterResults.is_high_priority i); [constructor|]; auto.
Qed.

(** C10: with the toggle off the page displays the issues of severity
    [critical] or [high], all of them and only them, in the order they have
    in the full list (it is the greatest such sub-list); with the toggle on
    it displays the full list unchanged. *)
Theorem C10_displayed_issues (issues : list UseApi.Issue) :
  ExporterResults.displayedIssues true issues = issues
  /\ ExporterResults.displayedIssues false issues `sublist_of` issues
  /\ (forall i, i ∈ ExporterResults.displayedIssues false issues
                <-> i ∈ issues /\ high_priority i)
  /\ (forall l, l `sublist_of` issues -> Forall high_priority l ->
                l `sublist_of` ExporterResults.displayedIssues false issues).
Proof.
  split; [reflexivity|].
  change (ExporterResults.displayedIssues false issues)
    with (ExporterResults.highPriorityIssues issues).
  split; [apply highPriorityIssues_sublist|].
  split; [intros i; apply highPriorityIssues_elem|intros l; apply highPriorityIssues_greatest].
Qed.

(** ** The daily spend ceiling *)

Section DailyBudget.
Variable ceiling : Z.

Local Abbreviation step := (OCROrchestrator.step ceiling).
Local Abbreviation spent := OCROrchestrator.spent.
Local Abbreviation recorded := OCROrchestrator.recorded.
Local Abbreviation within_budget := (OCROrchestrator.within_budget ceiling).

(** An action either leaves the counter and the ledger alone, or it is a
    check-and-increment taken below the ceiling, which charges its cost to
    the day and to the job. *)
Lemma step_charges s a :
  (OCROrchestrator.counter (step s a) = OCROrchestrator.counter s
   /\ OCROrchestrator.ledger (step s a) = OCROrchestrator.ledger s
   /\ OCROrchestrator.invokes_secondary ceiling s a = false)
  \/ (exists j today cost,
        a = OCROrchestrator.CheckAndIncrement j today cost
        /\ spent s today < ceiling
        /\ OCROrchestrator.counter (step s a)
           = <[today := spent s today + cost]> (OCROrchestrator.counter s)
        /\ OCROrchestrator.ledger (step s a) = (j, today, cost) :: OCROrchestrator.ledger s
        /\ OCROrchestrator.invokes_secondary ceiling s a = true).
Proof.
  destruct a as [j|j confident|j today cost|j]; simpl.
  - left. destruct (OCROrchestrator.phase s !! j); auto.
  - left. destruct (OCROrchestrator.phase s !! j) as [[]|]; auto.
  - destruct (OCROrchestrator.phase s !! j) as [[]|]; auto.
    destruct (Z.ltb_spec (OCROrchestrator.spent s today) ceiling).
    + right. exists j, today, cost. auto.
    + left. auto.
  - left. destruct (OCROrchestrator.phase s !! j) as [[]|]; auto.
Qed.

Lemma initial_within_budget : 0 <= ceiling -> within_budget OCROrchestrator.initial.
Proof. intros H d. split; [reflexivity|left; exact H]. Qed.

Lemma step_within_budget s a : within_budget s -> within_budget (step s a).
Proof.
  intros Hs d. destruct (Hs d) as [Hc Hb].
  destruct (step_charges s a)
    as [(Ecounter & Eledger & _)|(j & today & cost & -> & Hlt & Ecounter & Eledger & _)];
    unfold OCROrchestrator.spent, OCROrchestrator.recorded in *;
    rewrite Ecounter, Eledger.
  - auto.
  - simpl. destruct (decide (today = d)) as [->|Hne].
    + rewrite lookup_insert_eq. simpl. split; [lia|].
      right. exists j, cost. split; [apply list_elem_of_here|lia].
    + rewrite lookup_insert_ne by assumption. split; [exact Hc|].
      destruct Hb as [Hb|(j' & cost' & Hin & Hb)]; [now left|].
      right. exists j', cost'. split; [now apply list_elem_of_further|exact Hb].
Qed.

Lemma run_within_budget trace : forall s,
  within_budget s -> within_budget (fold_left step trace s).
Proof.
  induction trace as [|a trace IH]; intros s Hs; simpl; [exact Hs|].
  apply IH. now apply step_within_budget.
Qed.

End DailyBudget.

(** C7: in every interleaving of the jobs' atomic actions, and for every
    day, the spend recorded against the day is what the daily counter shows
    and exceeds the ceiling by less than the cost of one call charged to
    that day; the secondary engine is invoked only by a check-and-increment
    that finds the day's counter below the ceiling, and no other action
    changes the counter. *)
Theorem C7_daily_spend_bounded (ceiling : Z) :
  0 <= ceiling ->
  forall (trace : list OCROrchestrator.Action) (d : OCROrchestrator.Day),
    let s := OCROrchestrator.run ceiling trace in
    OCROrchestrator.recorded s d = OCROrchestrator.spent s d
    /\ (OCROrchestrator.recorded s d <= ceiling
        \/ exists j cost, (j, d, cost) ∈ OCROrchestrator.ledger s
                          /\ OCROrchestrator.recorded s d < ceiling + cost)
    /\ forall a,
         (OCROrchestrator.invokes_secondary ceiling s a = true ->
          exists j today cost,
            a = OCROrchestrator.CheckAndIncrement j today cost
            /\ OCROrchestrator.spent s today < ceiling)
         /\ (OCROrchestrator.invokes_secondary ceiling s a = false ->
             OCROrchestrator.spent (OCROrchestrator.step ceiling s a) d
             = OCROrchestrator.spent s d).
Proof.
  intros Hc trace d s.
  destruct (run_within_budget ceiling trace OCROrchestrator.initial
              (initial_within_budget ceiling Hc) d) as [Heq Hb].
  fold (OCROrchestrator.run ceiling trace) in Heq, Hb. fold s in Heq, Hb.
  split; [symmetry; exact Heq|split; [exact Hb|]].
  intros a.
  destruct (step_charges ceiling s a)
    as [(Ecounter & _ & Einv)|(j & today & cost & -> & Hlt & _ & _ & Einv)];
    rewrite Einv; split; try discriminate.
  - intros _. unfold OCROrchestrator.spent. now rewrite Ecounter.
  - intros _. exists j, today, cost. auto.
Qed.

Example three_jobs_spend :
  let s := OCROrchestrator.run 10 three_jobs in
  OCROrchestrator.spent s 0%nat = 13
  /\ OCROrchestrator.phase s !! 3%nat = Some OCROrchestrator.LowConfidence
  /\ OCROrchestrator.phase s !! 1%nat = Some OCROrchestrator.ExtractedBySecondary.
Proof. vm_compute. repeat split. Qed.

(** C7, on the race above: the day's spend of 13 is over the ceiling of 10
    by less than the cost of one charged call. *)
Lemma C7_daily_spend_bounded_witness :
  let s := OCROrchestrator.run 10 three_jobs in
  OCROrchestrator.recorded s 0%nat <= 10
  \/ exists j cost, (j, 0%nat, cost) ∈ OCROrchestrator.ledger s
                    /\ OCROrchestrator.recorded s 0%nat < 10 + cost.
Proof.
  intros s.
  apply (C7_daily_spend_bounded 10 ltac:(lia) three_jobs 0%nat).
Defined.

(** * Further properties of the pages and components *)

(** ** Check boxes that toggle membership in a list *)

Lemma toggle_elem docId prev x :
  x ∈ ExportLCUpload.handleDocumentCheck docId prev
  <-> (x <> docId /\ x ∈ prev) \/ (x = docId /\ docId ∉ prev).
Proof.
  unfold ExportLCUpload.handleDocumentCheck.
  destruct (JS.arr_includes prev docId) eqn:E.
  - apply arr_includes_true in E. rewrite list_elem_of_filter. split.
    + intros [Hne Hin]. now left.
    + intros [[Hne Hin]|[_ Hnot]]; [now split|contradiction].
  - apply arr_includes_false in E. rewrite elem_of_app, list_elem_of_singleton. split.
    + intros [Hin| ->]; [left|right; now split].
      split; [|assumption]. intros ->. contradiction.
    + intros [[_ Hin]|[-> _]]; [now left|now right].
Qed.

Lemma toggle_NoDup docId prev :
  NoDup prev -> NoDup (ExportLCUpload.handleDocumentCheck docId prev).
Proof.
  intros Hnd. unfold ExportLCUpload.handleDocumentCheck.
  destruct (JS.arr_includes prev docId) eqn:E.
  - now apply NoDup_filter.
  - apply arr_includes_false in E. apply NoDup_app. repeat split.
    + assumption.
    + intros x Hx Hx'. apply list_elem_of_singleton in Hx' as ->. contradiction.
    + apply NoDup_singleton.
Qed.

Lemma toggles_snoc (toggle : string -> list string -> list string) start clicks c :
  foldl (fun prev d => toggle d prev) start (clicks ++ [c])
  = toggle c (foldl (fun prev d => toggle d prev) start clicks).
Proof. now rewrite foldl_app. Qed.

(** After any clicks from an empty selection, an item is selected exactly
    when it was clicked an odd number of times, and no item is listed
    twice. *)
Lemma toggles_parity clicks :
  let selected :=
    foldl (fun prev d => ExportLCUpload.handleDocumentCheck d prev) [] clicks in
  NoDup selected
  /\ forall d, d ∈ selected <-> Nat.odd (length (filter (fun c => c = d) clicks)) = true.
Proof.
  induction clicks as [|c clicks IH] using rev_ind; simpl.
  - split; [constructor|]. intros d. split; [intros H; now apply elem_of_nil in H|discriminate].
  - rewrite toggles_snoc. destruct IH as [Hnd Hpar]. split; [now apply toggle_NoDup|].
    intros d. rewrite toggle_elem, filter_app, length_app.
    destruct (decide (c = d)) as [->|Hne].
    + rewrite filter_cons_True by reflexivity. simpl.
      rewrite Nat.add_1_r, Nat.odd_succ, <- Nat.negb_odd, negb_true_iff.
      rewrite <- not_true_iff_false, <- Hpar. split.
      * intros [[Hne _]|[_ Hnot]]; [congruence|assumption].
      * intros Hnot. right. now split.
    + rewrite filter_cons_False by assumption. simpl. rewrite Nat.add_0_r, <- Hpar. split.
      * intros [[_ Hin]|[-> _]]; [assumption|congruence].
      * intros Hin. left. split; [congruence|assumption].
Qed.

(** X1: on the export upload page, after any sequence of clicks on the
    checklist a document is ticked exactly when its box was clicked an odd
    number of times, and the list of ticked documents never holds a
    document twice. *)
Theorem X1_checklist_toggles (clicks : list string) :
  NoDup (checked_after clicks)
  /\ forall docId,
       JS.arr_includes (checked_after clicks) docId = true
       <-> Nat.odd (length (filter (fun c => c = docId) clicks)) = true.
Proof.
  destruct (toggles_parity clicks) as [Hnd Hpar]. split; [exact Hnd|].
  intros docId. rewrite arr_includes_true. apply Hpar.
Qed.

(** ** The submit buttons of the upload pages *)

Lemma all_checked_missing docs checked :
  ExportLCUpload.all_checked_of docs checked = true
  <-> ExportLCUpload.missing_of docs checked = [].
Proof.
  unfold ExportLCUpload.all_checked_of, ExportLCUpload.missing_of.
  induction (List.filter ExportLCUpload.required docs) as [|doc l IH]; simpl.
  - tauto.
  - destruct (JS.arr_includes checked (ExportLCUpload.id doc)); simpl.
    + exact IH.
    + split; discriminate.
Qed.

Lemma all_checked_ids docs checked :
  ExportLCUpload.all_checked_of docs checked = true
  <-> forall doc, doc ∈ docs -> ExportLCUpload.required doc = true ->
                  ExportLCUpload.id doc ∈ checked.
Proof.
  unfold ExportLCUpload.all_checked_of. rewrite forallb_forall. split.
  - intros H doc Hin Hreq. apply arr_includes_true, H, filter_In.
    split; [now apply list_elem_of_In|assumption].
  - intros H doc Hin. apply filter_In in Hin as [Hin Hreq].
    apply arr_includes_true, H; [now apply list_elem_of_In|assumption].
Qed.

Lemma length_zero_nil {A} (l : list A) : (length l =? 0)%nat = true <-> l = [].
Proof. destruct l; simpl; split; congruence. Qed.

Lemma length_pos_not_nil {A} (l : list A) : (0 <? length l)%nat = true <-> l <> [].
Proof.
  destruct l; simpl; split; try discriminate; try reflexivity.
  intros H. now contradiction H.
Qed.

(** X2: on the export upload page the submit button is enabled (no request
    pending) exactly when [handleSubmit] sends the request instead of a
    warning, and the request then carries the selected files and the user
    type [exporter]; this is the case exactly when at least one file is
    selected and the five required documents are ticked, whether or not the
    optional insurance certificate is. *)
Theorem X2_export_submit_guard (selectedFiles : list FileUploader.FileWithPreview)
    (checkedDocuments : list string) :
  (ExportLCUpload.submit_disabled selectedFiles checkedDocuments false = false
   <-> ExportLCUpload.handleSubmit selectedFiles checkedDocuments
       = ExportLCUpload.Requested (Api.mkRequest selectedFiles (Some "exporter") None))
  /\ (ExportLCUpload.submit_disabled selectedFiles checkedDocuments false = false
      <-> selectedFiles <> []
          /\ forall docId, docId ∈ ["lc"; "invoice"; "packing"; "bl"; "coo"] ->
                           docId ∈ checkedDocuments).
Proof.
  unfold ExportLCUpload.submit_disabled, ExportLCUpload.handleSubmit,
    ExportLCUpload.allRequiredChecked.
  pose proof (all_checked_missing ExportLCUpload.requiredDocuments checkedDocuments) as Hm.
  pose proof (all_checked_ids ExportLCUpload.requiredDocuments checkedDocuments) as Hi.
  pose proof (length_zero_nil selectedFiles) as Hz.
  pose proof (length_pos_not_nil
                (ExportLCUpload.missing_of ExportLCUpload.requiredDocuments
                   checkedDocuments)) as Hp.
  assert (Hids : (forall doc, doc ∈ ExportLCUpload.requiredDocuments ->
                     ExportLCUpload.required doc = true ->
                     ExportLCUpload.id doc ∈ checkedDocuments)
                 <-> forall docId, docId ∈ ["lc"; "invoice"; "packing"; "bl"; "coo"] ->
                                   docId ∈ checkedDocuments).
  { unfold ExportLCUpload.requiredDocuments. split.
    - intros H docId Hin.
      repeat (apply elem_of_cons in Hin as [->|Hin];
              [match goal with
               | |- ?d ∈ _ =>
                   refine (H (ExportLCUpload.mkDoc d _ _ true _) _ eq_refl);
                   repeat first [apply list_elem_of_here|apply list_elem_of_further]
               end|]).
      now apply elem_of_nil in Hin.
    - intros H doc Hin Hreq.
      repeat (apply elem_of_cons in Hin as [->|Hin];
              [first [discriminate Hreq
                     |apply H; simpl;
                      repeat first [apply list_elem_of_here|apply list_elem_of_further]]|]).
      now apply elem_of_nil in Hin. }
  destruct (ExportLCUpload.all_checked_of _ _) eqn:Eall;
    destruct (length selectedFiles =? 0)%nat eqn:Elen; simpl.
  - split; split; try discriminate.
    intros [Hne _]. exfalso. apply Hne. now apply Hz.
  - assert (Hmiss : ExportLCUpload.missing_of ExportLCUpload.requiredDocuments
                      checkedDocuments = []) by now apply Hm.
    rewrite Hmiss. simpl. split; split; try reflexivity.
    intros _. split.
    + intros ->. discriminate Elen.
    + apply Hids, Hi. reflexivity.
  - split; split; try discriminate.
    intros [Hne _]. exfalso. apply Hne. now apply Hz.
  - destruct (0 <? length _)%nat eqn:Epos.
    + split; split; try discriminate.
      intros [_ Hall]. discriminate (proj2 Hi (proj2 Hids Hall)).
    + assert (Hne : ExportLCUpload.missing_of ExportLCUpload.requiredDocuments
                      checkedDocuments <> [])
        by (intros Hnil; discriminate (proj2 Hm Hnil)).
      discriminate (proj2 Hp Hne).
Qed.

Lemma submit_guard docs (files : list FileUploader.FileWithPreview) checked :
  negb (ExportLCUpload.all_checked_of docs checked) || (length files =? 0)%nat = false
  <-> (length files =? 0)%nat = false
      /\ (0 <? length (ExportLCUpload.missing_of docs checked))%nat = false.
Proof.
  pose proof (all_checked_missing docs checked) as Hm.
  destruct (ExportLCUpload.all_checked_of docs checked);
    destruct (length files =? 0)%nat; simpl.
  - split; [discriminate|intros [H _]; discriminate H].
  - rewrite (proj1 Hm eq_refl). simpl. tauto.
  - split; [discriminate|intros [H _]; discriminate H].
  - split; [discriminate|]. intros [_ H].
    destruct (ExportLCUpload.missing_of docs checked); [|discriminate H].
    discriminate (proj2 Hm eq_refl).
Qed.

(** X3: on the import upload page the submit button is enabled (no request
    pending) exactly when a workflow is selected and [handleSubmit] sends
    the request, which then carries the selected files, the user type
    [importer] and the workflow; choosing a workflow empties the selection,
    so right after it the button is disabled and [handleSubmit] only warns;
    the draft-LC workflow requires nothing but the draft LC to be ticked. *)
Theorem X3_import_submit_guard (st : ImportLCUpload.State) :
  (ImportLCUpload.submit_disabled st false = false
   <-> exists w,
         ImportLCUpload.selectedWorkflow st = Some w
         /\ ImportLCUpload.handleSubmit st
            = ExportLCUpload.Requested
                (Api.mkRequest (ImportLCUpload.selectedFiles st) (Some "importer")
                   (Some (ImportLCUpload.workflow_name w))))
  /\ (forall w,
        ImportLCUpload.submit_disabled (ImportLCUpload.handleWorkflowSelect w st) false
        = true
        /\ ImportLCUpload.handleSubmit (ImportLCUpload.handleWorkflowSelect w st)
           = ExportLCUpload.Warned
               (Toast.mk "warning" "No Files Selected"
                  "Please upload at least one document to proceed."))
  /\ (ImportLCUpload.selectedWorkflow st = Some ImportLCUpload.draft_lc_risk ->
      (ImportLCUpload.allRequiredChecked st = true
       <-> "draft-lc" ∈ ImportLCUpload.checkedDocuments st)).
Proof.
  split; [|split].
  - unfold ImportLCUpload.submit_disabled, ImportLCUpload.handleSubmit,
      ImportLCUpload.allRequiredChecked.
    destruct (ImportLCUpload.selectedWorkflow st) as [w|]; simpl.
    + rewrite orb_false_r, submit_guard. split.
      * intros [-> ->]. now exists w.
      * intros (w' & [= <-] & H).
        destruct (length _ =? 0)%nat; [discriminate H|].
        destruct (0 <? length _)%nat; [discriminate H|]. now split.
    + split; [discriminate|]. intros (w & H & _). discriminate H.
  - intros w. destruct w; split; reflexivity.
  - intros Hw. unfold ImportLCUpload.allRequiredChecked. rewrite Hw.
    unfold ExportLCUpload.all_checked_of. simpl.
    rewrite andb_true_r. apply arr_includes_true.
Qed.

(** X3, on a state with the draft-LC workflow, one file and the draft LC
    ticked. *)
Lemma X3_import_submit_guard_witness :
  let st := ImportLCUpload.mkState (Some ImportLCUpload.draft_lc_risk)
              [FileUploader.mkFWP empty_pdf "a.pdf-1-0.5" None] ["draft-lc"] in
  ImportLCUpload.allRequiredChecked st = true
  <-> "draft-lc" ∈ ImportLCUpload.checkedDocuments st.
Proof.
  intros st.
  apply (X3_import_submit_guard st). reflexivity.
Defined.

(** ** From the server's answer to the toast *)

(** X4: on the export upload page a submission navigates to the results
    exactly when the server answered with an [ok] response whose body
    parsed to a value whose [job_id] can be read and printed; the route is
    [/exporter-results/] followed by that text, and then, and only then, the
    toast is a success toast.  A body that is [null] makes the read of
    [job_id] throw: error toast, no navigation.  A body without a [job_id]
    (an object that lacks it, or a string, number, boolean or array) leads
    to [/exporter-results/undefined], and a [job_id] that is a string to the
    route ending in it.  A response that is not [ok] gives the error toast
    "Validation Failed" with the message "Rate limited, please retry
    shortly." for status 429 and "Validation failed" for every other
    status, and no navigation. *)
Theorem X4_export_submit_outcome (Number_toString : Q -> string)
    (TypeError_message : Json.TypeErrorKind -> string) (r : Api.FetchResult) :
  let after result :=
    ExportLCUpload.handleSubmit_settled Number_toString TypeError_message result in
  let settled := after (Api.validate r) in
  (forall route,
     settled.2 = Some route
     <-> exists status body job_id,
           r = Api.Responded true status (Api.Resolved body)
           /\ Json.template_of Number_toString body "job_id" = Json.Normal job_id
           /\ route = "/exporter-results/" +:+ job_id)
  /\ (forall status json,
        r = Api.Responded false status json ->
        settled
        = (Toast.mk "error" "Validation Failed"
             (if status =? 429 then "Rate limited, please retry shortly."
              else "Validation failed"),
           None))
  /\ (Toast.type settled.1 = "success" <-> is_Some settled.2)
  /\ after (Api.Resolved Json.Null)
     = (Toast.mk "error" "Validation Failed" (TypeError_message Json.ReadOfNull), None)
  /\ (forall body,
        Json.get body "job_id" = Json.Normal None ->
        (after (Api.Resolved body)).2 = Some "/exporter-results/undefined")
  /\ (forall body,
        (forall props, body <> Json.Object props) -> body <> Json.Null ->
        (after (Api.Resolved body)).2 = Some "/exporter-results/undefined")
  /\ (forall props s,
        (after (Api.Resolved (Json.Object (props ++ [("job_id", Json.Str s)])))).2
        = Some ("/exporter-results/" +:+ s)).
Proof.
  intros after settled. subst settled after. cbv beta.
  assert (Hnot_ok : forall status json,
            ExportLCUpload.handleSubmit_settled Number_toString TypeError_message
              (Api.validate (Api.Responded false status json))
            = (Toast.mk "error" "Validation Failed"
                 (if status =? 429 then "Rate limited, please retry shortly."
                  else "Validation failed"),
               None)).
  { intros status json. simpl. now destruct (status =? 429). }
  assert (Hundefined : forall body,
            Json.get body "job_id" = Json.Normal None ->
            (ExportLCUpload.handleSubmit_settled Number_toString TypeError_message
               (Api.Resolved body)).2 = Some "/exporter-results/undefined").
  { intros body Hget. unfold ExportLCUpload.handleSubmit_settled, Json.template_of.
    now rewrite Hget. }
  split; [|split; [|split; [|split; [|split; [|split]]]]].
  - intros route. destruct r as [m|[|] status json].
    + simpl. split; [discriminate|]. intros (s & b & j & H & _). discriminate H.
    + destruct json as [body|m|]; simpl.
      * destruct (Json.template_of Number_toString body "job_id") as [job_id|e] eqn:E;
          simpl.
        -- split; [intros [= <-]; now exists status, body, job_id|].
           intros (s & b & j & [= _ <-] & Hj & ->). congruence.
        -- split; [discriminate|].
           intros (s & b & j & [= _ <-] & Hj & _). congruence.
      * split; [discriminate|]. intros (s & b & j & H & _). discriminate H.
      * split; [discriminate|]. intros (s & b & j & H & _). discriminate H.
    + rewrite Hnot_ok. simpl. split; [discriminate|].
      intros (s & b & j & H & _). discriminate H.
  - intros status json ->. apply Hnot_ok.
  - destruct r as [m|[|] status json].
    + simpl. split; [discriminate|]. intros [x H]. discriminate H.
    + destruct json as [body|m|]; simpl.
      * destruct (Json.template_of Number_toString body "job_id") as [job_id|e]; simpl.
        -- split; [eauto|reflexivity].
        -- split; [discriminate|]. intros [x H]. discriminate H.
      * split; [discriminate|]. intros [x H]. discriminate H.
      * split; [discriminate|]. intros [x H]. discriminate H.
    + rewrite Hnot_ok. simpl. split; [discriminate|]. intros [x H]. discriminate H.
  - reflexivity.
  - exact Hundefined.
  - intros body Hobj Hnull. apply Hundefined.
    destruct body; try reflexivity; [contradiction|]. now destruct (Hobj props).
  - intros props s. unfold ExportLCUpload.handleSubmit_settled, Json.template_of, Json.get.
    rewrite filter_app, filter_cons_True, filter_nil by reflexivity.
    now rewrite last_snoc.
Qed.

Lemma foldl_append_entries {A B} (f : A -> B) (l : list A) (acc : list B) :
  foldl (fun acc x => acc ++ [f x]) acc l = acc ++ (f <$> l).
Proof.
  revert acc. induction l as [|x l IH]; intros acc; simpl.
  - now rewrite app_nil_r.
  - rewrite IH, <- app_assoc. reflexivity.
Qed.

(** X5: the form data [api.validate] posts holds one [files] entry per
    selected file, in selection order, followed by the [user_type] and the
    [workflow_type] entries, each present only when the tag is given and is
    not the empty string; for the request of the export page that is the
    files and [user_type = exporter], for the import page the files,
    [user_type = importer] and the workflow. *)
Theorem X5_validate_form_data (data : Api.ValidationRequest) :
  let tag key v :=
    match v with
    | Some s => if decide (s = "") then [] else [(key, Api.TextValue s)]
    | None => []
    end in
  Api.formData_of data
  = ((fun f => ("files", Api.FileValue f)) <$> Api.files data)
    ++ tag "user_type" (Api.user_type data)
    ++ tag "workflow_type" (Api.workflow_type data).
Proof.
  intros tag. unfold Api.formData_of. rewrite foldl_append_entries. simpl.
  assert (Htag : forall key v acc,
             Api.append_if_truthy key v acc = acc ++ tag key v).
  { intros key [s|] acc; simpl; [|now rewrite app_nil_r].
    destruct s; simpl; [now rewrite app_nil_r|reflexivity]. }
  rewrite !Htag, <- app_assoc. reflexivity.
Qed.

(** ** The results page: toggle, status and cards *)

Lemma filter_length_lt {A} (p : A -> bool) (l : list A) :
  (length (List.filter p l) <? length l)%nat = true
  <-> exists x, x ∈ l /\ p x = false.
Proof.
  rewrite Nat.ltb_lt. induction l as [|a l IH]; simpl.
  - split; [lia|]. intros (x & Hx & _). now apply elem_of_nil in Hx.
  - pose proof (List.filter_length_le p l) as Hle.
    destruct (p a) eqn:Ea; simpl.
    + rewrite <- Nat.succ_lt_mono, IH. split.
      * intros (x & Hx & Hp). exists x. split; [now apply list_elem_of_further|assumption].
      * intros (x & Hx & Hp). apply elem_of_cons in Hx as [->|Hx]; [congruence|eauto].
    + split; [|lia]. intros _. exists a. split; [apply list_elem_of_here|assumption].
Qed.

Lemma filter_same {A} (p : A -> bool) (l : list A) :
  List.filter p l = l <-> forall x, x ∈ l -> p x = true.
Proof.
  induction l as [|a l IH]; simpl.
  - split; [|reflexivity]. intros _ x Hx. now apply elem_of_nil in Hx.
  - destruct (p a) eqn:Ea.
    + split.
      * intros [= H] x Hx. apply elem_of_cons in Hx as [->|Hx]; [assumption|].
        now apply IH.
      * intros H. f_equal. apply IH. intros x Hx. apply H. now apply list_elem_of_further.
    + split.
      * intros H. pose proof (List.filter_length_le p l) as Hle.
        rewrite H in Hle. simpl in Hle. lia.
      * intros H. specialize (H a (list_elem_of_here _ _)). congruence.
Qed.

Lemma not_high_priority issue :
  ExporterResults.is_high_priority issue = false <-> ~ high_priority issue.
Proof. rewrite <- is_high_priority_true. now destruct (ExporterResults.is_high_priority issue). Qed.

(** X6: the results page renders the toggle button exactly when some issue
    is neither critical nor high, that is exactly when the toggle changes
    the list on display.  So when the "No Issues Found" card replaces the
    list although issues exist, the button that reveals them is there; with
    the toggle on the card appears only if there is no issue at all. *)
Theorem X6_toggle_button (results : ExporterResultsView.Results) :
  let issues := ExporterResultsView.issues results in
  (ExporterResultsView.toggle_rendered results = true
   <-> exists i, i ∈ issues /\ ~ high_priority i)
  /\ (ExporterResultsView.toggle_rendered results = true
      <-> ExporterResults.displayedIssues true issues
          <> ExporterResults.displayedIssues false issues)
  /\ (ExporterResultsView.no_issues_found false results = true ->
      issues <> [] ->
      ExporterResultsView.toggle_rendered results = true)
  /\ (ExporterResultsView.no_issues_found true results = true <-> issues = []).
Proof.
  intros issues. subst issues.
  unfold ExporterResultsView.toggle_rendered, ExporterResultsView.no_issues_found,
    ExporterResults.displayedIssues, ExporterResults.highPriorityIssues.
  set (l := ExporterResultsView.issues results).
  assert (Hex : (length (List.filter ExporterResults.is_high_priority l) <? length l)%nat
                = true
                <-> exists i, i ∈ l /\ ~ high_priority i).
  { rewrite filter_length_lt. split; intros (i & Hi & Hp); exists i;
      (split; [assumption|now apply not_high_priority]). }
  split; [exact Hex|split; [|split]].
  - rewrite Hex. split.
    + intros (i & Hi & Hp) Heq. symmetry in Heq.
      apply Hp, is_high_priority_true. now apply (proj1 (filter_same _ _) Heq).
    + intros Hne.
      destruct (length (List.filter ExporterResults.is_high_priority l) <? length l)%nat
        eqn:E; [now apply Hex|].
      exfalso. apply Hne. symmetry. apply filter_same. intros x Hx.
      destruct (ExporterResults.is_high_priority x) eqn:Ex; [reflexivity|].
      assert (Habs : false = true); [|discriminate Habs].
      apply Hex. exists x. split; [assumption|now apply not_high_priority].
  - intros Hnone Hne. apply length_zero_nil in Hnone. rewrite Hnone. simpl.
    now apply length_pos_not_nil.
  - apply length_zero_nil.
Qed.

Lemma critical_is_high_priority i :
  String.eqb (UseApi.severity i) "critical" = true -> ExporterResults.is_high_priority i = true.
Proof. unfold ExporterResults.is_high_priority. now intros ->. Qed.

Lemma priority_of_high issue :
  ExporterResults.is_high_priority issue = true ->
  (ExporterResultsView.priority_of issue = 1 \/ ExporterResultsView.priority_of issue = 2)
  /\ is_Some (RiskCard.action_note (risk_of_issue "" 0 0 issue)).
Proof.
  unfold ExporterResults.is_high_priority, ExporterResultsView.priority_of,
    RiskCard.action_note. simpl.
  destruct (String.eqb (UseApi.severity issue) "critical"); simpl.
  - intros _. split; [now left|eauto].
  - intros ->. split; [now right|eauto].
Qed.

(** X7: on the results page the status card says "Compliant" exactly when
    the results are flagged compliant, and "Critical Issues" exactly when
    they are not and some issue is critical; in that case the correction
    estimate is shown, is at least 300, and the default view (toggle off)
    has a card of priority 1.  Every card of the default view has priority
    1 or 2 and carries an urgency note.  Results that are not compliant but
    have only medium or low issues show "Needs Attention" together with the
    "No Issues Found" card and no correction estimate. *)
Theorem X7_compliance_status (created_at : string) (now : Z)
    (results : ExporterResultsView.Results) :
  let shown := ExporterResultsView.status (ExporterResultsView.getComplianceStatus results) in
  let issues := ExporterResultsView.issues results in
  let cards := risk_cards false created_at now results in
  (shown = "Compliant" <-> ExporterResultsView.overall_compliance results = true)
  /\ (shown = "Critical Issues"
      <-> ExporterResultsView.overall_compliance results = false
          /\ exists i, i ∈ issues /\ UseApi.severity i = "critical")
  /\ (shown = "Critical Issues" ->
      (exists fee, ExporterResultsView.correction_services results = Some fee
                   /\ 300 <= fee)
      /\ exists card, card ∈ cards /\ RiskCard.priority card = 1)
  /\ (forall card, card ∈ cards ->
        (RiskCard.priority card = 1 \/ RiskCard.priority card = 2)
        /\ is_Some (RiskCard.action_note card))
  /\ (ExporterResultsView.overall_compliance results = false ->
      (forall i, i ∈ issues -> ~ high_priority i) ->
      shown = "Needs Attention"
      /\ ExporterResultsView.no_issues_found false results = true
      /\ ExporterResultsView.correction_services results = None).
Proof.
  intros shown issues cards. subst shown issues cards.
  unfold ExporterResultsView.getComplianceStatus, ExporterResultsView.correction_services,
    ExporterResultsView.no_issues_found, risk_cards, ExporterResults.displayedIssues.
  set (l := ExporterResultsView.issues results).
  set (crit := List.filter (fun i => String.eqb (UseApi.severity i) "critical") l).
  assert (Hcrit : (0 <? length crit)%nat = true
                  <-> exists i, i ∈ l /\ UseApi.severity i = "critical").
  { rewrite length_pos_not_nil. subst crit. split.
    - intros Hne. destruct (List.filter _ l) as [|i rest] eqn:E; [contradiction|].
      assert (Hin : In i (List.filter (fun i => String.eqb (UseApi.severity i) "critical") l))
        by (rewrite E; now left).
      apply filter_In in Hin as [Hin Hs]. exists i.
      split; [now apply list_elem_of_In|now apply String.eqb_eq].
    - intros (i & Hi & Hs) Hnil.
      assert (Hin : In i (List.filter (fun i => String.eqb (UseApi.severity i) "critical") l)).
      { apply filter_In. split; [now apply list_elem_of_In|now apply String.eqb_eq]. }
      rewrite Hnil in Hin. destruct Hin. }
  assert (Hcards : forall card,
            card ∈ imap (risk_of_issue created_at now) (ExporterResults.highPriorityIssues l) ->
            exists k issue, card = risk_of_issue created_at now k issue
                            /\ issue ∈ l /\ ExporterResults.is_high_priority issue = true).
  { intros card Hc. apply elem_of_lookup_imap in Hc as (k & issue & -> & Hk).
    exists k, issue. split; [reflexivity|].
    apply list_elem_of_lookup_2 in Hk. apply highPriorityIssues_elem in Hk as [Hin Hp].
    split; [assumption|now apply is_high_priority_true]. }
  split; [|split; [|split; [|split]]].
  - destruct (ExporterResultsView.overall_compliance results); simpl.
    + tauto.
    + destruct (0 <? length crit)%nat; simpl; split; discriminate.
  - destruct (ExporterResultsView.overall_compliance results); simpl.
    + split; [discriminate|intros [H _]; discriminate H].
    + destruct (0 <? length crit)%nat eqn:E; simpl.
      * split; [intros _; split; [reflexivity|now apply Hcrit]|reflexivity].
      * split; [discriminate|]. intros [_ H]. apply Hcrit in H. discriminate H.
  - destruct (ExporterResultsView.overall_compliance results); simpl; [discriminate|].
    destruct (0 <? length crit)%nat eqn:E; simpl; [intros _|discriminate].
    destruct (proj1 Hcrit eq_refl) as (i & Hi & Hs).
    assert (Hhp : i ∈ ExporterResults.highPriorityIssues l).
    { apply highPriorityIssues_elem. split; [assumption|now left]. }
    split.
    + destruct (ExporterResults.highPriorityIssues l) as [|x rest] eqn:El.
      * now apply elem_of_nil in Hhp.
      * simpl. eexists. split; [reflexivity|]. lia.
    + apply list_elem_of_lookup_1 in Hhp as [k Hk].
      exists (risk_of_issue created_at now k i). split.
      * now apply elem_of_lookup_imap_2.
      * simpl. unfold ExporterResultsView.priority_of. rewrite Hs. reflexivity.
  - intros card Hc. apply Hcards in Hc as (k & issue & -> & _ & Hp).
    apply priority_of_high in Hp. exact Hp.
  - intros Hnc Hall. rewrite Hnc. simpl.
    assert (Hnil : ExporterResults.highPriorityIssues l = []).
    { destruct (ExporterResults.highPriorityIssues l) as [|x rest] eqn:El; [reflexivity|].
      assert (Hx : x ∈ ExporterResults.highPriorityIssues l)
        by (rewrite El; apply list_elem_of_here).
      apply highPriorityIssues_elem in Hx as [Hin Hp]. now apply Hall in Hin. }
    rewrite Hnil. simpl. split; [|split; reflexivity].
    destruct (0 <? length crit)%nat eqn:E; [|reflexivity].
    destruct (proj1 Hcrit eq_refl) as (i & Hi & Hs).
    exfalso. apply (Hall i Hi). now left.
Qed.

(** ** Truncated lists on a risk card *)

Lemma more_of_accounts {A} (showFullDetails : bool) (n : nat) (l : list A) :
  let shown := if showFullDetails then l else JS.slice0 l (Z.of_nat n) in
  shown `prefix_of` l
  /\ Z.of_nat (length shown)
     + default 0 (RiskCard.more_of showFullDetails (Z.of_nat n) l)
     = Z.of_nat (length l).
Proof.
  unfold RiskCard.more_of. destruct showFullDetails; simpl.
  - split; [reflexivity|lia].
  - rewrite slice0_take, Nat2Z.id by lia. split; [apply prefix_take|].
    rewrite length_take.
    destruct (Z.ltb_spec (Z.of_nat n) (Z.of_nat (length l))); simpl; lia.
Qed.

(** X8: a risk card accounts for everything it truncates: the impacts,
    recommendations and affected documents it lists are a leading part of
    the full lists, and the number listed plus the number announced by the
    "+N" line is the length of the full list.  For the cards of the results
    page, which carry one recommendation and one impact, nothing but the
    affected documents beyond the third is ever cut. *)
Theorem X8_risk_card_truncation (showFullDetails : bool) (risk : RiskCard.Risk) :
  (RiskCard.displayImpacts showFullDetails risk `prefix_of` RiskCard.businessImpacts risk
   /\ Z.of_nat (length (RiskCard.displayImpacts showFullDetails risk))
      + default 0 (RiskCard.more_impacts showFullDetails risk)
      = Z.of_nat (length (RiskCard.businessImpacts risk)))
  /\ (RiskCard.displayRecommendations showFullDetails risk
        `prefix_of` RiskCard.recommendations risk
      /\ Z.of_nat (length (RiskCard.displayRecommendations showFullDetails risk))
         + default 0 (RiskCard.more_recommendations showFullDetails risk)
         = Z.of_nat (length (RiskCard.recommendations risk)))
  /\ (RiskCard.displayDocuments showFullDetails risk
        `prefix_of` default [] (RiskCard.affectedDocuments risk)
      /\ Z.of_nat (length (RiskCard.displayDocuments showFullDetails risk))
         + default 0 (RiskCard.more_documents showFullDetails risk)
         = Z.of_nat (length (default [] (RiskCard.affectedDocuments risk))))
  /\ (forall created_at now index issue,
        let card := risk_of_issue created_at now index issue in
        RiskCard.displayRecommendations false card = [UseApi.recommendation issue]
        /\ RiskCard.more_recommendations false card = None
        /\ RiskCard.displayImpacts false card = RiskCard.businessImpacts card
        /\ RiskCard.more_impacts false card = None
        /\ RiskCard.displayDocuments false card
           = take 3 (UseApi.affected_documents issue)).
Proof.
  split; [|split; [|split]].
  - apply (more_of_accounts showFullDetails 2 (RiskCard.businessImpacts risk)).
  - apply (more_of_accounts showFullDetails 2 (RiskCard.recommendations risk)).
  - unfold RiskCard.displayDocuments, RiskCard.more_documents.
    destruct (RiskCard.affectedDocuments risk) as [docs|]; simpl.
    + destruct docs as [|d docs]; simpl; [split; [reflexivity|lia]|].
      apply (more_of_accounts showFullDetails 3 (d :: docs)).
    + split; [reflexivity|lia].
  - intros created_at now index issue card. subst card.
    repeat split.
    unfold RiskCard.displayDocuments. simpl.
    destruct (UseApi.affected_documents issue) as [|d docs]; [reflexivity|].
    simpl. now rewrite slice0_take by lia.
Qed.

(** ** The correction form: cost, notes and selection *)

Lemma Math_round_integer (q : Q) (z : Z) :
  (q == inject_Z z)%Q -> CorrectionForm.Math_round q = z.
Proof.
  intros H. unfold CorrectionForm.Math_round.
  rewrite (Qfloor_comp _ (inject_Z z + (1 # 2))%Q) by now rewrite H.
  unfold Qfloor, Qplus, inject_Z. simpl.
  change (Z.pos (1 * 2)) with 2. symmetry.
  apply Z.div_unique with (r := 1); lia.
Qed.

Lemma estimated_cost_units userType st :
  CorrectionForm.getEstimatedCost userType st
  = unit_price userType (CorrectionForm.correctionType st)
    * Z.of_nat (length (CorrectionForm.selectedIssues st)).
Proof.
  unfold CorrectionForm.getEstimatedCost, unit_price.
  apply Math_round_integer.
  destruct (String.eqb userType "exporter");
    destruct (String.eqb (CorrectionForm.correctionType st) "urgent");
    try destruct (String.eqb (CorrectionForm.correctionType st) "standard");
    unfold Qeq, Qmult, inject_Z; simpl; lia.
Qed.

(** X9: the estimated cost shown by the correction form is the unit price
    for the user type and the correction type (exporter: 1000 urgent, 750
    standard, 500 otherwise; anyone else: 1500, 1125, 750) times the number
    of selected issues; it is zero exactly when nothing is selected, which
    is exactly when the submit button is disabled (no request pending) and
    when [handleSubmit] answers with a warning instead of a request. *)
Theorem X9_estimated_cost (jobId userType : string) (st : CorrectionForm.State) :
  CorrectionForm.getEstimatedCost userType st
  = unit_price userType (CorrectionForm.correctionType st)
    * Z.of_nat (length (CorrectionForm.selectedIssues st))
  /\ (CorrectionForm.getEstimatedCost userType st = 0
      <-> CorrectionForm.selectedIssues st = [])
  /\ (CorrectionForm.getEstimatedCost userType st = 0
      <-> CorrectionForm.submit_disabled st false = true)
  /\ (CorrectionForm.getEstimatedCost userType st = 0
      <-> exists toast, CorrectionForm.handleSubmit jobId st = inl toast).
Proof.
  pose proof (estimated_cost_units userType st) as Hcost.
  assert (Hpos : 0 < unit_price userType (CorrectionForm.correctionType st)).
  { unfold unit_price.
    destruct (String.eqb userType "exporter");
      destruct (String.eqb (CorrectionForm.correctionType st) "urgent");
      try destruct (String.eqb (CorrectionForm.correctionType st) "standard"); lia. }
  assert (Hzero : CorrectionForm.getEstimatedCost userType st = 0
                  <-> CorrectionForm.selectedIssues st = []).
  { rewrite Hcost. destruct (CorrectionForm.selectedIssues st); simpl.
    - split; [reflexivity|lia].
    - split; [nia|discriminate]. }
  split; [exact Hcost|split; [exact Hzero|split]]; rewrite Hzero.
  - unfold CorrectionForm.submit_disabled. rewrite orb_false_r. symmetry.
    apply length_zero_nil.
  - unfold CorrectionForm.handleSubmit.
    destruct (CorrectionForm.selectedIssues st) as [|i l]; simpl.
    + split; [eauto|reflexivity].
    + split; [discriminate|]. intros [toast H]. discriminate H.
Qed.

Lemma all_space_app a b :
  all_space (a ++ b) = all_space a && all_space b.
Proof. apply forallb_app. Qed.

Lemma trimStart_decomp s :
  exists before, all_space before = true /\ s = before ++ CorrectionForm.trimStart s.
Proof.
  induction s as [|c s (before & Hb & Hs)]; simpl.
  - now exists [].
  - destruct (CorrectionForm.is_space c) eqn:E.
    + exists (c :: before). simpl. rewrite E. split; [exact Hb|].
      exact (f_equal (cons c) Hs).
    + now exists [].
Qed.

Lemma trimStart_head s c rest :
  CorrectionForm.trimStart s = c :: rest -> CorrectionForm.is_space c = false.
Proof.
  induction s as [|a s IH]; simpl; [discriminate|].
  destruct (CorrectionForm.is_space a) eqn:E; [exact IH|]. intros [= <- _]. exact E.
Qed.

Lemma trimEnd_unfold c s :
  CorrectionForm.trimEnd (c :: s)
  = match CorrectionForm.trimEnd s with
    | [] => if CorrectionForm.is_space c then [] else [c]
    | rest => c :: rest
    end.
Proof. reflexivity. Qed.

Lemma trimEnd_decomp s :
  exists after, all_space after = true /\ s = CorrectionForm.trimEnd s ++ after.
Proof.
  induction s as [|c s (after & Ha & Hs)]; [now exists []|].
  rewrite trimEnd_unfold. destruct (CorrectionForm.trimEnd s) as [|b r] eqn:Et.
  - destruct (CorrectionForm.is_space c) eqn:E.
    + exists (c :: after). simpl. rewrite E. split; [exact Ha|].
      exact (f_equal (cons c) Hs).
    + exists after. split; [assumption|]. exact (f_equal (cons c) Hs).
  - exists after. split; [assumption|]. exact (f_equal (cons c) Hs).
Qed.

Lemma trimEnd_empty s : CorrectionForm.trimEnd s = [] <-> all_space s = true.
Proof.
  induction s as [|c s IH]; [simpl; tauto|].
  rewrite trimEnd_unfold. unfold all_space in *. simpl.
  destruct (CorrectionForm.trimEnd s) as [|b r].
  - destruct (CorrectionForm.is_space c); simpl.
    + rewrite <- IH. tauto.
    + split; discriminate.
  - split; [discriminate|]. intros H. apply andb_true_iff in H as [_ H].
    apply IH in H. discriminate H.
Qed.

Lemma trimEnd_last s : forall before c,
  CorrectionForm.trimEnd s = before ++ [c] -> CorrectionForm.is_space c = false.
Proof.
  induction s as [|a s IH]; intros before c.
  - simpl. destruct before; discriminate.
  - rewrite trimEnd_unfold. destruct (CorrectionForm.trimEnd s) as [|b r].
    + destruct (CorrectionForm.is_space a) eqn:E.
      * destruct before; discriminate.
      * destruct before as [|x before]; simpl.
        -- intros [= <-]. exact E.
        -- intros [= _ H]. destruct before; discriminate H.
    + destruct before as [|x before]; simpl.
      * intros [=].
      * intros [= _ H]. now apply (IH before c).
Qed.

Lemma trimEnd_head c s :
  CorrectionForm.is_space c = false ->
  exists rest, CorrectionForm.trimEnd (c :: s) = c :: rest.
Proof.
  intros E. rewrite trimEnd_unfold.
  destruct (CorrectionForm.trimEnd s); [rewrite E|]; eauto.
Qed.

(** What [trim] returns: the text between the leading and the trailing
    white space. *)
Lemma trim_spec s :
  (exists before after,
      all_space before = true /\ all_space after = true
      /\ s = before ++ CorrectionForm.trim s ++ after)
  /\ (CorrectionForm.trim s = [] <-> all_space s = true)
  /\ (forall c rest, CorrectionForm.trim s = c :: rest ->
                     CorrectionForm.is_space c = false)
  /\ (forall before c, CorrectionForm.trim s = before ++ [c] ->
                       CorrectionForm.is_space c = false).
Proof.
  unfold CorrectionForm.trim.
  destruct (trimStart_decomp s) as (before & Hb & Hs).
  destruct (trimEnd_decomp (CorrectionForm.trimStart s)) as (after & Ha & Ht).
  split; [|split; [|split]].
  - exists before, after. repeat split; try assumption.
    rewrite Hs at 1. now rewrite Ht at 1.
  - rewrite trimEnd_empty. rewrite Hs at 2. rewrite all_space_app, Hb. reflexivity.
  - intros c rest H.
    destruct (CorrectionForm.trimStart s) as [|a r] eqn:E; [discriminate H|].
    pose proof (trimStart_head s a r E) as Hsp.
    destruct (trimEnd_head a r Hsp) as [rest' Hr]. rewrite Hr in H.
    injection H as <- _. exact Hsp.
  - intros pre c H. exact (trimEnd_last (CorrectionForm.trimStart s) pre c H).
Qed.

(** X10: a correction request is sent only with a non-empty selection and
    carries it unchanged; its notes are the text of the notes field without
    the white space around it (nothing but white space is cut off, and the
    note neither starts nor ends with white space), and a notes field that
    is empty or holds only white space is sent as no note at all.  White
    space is what [trim] takes it to be: the no-break space, the byte-order
    mark and the separators of Unicode count as much as blanks, tabs and
    line ends. *)
Theorem X10_correction_request (jobId : string) (st : CorrectionForm.State)
    (req : CorrectionForm.AmendmentRequest) :
  CorrectionForm.handleSubmit jobId st = inr req ->
  CorrectionForm.selected_issues req = CorrectionForm.selectedIssues st
  /\ CorrectionForm.selected_issues req <> []
  /\ CorrectionForm.job_id req = jobId
  /\ (CorrectionForm.notes req = None <-> all_space (CorrectionForm.notes_text st) = true)
  /\ (forall n,
        CorrectionForm.notes req = Some n ->
        n <> []
        /\ (exists before after,
              all_space before = true /\ all_space after = true
              /\ CorrectionForm.notes_text st = before ++ n ++ after)
        /\ (forall c rest, n = c :: rest -> CorrectionForm.is_space c = false)
        /\ (forall before c, n = before ++ [c] -> CorrectionForm.is_space c = false))
  /\ (forall c : N,
        CorrectionForm.is_space c = true
        <-> c ∈ [0x0009; 0x000A; 0x000B; 0x000C; 0x000D; 0x0020; 0x00A0; 0x1680;
                 0x2000; 0x2001; 0x2002; 0x2003; 0x2004; 0x2005; 0x2006; 0x2007;
                 0x2008; 0x2009; 0x200A; 0x2028; 0x2029; 0x202F; 0x205F; 0x3000;
                 0xFEFF]%N).
Proof.
  unfold CorrectionForm.handleSubmit.
  destruct (CorrectionForm.selectedIssues st) as [|i l] eqn:Esel; simpl; [discriminate|].
  intros [= <-]. simpl.
  destruct (trim_spec (CorrectionForm.notes_text st)) as (Hdec & Hempty & Hhead & Hlast).
  split; [reflexivity|split; [discriminate|split; [reflexivity|split; [|split]]]].
  - rewrite <- Hempty.
    destruct (CorrectionForm.trim (CorrectionForm.notes_text st)); simpl; split;
      congruence.
  - intros n Hn.
    destruct (CorrectionForm.trim (CorrectionForm.notes_text st)) as [|c r] eqn:Et;
      simpl in Hn; [discriminate Hn|].
    injection Hn as <-. split; [discriminate|]. split; [exact Hdec|]. split.
    + exact Hhead.
    + exact Hlast.
  - intros c. unfold CorrectionForm.is_space.
    rewrite !elem_of_cons, elem_of_nil, !orb_true_iff, andb_true_iff,
      !N.eqb_eq, !N.leb_le.
    lia.
Qed.

(** X10, on that form, whose notes start with a no-break space and a blank
    and end with a line separator: the request carries the selection. *)
Lemma X10_correction_request_witness :
  CorrectionForm.selected_issues
    (CorrectionForm.mkAmendment "job-7" ["issue-0"] "urgent" "high"
       (Some (CorrectionForm.text_of "fix the amount")))
  = CorrectionForm.selectedIssues padded_note_state.
Proof.
  apply (X10_correction_request "job-7" padded_note_state
           (CorrectionForm.mkAmendment "job-7" ["issue-0"] "urgent" "high"
              (Some (CorrectionForm.text_of "fix the amount")))).
  reflexivity.
Defined.

Lemma issue_ids issues :
  CorrectionForm.id <$> ExporterDocumentCorrections.issues_of issues
  = (fun index => "issue-" +:+ pretty index) <$> seq 0 (length issues).
Proof.
  unfold ExporterDocumentCorrections.issues_of.
  rewrite fmap_imap. apply (imap_seq_0 issues (fun index => "issue-" +:+ pretty index)).
Qed.

Lemma issue_ids_NoDup issues :
  NoDup (CorrectionForm.id <$> ExporterDocumentCorrections.issues_of issues).
Proof.
  rewrite issue_ids. apply NoDup_fmap_2_strong; [|apply NoDup_seq].
  intros i j _ _ H. apply string_app_inv_head in H. now apply (inj pretty).
Qed.

Lemma odd_filter_elem (clicks : list string) (d : string) :
  Nat.odd (length (filter (fun c => c = d) clicks)) = true -> d ∈ clicks.
Proof.
  destruct (filter (fun c => c = d) clicks) as [|x l] eqn:E; [discriminate|].
  intros _. assert (Hx : x ∈ filter (fun c => c = d) clicks)
    by (rewrite E; apply list_elem_of_here).
  apply list_elem_of_filter in Hx as [-> Hx]. exact Hx.
Qed.

(** X11: the correction page gives the issues pairwise different ids
    ([issue-0], [issue-1], ...).  After any clicks on the check boxes of
    these issues, starting from the empty form, the selection holds no id
    twice and only ids of listed issues, so at most as many as there are
    issues; an issue is selected exactly when its box was clicked an odd
    number of times; and the estimate for the exporter at the standard
    rate is at most 750 per listed issue. *)
Theorem X11_selection_within_issues (issues : list UseApi.Issue) (clicks : list string) :
  let ids := CorrectionForm.id <$> ExporterDocumentCorrections.issues_of issues in
  let st := CorrectionForm.after_toggles clicks CorrectionForm.initial in
  Forall (fun c => c ∈ ids) clicks ->
  NoDup ids
  /\ NoDup (CorrectionForm.selectedIssues st)
  /\ CorrectionForm.selectedIssues st ⊆ ids
  /\ (length (CorrectionForm.selectedIssues st) <= length issues)%nat
  /\ (forall issueId,
        JS.arr_includes (CorrectionForm.selectedIssues st) issueId = true
        <-> Nat.odd (length (filter (fun c => c = issueId) clicks)) = true)
  /\ CorrectionForm.getEstimatedCost ExporterDocumentCorrections.userType st
     <= 750 * Z.of_nat (length issues).
Proof.
  intros ids st Hclicks.
  pose proof (issue_ids_NoDup issues) as Hids. fold ids in Hids.
  destruct (toggles_parity clicks) as [Hnd Hpar].
  change (foldl (fun prev d => ExportLCUpload.handleDocumentCheck d prev) [] clicks)
    with (CorrectionForm.selectedIssues st) in Hnd, Hpar.
  assert (Hsub : CorrectionForm.selectedIssues st ⊆ ids).
  { intros d Hd. apply Hpar, odd_filter_elem in Hd.
    rewrite Forall_forall in Hclicks. now apply Hclicks. }
  assert (Hlen : (length (CorrectionForm.selectedIssues st) <= length issues)%nat).
  { assert (Hl : length ids = length issues).
    { subst ids. rewrite length_fmap. unfold ExporterDocumentCorrections.issues_of.
      apply length_imap. }
    rewrite <- Hl. apply submseteq_length, NoDup_submseteq; assumption. }
  split; [exact Hids|split; [exact Hnd|split; [exact Hsub|split; [exact Hlen|split]]]].
  - intros issueId. rewrite arr_includes_true. apply Hpar.
  - rewrite estimated_cost_units.
    change (unit_price ExporterDocumentCorrections.userType
              (CorrectionForm.correctionType st)) with 750.
    lia.
Qed.

(** X11, on two issues and three clicks. *)
Lemma X11_selection_within_issues_witness :
  let issues := [ UseApi.mkIssue "high" "dates" "Expiry before shipment" "Amend" ["lc.pdf"];
                  UseApi.mkIssue "low" "format" "Missing stamp" "Stamp" [] ] in
  let st := CorrectionForm.after_toggles ["issue-0"; "issue-1"; "issue-0"]
              CorrectionForm.initial in
  (length (CorrectionForm.selectedIssues st) <= length issues)%nat.
Proof.
  intros issues st.
  apply (X11_selection_within_issues issues ["issue-0"; "issue-1"; "issue-0"]).
  repeat constructor.
Defined.

(** ** Toasts *)












(** ** Sessions of the single-file upload box *)

Lemma seq_state_after {St Ev A B} (m1 : Handler.M St Ev A) (m2 : Handler.M St Ev B) st :
  Handler.state_after (m1 ;; m2) st = Handler.state_after m2 (Handler.state_after m1 st).
Proof.
  unfold Handler.state_after, Handler.bind.
  destruct (m1 st) as [[a s1] l1]. simpl. destruct (m2 s1) as [[b s2] l2]. reflexivity.
Qed.

Lemma seq_calls_of {St Ev A B} (m1 : Handler.M St Ev A) (m2 : Handler.M St Ev B) st :
  Handler.calls_of (m1 ;; m2) st
  = Handler.calls_of m1 st ++ Handler.calls_of m2 (Handler.state_after m1 st).
Proof.
  unfold Handler.calls_of, Handler.state_after, Handler.bind.
  destruct (m1 st) as [[a s1] l1]. simpl. destruct (m2 s1) as [[b s2] l2]. reflexivity.
Qed.

Section UploadBoxSession.
Variable maxSize : Z.
Variable acceptedTypes : list string.
Variable Number_toString : Q -> string.

Local Abbreviation validate := (UploadBox.validateFile maxSize acceptedTypes Number_toString).
Local Abbreviation handler_of :=
  (UploadBoxEvents.handler_of maxSize acceptedTypes Number_toString).
Local Abbreviation step := (UploadBoxEvents.step maxSize acceptedTypes Number_toString).
Local Abbreviation consistent :=
  (box_consistent maxSize acceptedTypes Number_toString).

(** What one event does to the file and the error of the box, and what it
    tells the parent. *)
Lemma box_event_effect st e :
  (UploadBox.file (step st e) = UploadBox.file st
   /\ UploadBox.error (step st e) = UploadBox.error st
   /\ Handler.calls_of (handler_of e) st = [])
  \/ (exists f, validate f = ""
                /\ UploadBox.file (step st e) = Some f
                /\ UploadBox.error (step st e) = ""
                /\ Handler.calls_of (handler_of e) st = [UploadBox.onFileSelect f])
  \/ (UploadBox.file (step st e) = None
      /\ (UploadBox.error (step st e) = ""
          \/ exists f, validate f <> "" /\ UploadBox.error (step st e) = validate f)
      /\ Handler.calls_of (handler_of e) st = []).
Proof.
  assert (Hfile : forall f st',
            UploadBox.file st' = UploadBox.file st ->
            UploadBox.error st' = UploadBox.error st ->
            let h := UploadBox.handleFile maxSize acceptedTypes Number_toString f in
            (exists f, validate f = ""
                /\ UploadBox.file (Handler.state_after h st') = Some f
                /\ UploadBox.error (Handler.state_after h st') = ""
                /\ Handler.calls_of h st' = [UploadBox.onFileSelect f])
            \/ (UploadBox.file (Handler.state_after h st') = None
                /\ (UploadBox.error (Handler.state_after h st') = ""
                    \/ exists f, validate f <> ""
                                 /\ UploadBox.error (Handler.state_after h st') = validate f)
                /\ Handler.calls_of h st' = [])).
  { intros f st' _ _ h. subst h.
    destruct (decide (validate f = "")) as [Hv|Hv].
    - left. exists f. destruct (handleFile_accepted _ _ _ f st' Hv) as [-> ->]. auto.
    - right. destruct (handleFile_rejected _ _ _ f st' Hv) as [-> ->].
      split; [reflexivity|split; [right; eauto|reflexivity]]. }
  destruct e as [disabled files| | |files|]; unfold UploadBoxEvents.step; simpl.
  - unfold UploadBoxEvents.handleDrop. rewrite seq_state_after, seq_calls_of.
    set (st' := Handler.state_after (UploadBoxEvents.setIsDragging false) st).
    change (Handler.calls_of (UploadBoxEvents.setIsDragging false) st) with
      (@nil UploadBox.Callback). simpl.
    destruct disabled; [left; auto|].
    destruct (files !! 0%nat) as [f|]; [right|left; auto].
    apply (Hfile f st'); reflexivity.
  - left. auto.
  - left. auto.
  - unfold UploadBoxEvents.handleFileInput.
    destruct (files ≫= _) as [f|]; [right|left; auto].
    apply (Hfile f st); reflexivity.
  - right. right. split; [reflexivity|split; [now left|reflexivity]].
Qed.

Lemma box_step_consistent st e : consistent st -> consistent (step st e).
Proof.
  intros [Hf He].
  destruct (box_event_effect st e)
    as [(Ef & Ee & _)|[(f & Hv & Ef & Ee & _)|(Ef & Ee & _)]];
    unfold box_consistent; rewrite Ef.
  - rewrite Ee. split; assumption.
  - rewrite Ee. split; [intros g [= <-]; now split|congruence].
  - split; [discriminate|reflexivity].
Qed.

Lemma box_session events : forall st,
  consistent st ->
  consistent (fold_left step events st)
  /\ (forall c, c ∈ UploadBoxEvents.callbacks_from maxSize acceptedTypes
                      Number_toString st events ->
                exists f, c = UploadBox.onFileSelect f /\ validate f = "")
  /\ (length (UploadBoxEvents.callbacks_from maxSize acceptedTypes
                Number_toString st events) <= length events)%nat.
Proof.
  induction events as [|e events IH]; intros st Hst; simpl.
  - split; [assumption|split; [|lia]]. intros c Hc. now apply elem_of_nil in Hc.
  - destruct (IH (step st e) (box_step_consistent st e Hst)) as (Hc & Hcalls & Hlen).
    split; [exact Hc|]. rewrite length_app.
    destruct (box_event_effect st e)
      as [(_ & _ & Ecalls)|[(f & Hv & _ & _ & Ecalls)|(_ & _ & Ecalls)]];
      rewrite Ecalls; simpl; (split; [|lia]); intros c Hin.
    + now apply Hcalls.
    + apply elem_of_cons in Hin as [->|Hin]; [eauto|now apply Hcalls].
    + now apply Hcalls.
Qed.

End UploadBoxSession.

Section UploadBoxForwarding.
Variable maxSize : Z.
Variable acceptedTypes : list string.
Variable Number_toString : Q -> string.

Local Abbreviation step := (UploadBoxEvents.step maxSize acceptedTypes Number_toString).
Local Abbreviation callbacks_from :=
  (UploadBoxEvents.callbacks_from maxSize acceptedTypes Number_toString).

Lemma box_callbacks_app events1 events2 : forall st,
  callbacks_from st (events1 ++ events2)
  = callbacks_from st events1 ++ callbacks_from (fold_left step events1 st) events2.
Proof.
  induction events1 as [|e events1 IH]; intros st; simpl; [reflexivity|].
  now rewrite IH, app_assoc.
Qed.

(** A file the box shows is the one it forwarded last. *)
Lemma box_shown_last events : forall st f,
  UploadBox.file (fold_left step events st) = Some f ->
  (callbacks_from st events = [] /\ UploadBox.file st = Some f)
  \/ last (callbacks_from st events) = Some (UploadBox.onFileSelect f).
Proof.
  induction events as [|e events IH]; intros st f Hf; simpl in *; [now left|].
  destruct (IH _ _ Hf) as [[Hnil Hstep]|Hlast].
  - rewrite Hnil, app_nil_r.
    destruct (box_event_effect maxSize acceptedTypes Number_toString st e)
      as [(Ef & _ & Ecalls)|[(g & _ & Ef & _ & Ecalls)|(Ef & _)]].
    + left. split; [exact Ecalls|]. now rewrite <- Ef.
    + right. rewrite Ecalls. simpl. change (UploadBoxEvents.step _ _ _ st e) with (step st e) in Ef.
      congruence.
    + change (UploadBoxEvents.step _ _ _ st e) with (step st e) in Ef. congruence.
  - right. rewrite last_app, Hlast. reflexivity.
Qed.

End UploadBoxForwarding.

(** The page keeps the file of the last call it got. *)
Lemma parent_holds_last calls : forall st,
  Validate.file (Validate.after_callbacks calls st)
  = match last calls with
    | Some (UploadBox.onFileSelect f) => Some f
    | None => Validate.file st
    end.
Proof.
  induction calls as [|c calls IH] using rev_ind; intros st; [reflexivity|].
  unfold Validate.after_callbacks. rewrite foldl_app, last_snoc. simpl.
  destruct c. reflexivity.
Qed.

Lemma bank_keeps_file bank async st :
  Validate.file (Validate.setAsyncMode async (Validate.setSelectedBank bank st))
  = Validate.file st.
Proof. reflexivity. Qed.

(** X13 (components/UploadBox.tsx, the event handlers): during any session
    of drops, drags, input changes and removals, from the initial state and
    whatever the props, the box never shows a file together with an error;
    a file it shows passed [validateFile] and is the file of the latest call
    of [onFileSelect]; every call of [onFileSelect] carries a file that
    passed [validateFile], and there is at most one call per event. *)
Theorem X13_upload_box_session (maxSize : Z) (acceptedTypes : list string)
    (Number_toString : Q -> string) (events : list UploadBoxEvents.Event) :
  let validate := UploadBox.validateFile maxSize acceptedTypes Number_toString in
  let st := UploadBoxEvents.run maxSize acceptedTypes Number_toString events in
  let calls := UploadBoxEvents.callbacks maxSize acceptedTypes Number_toString events in
  (forall f, UploadBox.file st = Some f ->
             validate f = "" /\ UploadBox.error st = ""
             /\ last calls = Some (UploadBox.onFileSelect f))
  /\ (UploadBox.error st <> "" -> UploadBox.file st = None)
  /\ (forall c, c ∈ calls -> exists f, c = UploadBox.onFileSelect f /\ validate f = "")
  /\ (length calls <= length events)%nat.
Proof.
  intros validate st calls.
  assert (H0 : box_consistent maxSize acceptedTypes Number_toString UploadBox.initial).
  { split; [discriminate|reflexivity]. }
  destruct (box_session maxSize acceptedTypes Number_toString events _ H0)
    as ([Hf He] & Hcalls & Hlen).
  split; [|split; [exact He|split; [exact Hcalls|exact Hlen]]].
  intros f Hfile. destruct (Hf f Hfile) as [Hv Herr].
  split; [exact Hv|split; [exact Herr|]].
  destruct (box_shown_last maxSize acceptedTypes Number_toString events _ f Hfile)
    as [[_ Hinit]|Hlast]; [discriminate Hinit|exact Hlast].
Qed.

(** The session facts at the props the page uses. *)
Lemma box_session_at_defaults events :
  (forall f, UploadBox.file (Validate.box_after events) = Some f ->
             last (Validate.box_callbacks events) = Some (UploadBox.onFileSelect f))
  /\ (forall c, c ∈ Validate.box_callbacks events ->
                exists f, c = UploadBox.onFileSelect f
                          /\ UploadBox.validateFile UploadBox.default_maxSize
                               UploadBox.default_acceptedTypes whole_megabytes f = "").
Proof.
  assert (H0 : box_consistent UploadBox.default_maxSize UploadBox.default_acceptedTypes
                 whole_megabytes UploadBox.initial).
  { split; [discriminate|reflexivity]. }
  destruct (box_session UploadBox.default_maxSize UploadBox.default_acceptedTypes
              whole_megabytes events _ H0) as (_ & Hcalls & _).
  split; [|exact Hcalls].
  intros f Hfile.
  destruct (box_shown_last UploadBox.default_maxSize UploadBox.default_acceptedTypes
              whole_megabytes events _ f Hfile)
    as [[_ Hinit]|Hlast]; [discriminate Hinit|exact Hlast].
Qed.

(** X14 (pages/Validate.tsx, [handleSubmit] behind the upload box): whatever
    the user did to the box and whichever bank and mode are chosen, a
    request that [handleSubmit] starts carries a file the box forwarded,
    which is within the default size limit, has an allowed extension and a
    matching reported content type, together with the chosen non-empty bank
    code and mode; the submit button is enabled exactly when [handleSubmit]
    would start a request; and a file the box shows is the file the page
    holds. *)
Theorem X14_validate_submit (events : list UploadBoxEvents.Event) (bank : string)
    (async : bool) :
  let st := Validate.setAsyncMode async (Validate.setSelectedBank bank
              (Validate.after_callbacks (Validate.box_callbacks events)
                 Validate.initial)) in
  (forall f b a,
      Validate.handleSubmit st = Validate.Requested f b a ->
      UploadBox.onFileSelect f ∈ Validate.box_callbacks events
      /\ Guardrail.size_ok UploadBox.default_maxSize f
      /\ Guardrail.type_ok UploadBox.default_acceptedTypes f
      /\ Guardrail.content_matches f
      /\ b = bank /\ bank <> "" /\ a = async)
  /\ (Validate.submit_disabled st false = false <->
      exists f, Validate.handleSubmit st = Validate.Requested f bank async)
  /\ (forall f, UploadBox.file (Validate.box_after events) = Some f ->
                Validate.file st = Some f).
Proof.
  intros st.
  assert (Hfile : Validate.file st
                  = match last (Validate.box_callbacks events) with
                    | Some (UploadBox.onFileSelect f) => Some f
                    | None => None
                    end).
  { subst st. rewrite bank_keeps_file. apply parent_holds_last. }
  assert (Hbank : Validate.selectedBank st = bank) by reflexivity.
  assert (Hasync : Validate.asyncMode st = async) by reflexivity.
  destruct (box_session_at_defaults events) as (Hshown & Hcalls).
  split; [|split].
  - intros f b a Hreq. unfold Validate.handleSubmit in Hreq.
    rewrite Hbank, Hasync in Hreq.
    destruct (Validate.file st) as [g|] eqn:Eg; [|discriminate].
    destruct (JS.truthy bank) eqn:Eb; simpl in Hreq; [|discriminate].
    injection Hreq as Hg Hb Ha. subst g b a.
    assert (Hin : UploadBox.onFileSelect f ∈ Validate.box_callbacks events).
    { destruct (last (Validate.box_callbacks events)) as [[g]|] eqn:El; [|discriminate].
      injection Hfile as ->. apply last_Some_elem_of. exact El. }
    destruct (Hcalls _ Hin) as (g & Hg & Hv). injection Hg as <-.
    apply upload_empty_iff in Hv as (Hs & Ht & Hc).
    apply truthy_true in Eb. repeat split; assumption.
  - unfold Validate.submit_disabled, Validate.handleSubmit.
    rewrite Hbank, Hasync.
    destruct (Validate.file st) as [g|]; simpl.
    + destruct (JS.truthy bank); simpl.
      * split; [eauto|reflexivity].
      * split; [discriminate|intros [f [=]]].
    + split; [discriminate|intros [f [=]]].
  - intros f Hf. rewrite Hfile. now rewrite (Hshown f Hf).
Qed.

(** X15 (pages/Validate.tsx with components/UploadBox.tsx, [removeFile] and
    [handleFile]): the box has no way to tell the page that its file is
    gone.  After the box accepted a file, removing it, or offering a file
    the box rejects, empties the box, while the page still holds the
    accepted file and [handleSubmit] sends it once a bank is chosen. *)
Theorem X15_removed_file_still_submitted (events : list UploadBoxEvents.Event)
    (f g : File.t) (bank : string) (async : bool) (e : UploadBoxEvents.Event) :
  UploadBox.validateFile UploadBox.default_maxSize UploadBox.default_acceptedTypes
    whole_megabytes f = "" ->
  UploadBox.validateFile UploadBox.default_maxSize UploadBox.default_acceptedTypes
    whole_megabytes g <> "" ->
  bank <> "" ->
  e ∈ [UploadBoxEvents.RemoveClick;
       UploadBoxEvents.InputChange (Some [g]);
       UploadBoxEvents.DropEvent false [g]] ->
  let session := events ++ [UploadBoxEvents.InputChange (Some [f]); e] in
  UploadBox.file (Validate.box_after session) = None
  /\ Validate.handleSubmit
       (Validate.setAsyncMode async (Validate.setSelectedBank bank
          (Validate.after_callbacks (Validate.box_callbacks session) Validate.initial)))
     = Validate.Requested f bank async.
Proof.
  intros Hf Hg Hbank He session.
  pose proof (fun st => handleFile_accepted _ _ _ f st Hf) as Hacc.
  pose proof (fun st => handleFile_rejected _ _ _ g st Hg) as Hrej.
  assert (Hcalls : Validate.box_callbacks session
                   = Validate.box_callbacks events ++ [UploadBox.onFileSelect f]).
  { unfold Validate.box_callbacks, UploadBoxEvents.callbacks. subst session.
    rewrite box_callbacks_app. f_equal. simpl.
    unfold UploadBoxEvents.handleFileInput. simpl.
    rewrite (proj1 (Hacc _)). simpl.
    assert (Hnone : forall st, Handler.calls_of
              (UploadBoxEvents.handler_of UploadBox.default_maxSize
                 UploadBox.default_acceptedTypes whole_megabytes e) st = []).
    { intros st.
      apply elem_of_cons in He as [->|He]; [reflexivity|].
      apply elem_of_cons in He as [->|He].
      - simpl. unfold UploadBoxEvents.handleFileInput. simpl. apply (Hrej _).
      - apply list_elem_of_singleton in He as ->. simpl.
        unfold UploadBoxEvents.handleDrop. rewrite seq_calls_of. simpl.
        apply (Hrej _). }
    now rewrite Hnone. }
  split.
  - unfold Validate.box_after, UploadBoxEvents.run. subst session.
    rewrite fold_left_app. simpl.
    set (st1 := UploadBoxEvents.step _ _ _ _ (UploadBoxEvents.InputChange (Some [f]))).
    apply elem_of_cons in He as [->|He]; [reflexivity|].
    apply elem_of_cons in He as [->|He].
    + unfold UploadBoxEvents.step. simpl.
      unfold UploadBoxEvents.handleFileInput. simpl.
      now rewrite (proj2 (Hrej st1)).
    + apply list_elem_of_singleton in He as ->.
      unfold UploadBoxEvents.step. simpl.
      unfold UploadBoxEvents.handleDrop. rewrite seq_state_after. simpl.
      now rewrite (proj2 (Hrej _)).
  - unfold Validate.handleSubmit. rewrite bank_keeps_file, parent_holds_last, Hcalls.
    rewrite last_snoc. simpl.
    apply truthy_true in Hbank. now rewrite Hbank.
Qed.

(** X15, on a PNG file that is chosen and removed again. *)
Lemma X15_removed_file_still_submitted_witness :
  UploadBox.file
    (Validate.box_after
       [UploadBoxEvents.InputChange (Some [pdf_bytes_named_png]);
        UploadBoxEvents.RemoveClick]) = None
  /\ Validate.handleSubmit
       (Validate.setAsyncMode true (Validate.setSelectedBank "SCB"
          (Validate.after_callbacks
             (Validate.box_callbacks
                [UploadBoxEvents.InputChange (Some [pdf_bytes_named_png]);
                 UploadBoxEvents.RemoveClick]) Validate.initial)))
     = Validate.Requested pdf_bytes_named_png "SCB" true.
Proof.
  apply (X15_removed_file_still_submitted [] pdf_bytes_named_png two_byte_exe "SCB" true
           UploadBoxEvents.RemoveClick).
  - vm_compute. reflexivity.
  - vm_compute. discriminate.
  - discriminate.
  - apply list_elem_of_here.
Defined.

(** ** Sessions of the multi-file uploader, event by event *)

Section FileUploaderEventSession.
Variable maxFiles : Z.
Variable maxSize : Z.
Variable acceptedTypes : list string.

Local Abbreviation validate := (FileUploader.validateFile maxSize acceptedTypes).
Local Abbreviation op_step := (FileUploader.step maxFiles maxSize acceptedTypes).
Local Abbreviation op_handler := (FileUploader.handler_of maxFiles maxSize acceptedTypes).
Local Abbreviation step := (FileUploaderEvents.step maxFiles maxSize acceptedTypes).
Local Abbreviation handler_of :=
  (FileUploaderEvents.handler_of maxFiles maxSize acceptedTypes).
Local Abbreviation callbacks_from :=
  (FileUploaderEvents.callbacks_from maxFiles maxSize acceptedTypes).

(** The files and the errors after an operation, and the calls it makes,
    depend on the files before it only. *)
Lemma op_step_ext st1 st2 op :
  FileUploader.files st1 = FileUploader.files st2 ->
  FileUploader.files (op_step st1 op) = FileUploader.files (op_step st2 op)
  /\ Handler.calls_of (op_handler st1 op) st1 = Handler.calls_of (op_handler st2 op) st2.
Proof.
  intros E. destruct op as [env newFiles|fileId].
  - destruct (drop_effect maxFiles maxSize acceptedTypes st1 env newFiles) as (-> & _ & ->).
    destruct (drop_effect maxFiles maxSize acceptedTypes st2 env newFiles) as (-> & _ & ->).
    now rewrite E.
  - destruct (remove_effect maxFiles maxSize acceptedTypes st1 fileId) as (-> & ->).
    destruct (remove_effect maxFiles maxSize acceptedTypes st2 fileId) as (-> & ->).
    now rewrite E.
Qed.

(** An event is a drop or a removal, or leaves files and errors alone and
    calls nothing. *)
Lemma event_effect st e :
  match FileUploaderEvents.op_of e with
  | Some op =>
      FileUploader.files (step st e) = FileUploader.files (op_step st op)
      /\ FileUploader.errors (step st e) = FileUploader.errors (op_step st op)
      /\ Handler.calls_of (handler_of st e) st = Handler.calls_of (op_handler st op) st
  | None =>
      FileUploader.files (step st e) = FileUploader.files st
      /\ FileUploader.errors (step st e) = FileUploader.errors st
      /\ Handler.calls_of (handler_of st e) st = []
  end.
Proof.
  destruct e as [[|] env dropped|[|]| |env [chosen|]|fileId]; simpl;
    try (repeat split; reflexivity).
  unfold FileUploaderEvents.step, FileUploader.step. simpl.
  unfold FileUploaderEvents.handleDrop. rewrite seq_state_after, seq_calls_of. simpl.
  unfold FileUploader.handleFiles, Handler.state_after, Handler.calls_of.
  destruct (FileUploader.forEach_file _ _ _ _ _ _ _) as [vs es].
  destruct vs; repeat split; reflexivity.
Qed.

(** After every event the parent was told the list the uploader now holds,
    or the list did not change. *)
Lemma event_sync st e :
  (Handler.calls_of (handler_of st e) st = []
   /\ FileUploader.files (step st e) = FileUploader.files st)
  \/ Handler.calls_of (handler_of st e) st
     = [FileUploader.onFilesSelect (FileUploader.files (step st e))].
Proof.
  pose proof (event_effect st e) as H.
  destruct (FileUploaderEvents.op_of e) as [[env newFiles|fileId]|].
  - destruct H as (-> & _ & ->).
    destruct (drop_effect maxFiles maxSize acceptedTypes st env newFiles) as (-> & _ & ->).
    destruct ((FileUploader.forEach_file _ _ _ _ _ _ _).1).
    + left. now rewrite app_nil_r.
    + now right.
  - destruct H as (-> & _ & ->).
    destruct (remove_effect maxFiles maxSize acceptedTypes st fileId) as (-> & ->).
    now right.
  - destruct H as (-> & _ & ->). now left.
Qed.

Lemma session_sync events : forall st,
  (callbacks_from st events = []
   /\ FileUploader.files (fold_left step events st) = FileUploader.files st)
  \/ last (callbacks_from st events)
     = Some (FileUploader.onFilesSelect (FileUploader.files (fold_left step events st))).
Proof.
  induction events as [|e events IH]; intros st; simpl; [now left|].
  destruct (IH (step st e)) as [[Hnil Hfiles]|Hlast].
  - rewrite Hnil, app_nil_r, Hfiles.
    destruct (event_sync st e) as [[-> ->]| ->]; [now left|now right].
  - right. now rewrite last_app, Hlast.
Qed.

(** A session of events is the session of the drops and removals among
    them. *)
Lemma session_ops events : forall st1 st2,
  FileUploader.files st1 = FileUploader.files st2 ->
  FileUploader.files (fold_left step events st1)
  = FileUploader.files (fold_left op_step (omap FileUploaderEvents.op_of events) st2)
  /\ callbacks_from st1 events
     = FileUploader.selections_from maxFiles maxSize acceptedTypes st2
         (omap FileUploaderEvents.op_of events).
Proof.
  induction events as [|e events IH]; intros st1 st2 E; simpl; [now split|].
  pose proof (event_effect st1 e) as H.
  destruct (FileUploaderEvents.op_of e) as [op|]; simpl.
  - destruct H as (Hf & _ & Hc).
    destruct (op_step_ext st1 st2 op E) as (Hf' & Hc').
    destruct (IH (step st1 e) (op_step st2 op)) as (IHf & IHc); [congruence|].
    split; [exact IHf|]. rewrite Hc, Hc', IHc. reflexivity.
  - destruct H as (Hf & _ & Hc).
    destruct (IH (step st1 e) st2) as (IHf & IHc); [congruence|].
    split; [exact IHf|]. now rewrite Hc, IHc.
Qed.

End FileUploaderEventSession.

(** X16 (components/FileUploader.tsx, the event handlers): during any
    session of drops, drags, input changes and removals, from the initial
    state and whatever the props, the parent is in step with the uploader:
    the list of the latest call of [onFilesSelect] is the list the uploader
    holds, which is empty as long as no call was made; and every file held
    passed [validateFile]. *)
Theorem X16_uploader_parent_in_step (maxFiles maxSize : Z) (acceptedTypes : list string)
    (events : list FileUploaderEvents.Event) :
  let st := FileUploaderEvents.run maxFiles maxSize acceptedTypes events in
  let calls := FileUploaderEvents.callbacks maxFiles maxSize acceptedTypes events in
  last calls
  = match calls with
    | [] => None
    | _ :: _ => Some (FileUploader.onFilesSelect (FileUploader.files st))
    end
  /\ (calls = [] -> FileUploader.files st = [])
  /\ Guardrail.all_valid maxSize acceptedTypes (FileUploader.files st).
Proof.
  intros st calls. subst st calls.
  unfold FileUploaderEvents.run, FileUploaderEvents.callbacks.
  destruct (session_ops maxFiles maxSize acceptedTypes events
              FileUploader.initial FileUploader.initial eq_refl) as (Hf & _).
  destruct (session_sync maxFiles maxSize acceptedTypes events FileUploader.initial)
    as [[Hnil Hfiles]|Hlast].
  - rewrite Hnil, Hfiles. repeat split. constructor.
  - split; [|split].
    + rewrite Hlast.
      destruct (FileUploaderEvents.callbacks_from _ _ _ _ _);
        [discriminate Hlast|reflexivity].
    + intros E. rewrite E in Hlast. discriminate.
    + rewrite Hf. apply session_valid. constructor.
Qed.

(** X17 (components/FileUploader.tsx, [handleDrop], [handleDragOver],
    [handleDragLeave], [handleFileInput]): a session of events comes to the
    session of the drops and removals among them.  A drop on a disabled
    uploader, an input change without a file list and the drag events
    change neither the files nor the errors and call nothing; an enabled
    drop and an input change with a file list act as [handleFiles], so the
    files at the end and the calls of [onFilesSelect] are those of the
    drops and removals alone. *)
Theorem X17_events_as_operations (maxFiles maxSize : Z) (acceptedTypes : list string)
    (events : list FileUploaderEvents.Event) :
  let ops := omap FileUploaderEvents.op_of events in
  FileUploader.files (FileUploaderEvents.run maxFiles maxSize acceptedTypes events)
  = FileUploader.files (FileUploader.run maxFiles maxSize acceptedTypes ops)
  /\ FileUploaderEvents.callbacks maxFiles maxSize acceptedTypes events
     = FileUploader.selections maxFiles maxSize acceptedTypes ops
  /\ forall st e,
       FileUploaderEvents.op_of e = None ->
       let st' := FileUploaderEvents.step maxFiles maxSize acceptedTypes st e in
       FileUploader.files st' = FileUploader.files st
       /\ FileUploader.errors st' = FileUploader.errors st
       /\ Handler.calls_of
            (FileUploaderEvents.handler_of maxFiles maxSize acceptedTypes st e) st = [].
Proof.
  intros ops.
  destruct (session_ops maxFiles maxSize acceptedTypes events
              FileUploader.initial FileUploader.initial eq_refl) as (Hf & Hc).
  split; [exact Hf|split; [exact Hc|]].
  intros st e He st'.
  pose proof (event_effect maxFiles maxSize acceptedTypes st e) as H.
  rewrite He in H. exact H.
Qed.

Lemma slice0_negative {A} (arr : list A) (end_ : Z) :
  end_ < 0 -> JS.slice0 arr end_ = take (Z.to_nat (Z.of_nat (length arr) + end_)) arr.
Proof.
  intros H. unfold JS.slice0.
  destruct (Z.ltb_spec end_ 0) as [_|?]; [|lia].
  f_equal. lia.
Qed.

(** X18 (components/FileUploader.tsx, [handleFiles], the [slice] when there
    is no room): when the uploader holds more files than [maxFiles], which
    is so from the start for a negative [maxFiles], a drop is not blocked:
    [slice(0, negative)] leaves out only as many files from the end of the
    drop as the list is over the limit, and the rest is checked, added and
    reported as usual. *)
Theorem X18_drop_without_room (maxFiles maxSize : Z) (acceptedTypes : list string)
    (st : FileUploader.State) (env : FileUploader.Entropy) (newFiles : list File.t) :
  let validate := FileUploader.validateFile maxSize acceptedTypes in
  let over := Z.of_nat (length (FileUploader.files st)) - maxFiles in
  0 < over ->
  let st' := FileUploaderEvents.step maxFiles maxSize acceptedTypes st
               (FileUploaderEvents.DropEvent false env newFiles) in
  let considered := take (length newFiles - Z.to_nat over) newFiles in
  FileUploader.file <$> FileUploader.files st'
  = (FileUploader.file <$> FileUploader.files st)
    ++ filter (fun f => validate f = None) considered
  /\ FileUploader.errors st' = omap validate considered.
Proof.
  intros validate over Hover st' considered.
  pose proof (event_effect maxFiles maxSize acceptedTypes st
                (FileUploaderEvents.DropEvent false env newFiles)) as H.
  simpl in H. destruct H as (Hf & He & _).
  destruct (drop_effect maxFiles maxSize acceptedTypes st env newFiles)
    as (Hfiles & Herrors & _).
  subst st'. rewrite Hf, He, Hfiles, Herrors, fmap_app, forEach_files.
  rewrite slice0_negative by (subst over; lia).
  replace (Z.to_nat (Z.of_nat (length newFiles)
                     + (maxFiles - Z.of_nat (length (FileUploader.files st)))))
    with (length newFiles - Z.to_nat over)%nat by (subst over; lia).
  split; reflexivity.
Qed.

(** X18 with [maxFiles = -1] and the four sample files: the first three are
    considered: the PDF file and one PNG file are added, the EXE file is
    reported. *)
Lemma X18_drop_without_room_witness :
  let st' := FileUploaderEvents.step (-1) FileUploader.default_maxSize
               FileUploader.default_acceptedTypes FileUploader.initial
               (FileUploaderEvents.DropEvent false fixed_entropy four_files) in
  FileUploader.file <$> FileUploader.files st'
  = filter (fun f => FileUploader.validateFile FileUploader.default_maxSize
                       FileUploader.default_acceptedTypes f = None)
      (take 3 four_files)
  /\ FileUploader.errors st'
     = omap (FileUploader.validateFile FileUploader.default_maxSize
               FileUploader.default_acceptedTypes) (take 3 four_files).
Proof.
  apply (X18_drop_without_room (-1) FileUploader.default_maxSize
           FileUploader.default_acceptedTypes FileUploader.initial fixed_entropy
           four_files).
  simpl. lia.
Defined.

(** ** The labels of the multi-file uploader *)

Lemma extension_dot name :
  exists ext, FileUploaderEvents.extension name = Some ext
              /\ UploadBox.extension_of name = "." +:+ ext.
Proof.
  unfold FileUploaderEvents.extension, UploadBox.extension_of, JS.pop.
  destruct (last (JS.split "." name)) as [x|] eqn:E.
  - exists (JS.toLowerCase x). split; reflexivity.
  - apply last_None in E. now apply split_not_empty in E.
Qed.

(** The extensions with a label of their own are those of the table of the
    upload box. *)
Lemma label_cases ext :
  (ext ∈ ["pdf"; "jpg"; "jpeg"; "png"; "json"]
   /\ is_Some (UploadBox.get_property UploadBox.mimeTypes ("." +:+ ext))
   /\ FileUploaderEvents.switch_on (Some ext)
        [ ("pdf", "LC Document");
          ("jpg", "Supporting Image"); ("jpeg", "Supporting Image");
          ("png", "Supporting Image");
          ("json", "Data File") ] "Document"
      = (if String.eqb ext "pdf" then "LC Document"
         else if String.eqb ext "json" then "Data File" else "Supporting Image")
   /\ FileUploaderEvents.switch_on (Some ext)
        [ ("pdf", "text-red-500");
          ("jpg", "text-blue-500"); ("jpeg", "text-blue-500"); ("png", "text-blue-500");
          ("json", "text-green-500") ] "text-gray-500"
      = (if String.eqb ext "pdf" then "text-red-500"
         else if String.eqb ext "json" then "text-green-500" else "text-blue-500"))
  \/ ((ext ∉ ["pdf"; "jpg"; "jpeg"; "png"; "json"])
      /\ UploadBox.get_property UploadBox.mimeTypes ("." +:+ ext) = None
      /\ FileUploaderEvents.switch_on (Some ext)
           [ ("pdf", "LC Document");
             ("jpg", "Supporting Image"); ("jpeg", "Supporting Image");
             ("png", "Supporting Image");
             ("json", "Data File") ] "Document" = "Document"
      /\ FileUploaderEvents.switch_on (Some ext)
           [ ("pdf", "text-red-500");
             ("jpg", "text-blue-500"); ("jpeg", "text-blue-500");
             ("png", "text-blue-500");
             ("json", "text-green-500") ] "text-gray-500" = "text-gray-500").
Proof.
  destruct (decide (ext ∈ ["pdf"; "jpg"; "jpeg"; "png"; "json"])) as [Hin|Hout].
  - left. split; [exact Hin|].
    repeat (apply elem_of_cons in Hin as [->|Hin]);
      [| | | | |now apply elem_of_nil in Hin];
      (split; [eexists; reflexivity|split; reflexivity]).
  - right. split; [exact Hout|].
    assert (Hne : forall k, k ∈ ["pdf"; "jpg"; "jpeg"; "png"; "json"] ->
                            String.eqb k ext = false).
    { intros k Hk. apply String.eqb_neq. intros ->. contradiction. }
    assert (H1 := Hne "pdf" ltac:(set_solver)).
    assert (H2 := Hne "jpg" ltac:(set_solver)).
    assert (H3 := Hne "jpeg" ltac:(set_solver)).
    assert (H4 := Hne "png" ltac:(set_solver)).
    assert (H5 := Hne "json" ltac:(set_solver)).
    unfold FileUploaderEvents.switch_on, UploadBox.mimeTypes, UploadBox.get_property.
    cbn [List.find fst snd].
    change (String.eqb ".pdf" ("." +:+ ext)) with (String.eqb "pdf" ext).
    change (String.eqb ".jpg" ("." +:+ ext)) with (String.eqb "jpg" ext).
    change (String.eqb ".jpeg" ("." +:+ ext)) with (String.eqb "jpeg" ext).
    change (String.eqb ".png" ("." +:+ ext)) with (String.eqb "png" ext).
    change (String.eqb ".json" ("." +:+ ext)) with (String.eqb "json" ext).
    rewrite H1, H2, H3, H4, H5. repeat split; reflexivity.
Qed.

Ltac in_list :=
  repeat first [apply list_elem_of_here | apply list_elem_of_further].

Lemma uploader_accepts_type_ok maxSize acceptedTypes f :
  FileUploader.validateFile maxSize acceptedTypes f = None ->
  Guardrail.type_ok acceptedTypes f.
Proof.
  intros H.
  destruct (uploader_cases maxSize acceptedTypes f) as [(_ & E)|[(_ & _ & E)|(_ & Ht & _)]];
    [congruence|congruence|exact Ht].
Qed.

(** X19 (components/FileUploader.tsx, [getFileTypeIcon] and
    [getFileTypeLabel]): a file name gets a label and an icon colour of its
    own exactly when its extension has an entry in the content-type table of
    the upload box.  So a file the uploader accepts with its default
    [acceptedTypes] is never shown with the fallback label, and on the
    export page, whose [acceptedTypes] leave out JSON, every listed file is
    labelled as an LC document or a supporting image. *)
Theorem X19_file_type_labels :
  (forall name,
      (FileUploaderEvents.getFileTypeLabel name <> "Document" <->
       is_Some (UploadBox.get_property UploadBox.mimeTypes (UploadBox.extension_of name)))
      /\ (FileUploaderEvents.getFileTypeIcon name <> "text-gray-500" <->
          FileUploaderEvents.getFileTypeLabel name <> "Document"))
  /\ (forall maxSize f,
        FileUploader.validateFile maxSize FileUploader.default_acceptedTypes f = None ->
        FileUploaderEvents.getFileTypeLabel (File.name f)
          ∈ ["LC Document"; "Supporting Image"; "Data File"])
  /\ (forall f,
        FileUploader.validateFile ExportLCUpload.maxSize ExportLCUpload.acceptedTypes f
          = None ->
        FileUploaderEvents.getFileTypeLabel (File.name f)
          ∈ ["LC Document"; "Supporting Image"]).
Proof.
  split; [|split].
  - intros name. destruct (extension_dot name) as (ext & E1 & E2).
    unfold FileUploaderEvents.getFileTypeLabel, FileUploaderEvents.getFileTypeIcon.
    rewrite E1, E2.
    destruct (label_cases ext) as [(_ & Hs & -> & ->)|(_ & Hn & -> & ->)].
    + split; (split; [intros _|intros _]); try exact Hs;
        destruct (String.eqb ext "pdf"); try discriminate;
        destruct (String.eqb ext "json"); discriminate.
    + rewrite Hn. split; (split; [intros H|intros H]);
        solve [now destruct H|now destruct (is_Some_None H)].
  - intros maxSize f Hv. apply uploader_accepts_type_ok in Hv.
    unfold Guardrail.type_ok in Hv.
    destruct (extension_dot (File.name f)) as (ext & E1 & E2).
    unfold FileUploaderEvents.getFileTypeLabel. rewrite E1.
    destruct (label_cases ext) as [(_ & _ & -> & _)|(Hout & _)].
    + destruct (String.eqb ext "pdf"); [in_list|].
      destruct (String.eqb ext "json"); in_list.
    + exfalso. apply Hout. rewrite E2 in Hv.
      unfold FileUploader.default_acceptedTypes in Hv.
      change ("." +:+ ext) with (String "." ext) in Hv.
      repeat (apply elem_of_cons in Hv as [[= ->]|Hv]);
        [| | | | |now apply elem_of_nil in Hv]; in_list.
  - intros f Hv. apply uploader_accepts_type_ok in Hv.
    unfold Guardrail.type_ok in Hv.
    destruct (extension_dot (File.name f)) as (ext & E1 & E2).
    unfold FileUploaderEvents.getFileTypeLabel. rewrite E1.
    rewrite E2 in Hv. unfold ExportLCUpload.acceptedTypes in Hv.
    change ("." +:+ ext) with (String "." ext) in Hv.
    repeat (apply elem_of_cons in Hv as [[= ->]|Hv]);
      [| | | |now apply elem_of_nil in Hv]; vm_compute; in_list.
Qed.
